(** * PDF1: tiled-image roll templates with a stamped footer

    A shallow embedding of [PDF1.py]: the tile layout arithmetic of
    [create_tiled_image_pdf], the footer composition of
    [overlay_footer_and_add_text], the fallback generator
    [create_simple_footer], [verify_directories] and the driver [main].

    Numbers are the ones Python uses: [float] is IEEE 754 binary64
    (Rocq's primitive floats, round to nearest even), integers are [Z].
    The file system and the PDF and imaging libraries are modelled by an
    explicit world that every call threads through; an external call can
    fail at any time, which the world's fault oracle decides. *)

From Stdlib Require Import ZArith Floats Ascii String List Lia.
From stdpp Require Import gmap strings.
Import ListNotations.

Set Warnings "-inexact-float".
Local Open Scope Z_scope.

(** ** Python numbers *)

Module Py.

(** [float(n)] for an integer that a double holds exactly (|n| <= 2^53),
  which covers pixel counts, dpi values and repeat counts. *)
Definition float_of_int (z : Z) : float :=
if z <? 0 then PrimFloat.opp (PrimFloat.of_uint63 (Uint63.of_Z (- z)))
else PrimFloat.of_uint63 (Uint63.of_Z z).

(** [int(f)]: truncation toward zero; [None] is the [OverflowError] or
  [ValueError] that infinities and NaN raise. *)
Definition int_of_float (f : float) : option Z :=
match Prim2SF f with
| S754_zero _ => Some 0
| S754_finite s m e =>
    let a := match e with
             | Zneg p => Zpos m / 2 ^ Zpos p
             | _ => Zpos m * 2 ^ e
             end in
    Some (if s then - a else a)
| S754_infinity _ | S754_nan => None
end.

(** [a / b] on floats: [None] is [ZeroDivisionError]. *)
Definition truediv (a b : float) : option float :=
if PrimFloat.eqb b 0 then None else Some (a / b)%float.

(** [a / b] on integers (true division). *)
Definition int_truediv (a b : Z) : option float :=
truediv (float_of_int a) (float_of_int b).

(** [s.replace(old, new)]: every non-overlapping occurrence of [old], left
  to right.  [skip] counts the characters of a match still to drop. *)
Fixpoint replace_from (old new : string) (skip : nat) (s : string) : string :=
match s with
| EmptyString => EmptyString
| String c s' =>
    match skip with
    | S k => replace_from old new k s'
    | O =>
        if String.prefix old s
        then new +:+ replace_from old new (Nat.pred (String.length old)) s'
        else String c (replace_from old new O s')
    end
end.

(** Only used with a non-empty [old]. *)
Definition replace (s old new : string) : string := replace_from old new O s.

End Py.

(** ** Page geometry *)

Record Point := mkPoint { px : float; py : float }.

(** [fitz.Rect(x0, y0, x1, y1)] *)
Record Rect := mkRect { x0 : float; y0 : float; x1 : float; y1 : float }.

Definition Color : Type := float * float * float.

(** ** The tile layout loops of [create_tiled_image_pdf]

    The two nested [while] loops only compute with [x] and [y]; what
    happens at one tile (the [insert_image] call, guarded by its own
    [try]) does not influence them.  The loops are therefore written once,
    over the transformer [place] applied at every rectangle.  A [while]
    loop has no bound of its own: [fuel] bounds the iterations and [None]
    means the bound was reached. *)

Section TileLoops.
Context {St : Type} (place : Rect -> St -> St).
Variables template_width template_height tile_width tile_height : float.

(** [while x + tile_width <= template_width: ...; x += tile_width] *)
Fixpoint tile_row (fuel : nat) (x y : float) (s : St) : option St :=
  match fuel with
  | O => None
  | S fuel' =>
      if (x + tile_width <=? template_width)%float then
        let rect := mkRect x y (x + tile_width) (y + tile_height) in
        tile_row fuel' (x + tile_width)%float y (place rect s)
      else Some s
  end.

(** [while y < template_height: x = 0; <row>; y += tile_height] *)
Fixpoint tile_rows (row_fuel fuel : nat) (y : float) (s : St) : option St :=
  match fuel with
  | O => None
  | S fuel' =>
      if (y <? template_height)%float then
        match tile_row row_fuel 0%float y s with
        | Some s' => tile_rows row_fuel fuel' (y + tile_height)%float s'
        | None => None
        end
      else Some s
  end.
End TileLoops.

(** [tile_width] and [tile_height] as lines 90-91 compute them. *)
Definition tile_dims (template_width : float) (horizontal_repeats : Z)
    (image_width image_height : Z) : option (float * float) :=
  match Py.truediv template_width (Py.float_of_int horizontal_repeats) with
  | None => None
  | Some tile_width =>
      match Py.int_truediv image_width image_height with
      | None => None
      | Some ratio =>
          match Py.truediv tile_width ratio with
          | None => None
          | Some tile_height => Some (tile_width, tile_height)
          end
      end
  end.

(** The rectangles the loops visit, in visiting order. *)
Definition tile_rects (template_width template_height tile_width tile_height : float)
    (fuel : nat) : option (list Rect) :=
  tile_rows (fun r l => l ++ [r]) template_width template_height
    tile_width tile_height fuel fuel 0%float [].

(** ** Documents, files and the world *)

Inductive ImageSource :=
| FromFile (filename : string)
| FromPixmap (width height : Z).

(** What [insert_image], [insert_text], [draw_rect] and [draw_line] leave
    on a page. *)
Inductive Item :=
| Picture (rect : Rect) (source : ImageSource)
| Text (point : Point) (text : string) (fontsize : Z) (fontname : string)
       (color : option Color)
| Box (rect : Rect) (color fill : Color)
| Line (p q : Point) (color : Color) (width : Z).

Record Page := mkPage { page_width : float; page_height : float; items : list Item }.

Definition draw (it : Item) (p : Page) : Page :=
  mkPage (page_width p) (page_height p) (items p ++ [it]).

(** A path names a directory or a regular file. *)
Inductive Node :=
| Dir
| ImageFile (width height : Z)
| PdfFile (pages : list Page)
| TextFile (content : string).

(** A PIL image object and a PyMuPDF pixmap: only their sizes matter. *)
Record PILImage := mkImage { im_width : Z; im_height : Z }.
Record Pixmap := mkPixmap { pix_width : Z; pix_height : Z }.

(** A page object is a reference into its open document. *)
Definition PageRef : Type := nat * nat.

(** The calls into the operating system, PIL and PyMuPDF that can raise. *)
Inductive Op :=
| OpMakedirs (path : string)
| OpWrite (path : string)
| OpRemove (path : string)
| OpReplace (src dst : string)
| OpGetsize (path : string)
| OpImageOpen (path : string)
| OpImageResize (width height : Z)
| OpImageSave (path : string)
| OpDocNew
| OpDocOpen (path : string)
| OpDocSave (path : string)
| OpNewPage
| OpInsertImage (rect : Rect)
| OpInsertText (point : Point) (text : string)
| OpDraw
| OpGetPixmap
| OpGetcwd.

(** The world a run threads through: the file system, the working
    directory, the open documents (mutable objects, by handle) and the
    fault oracle.  [faults op t] says whether the external call [op] made
    at time [t] raises for a reason of its own (a transient I/O error, a
    refusal of the library); [clock] counts the external calls made. *)
Record World := mkWorld {
  fs : gmap string Node;
  cwd : string;
  docs : gmap nat (list Page);
  next_doc : nat;
  clock : nat;
  faults : Op -> nat -> bool
}.

Definition set_fs (f : gmap string Node -> gmap string Node) (w : World) : World :=
  mkWorld (f (fs w)) (cwd w) (docs w) (next_doc w) (clock w) (faults w).

Definition set_docs (f : gmap nat (list Page) -> gmap nat (list Page)) (w : World) : World :=
  mkWorld (fs w) (cwd w) (f (docs w)) (next_doc w) (clock w) (faults w).

Definition tick (w : World) : World :=
  mkWorld (fs w) (cwd w) (docs w) (next_doc w) (S (clock w)) (faults w).

(** ** Computations: a state monad with Python exceptions

    [Exn] is a raised [Exception]; [Hang] is a loop that ran out of fuel,
    which no [except] clause catches. *)

Inductive Outcome (A : Type) :=
| Ok (a : A)
| Exn
| Hang.
Arguments Ok {A} a.
Arguments Exn {A}.
Arguments Hang {A}.

Definition M (A : Type) : Type := World -> Outcome A * World.

Definition ret {A} (a : A) : M A := fun w => (Ok a, w).
Definition raise {A} : M A := fun w => (Exn, w).

Definition bind {A B} (m : M A) (k : A -> M B) : M B := fun w =>
  match m w with
  | (Ok a, w') => k a w'
  | (Exn, w') => (Exn, w')
  | (Hang, w') => (Hang, w')
  end.

Declare Scope py_scope.
Delimit Scope py_scope with py.
Notation "x <- m ;; k" := (bind m (fun x => k))
  (at level 100, m at next level, right associativity) : py_scope.
Notation "m ;;; k" := (bind m (fun _ => k))
  (at level 100, right associativity) : py_scope.
Local Open Scope py_scope.

(** [try: m  except Exception: handler] *)
Definition try_except {A} (m handler : M A) : M A := fun w =>
  match m w with
  | (Exn, w') => handler w'
  | r => r
  end.

(** A [try] block whose handler leaves the function: [None] tells the
    caller to take that exit. *)
Definition attempt {A} (m : M A) : M (option A) :=
  try_except (a <- m ;; ret (Some a)) (ret None).

(** An optional value whose absence is a raised exception. *)
Definition lift {A} (o : option A) : M A :=
  match o with Some a => ret a | None => raise end.

Definition get {A} (f : World -> A) : M A := fun w => (Ok (f w), w).
Definition modify (f : World -> World) : M unit := fun w => (Ok tt, f w).

(** One external call: it takes a tick and raises when the oracle says so. *)
Definition extern (op : Op) : M unit := fun w =>
  (if faults w op (clock w) then Exn else Ok tt, tick w).

(** ** The operating system, PIL and PyMuPDF *)

(** [os.path] and the renderer differ between platforms and library
    versions; the program is modelled over any of them. *)
Class Platform := {
  os_path_join : string -> string -> string;
  os_path_dirname : string -> string;
  os_path_basename : string -> string;
  os_path_splitext : string -> string * string;
  (** the size in pixels of the pixmap [get_pixmap()] renders for a page *)
  render_size : Page -> Z * Z
}.

Definition present (w : World) (path : string) : bool :=
  match fs w !! path with Some _ => true | None => false end.

Definition is_dir (node : option Node) : bool :=
  match node with Some Dir => true | _ => false end.

Definition is_file (node : option Node) : bool :=
  match node with Some Dir | None => false | Some _ => true end.

Definition is_image (node : option Node) : bool :=
  match node with Some (ImageFile _ _) => true | _ => false end.

Definition os_path_exists (path : string) : M bool := get (fun w => present w path).

(** [os.getcwd()]: it raises when the working directory is gone. *)
Definition os_getcwd : M string := extern OpGetcwd ;;; get cwd.

(** [os.makedirs(path, exist_ok=True)] *)
Definition os_makedirs (path : string) : M unit :=
  extern (OpMakedirs path) ;;;
  node <- get (fun w => fs w !! path) ;;
  if is_file node then raise
  else if is_dir node then ret tt
  else modify (set_fs (insert path Dir)).

(** Creating or overwriting the regular file [path]. *)
Definition write_node (op : Op) (path : string) (node : Node) : M unit :=
  extern op ;;;
  old <- get (fun w => fs w !! path) ;;
  if is_dir old then raise
  else modify (set_fs (insert path node)).

(** [with open(path, 'w') as f: f.write(content)] *)
Definition write_text (path content : string) : M unit :=
  write_node (OpWrite path) path (TextFile content).

Definition os_remove (path : string) : M unit :=
  extern (OpRemove path) ;;;
  node <- get (fun w => fs w !! path) ;;
  if is_file node then modify (set_fs (delete path))
  else raise.

(** [os.replace(src, dst)]: one step that moves the file [src] over [dst]. *)
Definition os_replace (src dst : string) : M unit :=
  extern (OpReplace src dst) ;;;
  node <- get (fun w => fs w !! src) ;;
  target <- get (fun w => fs w !! dst) ;;
  match node with
  | Some file =>
      if is_dir node || is_dir target then raise
      else modify (set_fs (fun m => <[dst := file]> (delete src m)))
  | None => raise
  end.

Definition os_path_getsize (path : string) : M unit :=
  extern (OpGetsize path) ;;;
  e <- get (fun w => present w path) ;;
  if e then ret tt else raise.

Definition Image_open (path : string) : M PILImage :=
  extern (OpImageOpen path) ;;;
  node <- get (fun w => fs w !! path) ;;
  match node with
  | Some (ImageFile width height) => ret (mkImage width height)
  | _ => raise
  end.

Definition Image_resize (image : PILImage) (width height : Z) : M PILImage :=
  extern (OpImageResize width height) ;;;
  ret (mkImage width height).

Definition Image_save (image : PILImage) (path : string) : M unit :=
  write_node (OpImageSave path) path (ImageFile (im_width image) (im_height image)).

(** A new document object holding [pages]. *)
Definition new_doc (pages : list Page) : M nat := fun w =>
  (Ok (next_doc w),
   mkWorld (fs w) (cwd w) (<[next_doc w := pages]> (docs w)) (S (next_doc w))
     (clock w) (faults w)).

Definition doc_pages (doc : nat) : M (list Page) :=
  pages <- get (fun w => docs w !! doc) ;; lift pages.

(** [fitz.open()] and [fitz.open(path)] *)
Definition fitz_open_new : M nat := extern OpDocNew ;;; new_doc [].

Definition fitz_open (path : string) : M nat :=
  extern (OpDocOpen path) ;;;
  node <- get (fun w => fs w !! path) ;;
  match node with
  | Some (PdfFile pages) => new_doc pages
  | _ => raise
  end.

Definition page_count (doc : nat) : M nat :=
  pages <- doc_pages doc ;; ret (length pages).

Definition doc_new_page (doc : nat) (width height : float) : M PageRef :=
  extern OpNewPage ;;;
  pages <- doc_pages doc ;;
  modify (set_docs (insert doc (pages ++ [mkPage width height []]))) ;;;
  ret (doc, length pages).

Definition doc_close (doc : nat) : M unit := modify (set_docs (delete doc)).

Definition doc_save (doc : nat) (path : string) : M unit :=
  pages <- doc_pages doc ;;
  write_node (OpDocSave path) path (PdfFile pages).

Definition get_page (page : PageRef) : M Page :=
  pages <- doc_pages (fst page) ;; lift (pages !! snd page).

(** Every drawing call appends one item to the page object. *)
Definition page_draw (op : Op) (page : PageRef) (it : Item) : M unit :=
  extern op ;;;
  pages <- doc_pages (fst page) ;;
  p <- lift (pages !! snd page) ;;
  modify (set_docs (insert (fst page) (<[snd page := draw it p]> pages))).

(** [page.insert_image(rect, filename=...)]: the file has to be an image. *)
Definition insert_image_file (page : PageRef) (rect : Rect) (filename : string) : M unit :=
  node <- get (fun w => fs w !! filename) ;;
  if is_image node
  then page_draw (OpInsertImage rect) page (Picture rect (FromFile filename))
  else extern (OpInsertImage rect) ;;; raise.

(** [page.insert_image(rect, pixmap=..., keep_proportion=True)] *)
Definition insert_image_pixmap (page : PageRef) (rect : Rect) (pixmap : Pixmap) : M unit :=
  page_draw (OpInsertImage rect) page
    (Picture rect (FromPixmap (pix_width pixmap) (pix_height pixmap))).

Definition insert_text (page : PageRef) (point : Point) (text : string)
    (fontsize : Z) (fontname : string) (color : option Color) : M unit :=
  page_draw (OpInsertText point text) page (Text point text fontsize fontname color).

Definition draw_rect (page : PageRef) (rect : Rect) (color fill : Color) : M unit :=
  page_draw OpDraw page (Box rect color fill).

Definition draw_line (page : PageRef) (p q : Point) (color : Color) (width : Z) : M unit :=
  page_draw OpDraw page (Line p q color width).

Definition get_pixmap `{Platform} (page : PageRef) : M Pixmap :=
  extern OpGetPixmap ;;;
  p <- get_page page ;;
  ret (mkPixmap (fst (render_size p)) (snd (render_size p))).

(** ** The program

    Every function below follows its Python text statement by statement.
    Left out: the [logging] calls and [traceback.print_exc] (they write to
    the log only) and [time.sleep] (no effect on the world).
    [os.path.exists] and the [os.path] string functions are taken not to
    raise.  A [try ... except Exception: return False] is an [attempt]
    whose [None] takes the early exit. *)

Section Program.
Context `{Platform}.
Local Open Scope float_scope.

Definition BASE_FOLDER : string := "C:/Users/john/Downloads/Folder_For_Uploader".
Definition TEMPLATE_IMAGES_FOLDER : string := os_path_join BASE_FOLDER "Templateimages".
Definition SCRIPTS_FOLDER : string := os_path_join BASE_FOLDER "Uptodatescripts".
Definition FOOTER_PATH : string := os_path_join SCRIPTS_FOLDER "Footer.pdf".

(** [verify_directories], one directory of the list after the other. *)
Fixpoint verify_each (directories : list string) : M bool :=
  match directories with
  | [] => ret true
  | directory :: rest =>
      e <- os_path_exists directory ;;
      made <- (if e then ret true
               else r <- attempt (os_makedirs directory) ;; ret (bool_decide (is_Some r))) ;;
      if negb made then ret false else
      let test_file := os_path_join directory "test_write.tmp" in
      r <- attempt (write_text test_file "test" ;;; os_remove test_file) ;;
      match r with
      | None => ret false
      | Some _ => verify_each rest
      end
  end.

Definition verify_directories : M bool :=
  verify_each [BASE_FOLDER; TEMPLATE_IMAGES_FOLDER; SCRIPTS_FOLDER].

(** One tile of the loop body (lines 125-130): a failed [insert_image] is
    logged and the tile skipped. *)
Definition place_tile (page : PageRef) (filename : string) (rect : Rect)
    (s : Z * World) : Z * World :=
  match insert_image_file page rect filename (snd s) with
  | (Ok _, w') => (fst s + 1, w')%Z
  | (_, w') => (fst s, w')
  end.

(** The tiling loops (lines 120-132); the result is [insertion_count]. *)
Definition insert_tiles (fuel : nat) (page : PageRef) (filename : string)
    (template_width template_height tile_width tile_height : float) : M Z := fun w =>
  match tile_rows (place_tile page filename) template_width template_height
          tile_width tile_height fuel fuel 0 (0%Z, w) with
  | Some (n, w') => (Ok n, w')
  | None => (Hang, w)
  end.

Definition create_tiled_image_pdf (fuel : nat) (output_pdf_path image_path : string)
    (template_width template_height : float) (dpi horizontal_repeats : Z) : M bool :=
  try_except
    (let output_dir := os_path_dirname output_pdf_path in
     e <- os_path_exists output_dir ;;
     (if e then ret tt else os_makedirs output_dir) ;;;
     e <- os_path_exists image_path ;;
     if negb e then ret false else
     r <- attempt (Image_open image_path) ;;
     match r with None => ret false | Some image =>
     r <- attempt (doc <- fitz_open_new ;;
                   page <- doc_new_page doc template_width template_height ;;
                   ret (doc, page)) ;;
     match r with None => ret false | Some (doc, page) =>
     dims <- lift (tile_dims template_width horizontal_repeats
                     (im_width image) (im_height image)) ;;
     let tile_width := fst dims in
     let tile_height := snd dims in
     scale <- lift (Py.int_truediv dpi 72) ;;
     tile_width_px <- lift (Py.int_of_float (tile_width * scale)) ;;
     tile_height_px <- lift (Py.int_of_float (tile_height * scale)) ;;
     let temp_dir := os_path_join (os_path_dirname output_pdf_path) "temp" in
     os_makedirs temp_dir ;;;
     let scaled_image_path :=
       os_path_join temp_dir ("scaled_image_" +:+ os_path_basename image_path) in
     r <- attempt (image' <- Image_resize image tile_width_px tile_height_px ;;
                   Image_save image' scaled_image_path) ;;
     match r with None => ret false | Some _ =>
     e <- os_path_exists scaled_image_path ;;
     if negb e then ret false else
     insertion_count <- insert_tiles fuel page scaled_image_path
                          template_width template_height tile_width tile_height ;;
     try_except
       (doc_save doc output_pdf_path ;;;
        doc_close doc ;;;
        e <- os_path_exists output_pdf_path ;;
        if e then os_path_getsize output_pdf_path ;;; ret true
        else ret false)
       (ret false)
     end end end)
    (ret false).

Definition create_simple_footer (output_path : string) (width height : float) : M bool :=
  doc <- fitz_open_new ;;
  page <- doc_new_page doc width height ;;
  draw_rect page (mkRect 0 0 width height) (0.95, 0.95, 0.95) (0.95, 0.95, 0.95) ;;;
  draw_line page (mkPoint 0 0) (mkPoint width 0) (0.8, 0.8, 0.8) 1 ;;;
  insert_text page (mkPoint 50 20) "Celebrating the art of giving with love" 12 "helv" None ;;;
  insert_text page (mkPoint 50 40) "Aspen & Arlo Team" 12 "helv" None ;;;
  insert_text page (mkPoint (width / 2 - 100) 30) "ASPEN & ARLO" 16 "helv" None ;;;
  insert_text page (mkPoint (width - 200) 20) "Pattern:" 12 "helv" None ;;;
  insert_text page (mkPoint (width - 200) 40) "Roll Width:" 12 "helv" None ;;;
  insert_text page (mkPoint (width - 200) 60) "Roll Length:" 12 "helv" None ;;;
  insert_text page (mkPoint (width - 150) 80) "aspenandarlo.com" 10 "helv" None ;;;
  doc_save doc output_path ;;;
  doc_close doc ;;;
  ret true.

(** [for p in paths: if os.path.exists(p): ...; break] *)
Fixpoint first_existing (paths : list string) : M (option string) :=
  match paths with
  | [] => ret None
  | p :: rest =>
      e <- os_path_exists p ;;
      if e then ret (Some p) else first_existing rest
  end.

(** Lines 166-191 of [overlay_footer_and_add_text]: the footer file to
    use; [None] is the [return False] after a failed synthesis. *)
Definition simple_footer_path (output_pdf_path : string) : string :=
  os_path_join (os_path_dirname output_pdf_path) "simple_footer.pdf".

Definition fallback_paths : list string :=
  [os_path_join TEMPLATE_IMAGES_FOLDER "Footer.pdf";
   os_path_join SCRIPTS_FOLDER "Footer.pdf";
   os_path_join BASE_FOLDER "Footer.pdf"].

Definition locate_footer (footer_path output_pdf_path : string)
    (template_width : float) : M (option string) :=
  e <- os_path_exists footer_path ;;
  if e then ret (Some footer_path) else
  found <- first_existing fallback_paths ;;
  match found with
  | Some fallback_path => ret (Some fallback_path)
  | None =>
      r <- attempt (create_simple_footer (simple_footer_path output_pdf_path)
                      template_width 100) ;;
      match r with
      | Some _ => ret (Some (simple_footer_path output_pdf_path))
      | None => ret None
      end
  end.
End Program.

Section Compositor.
Context `{Platform}.
Local Open Scope float_scope.

Definition font_name : string := "Helvetica".
Definition font_size : Z := 14.
Definition dark_grey_color : Color := (0.2, 0.2, 0.2).

(** Lines 193-214: both documents opened; [None] is a [return False]. *)
Definition open_documents (base_pdf_path footer_path : string) : M (option (nat * nat)) :=
  r <- attempt
         (base_doc <- fitz_open base_pdf_path ;;
          n <- page_count base_doc ;;
          if Nat.eqb n 0 then doc_close base_doc ;;; ret None else
          footer_doc <- fitz_open footer_path ;;
          n <- page_count footer_doc ;;
          if Nat.eqb n 0 then doc_close base_doc ;;; doc_close footer_doc ;;; ret None
          else ret (Some (base_doc, footer_doc))) ;;
  match r with
  | Some (Some d) => ret (Some d)
  | _ => ret None
  end.

(** Lines 225-228: the height of the footer band and its rectangle. *)
Definition footer_band (footer_pixmap : Pixmap) (template_width template_height : float)
    : option (float * Rect) :=
  let footer_width := template_width in
  match Py.int_truediv (pix_height footer_pixmap) (pix_width footer_pixmap) with
  | None => None
  | Some ratio =>
      let footer_height := ratio * footer_width in
      Some (footer_height,
            mkRect 0 (template_height - footer_height) footer_width template_height)
  end.

Definition stamp (page : PageRef) (point : Point) (text : string) : M unit :=
  insert_text page point text font_size font_name (Some dark_grey_color).

(** Lines 245-309: the three fields at their offsets from the footer
    band, the alternative placement when one of these calls raised, and
    nothing more when that raises too. *)
Definition primary_text (base_page : PageRef)
    (template_width template_height footer_height : float)
    (pattern_name roll_width roll_length : string) : M unit :=
  stamp base_page (mkPoint (template_width - 160) (template_height - footer_height + 22))
    pattern_name ;;;
  stamp base_page (mkPoint (template_width - 135) (template_height - footer_height + 37))
    roll_width ;;;
  stamp base_page (mkPoint (template_width - 135) (template_height - footer_height + 55))
    roll_length.

Definition alternative_text (base_page : PageRef) (template_width template_height : float)
    (pattern_name roll_width roll_length : string) : M unit :=
  stamp base_page (mkPoint (template_width - 160) (template_height - 78)) pattern_name ;;;
  stamp base_page (mkPoint (template_width - 135) (template_height - 58)) roll_width ;;;
  stamp base_page (mkPoint (template_width - 135) (template_height - 38)) roll_length.

Definition add_text (base_page : PageRef) (template_width template_height footer_height : float)
    (pattern_name roll_width roll_length : string) : M unit :=
  try_except
    (primary_text base_page template_width template_height footer_height
       pattern_name roll_width roll_length)
    (try_except
       (alternative_text base_page template_width template_height
          pattern_name roll_width roll_length)
       (ret tt)).

(** Lines 311-344: the final document written out. *)
Definition temp_path (output_pdf_path : string) : string :=
  Py.replace output_pdf_path ".pdf" "_temp.pdf".
Definition new_path (output_pdf_path : string) : string :=
  Py.replace output_pdf_path ".pdf" "_new.pdf".

Definition save_final (base_doc footer_doc : nat) (output_pdf_path : string) : M bool :=
  try_except
    (let temp_output_path := temp_path output_pdf_path in
     doc_save base_doc temp_output_path ;;;
     doc_close base_doc ;;;
     doc_close footer_doc ;;;
     e <- os_path_exists output_pdf_path ;;
     output_pdf_path <-
       (if e then
          try_except (os_remove output_pdf_path ;;; ret output_pdf_path)
            (ret (new_path output_pdf_path))
        else ret output_pdf_path) ;;
     os_replace temp_output_path output_pdf_path ;;;
     e <- os_path_exists output_pdf_path ;;
     if e then os_path_getsize output_pdf_path ;;; ret true
     else ret false)
    (ret false).

(** Lines 193-344: the composition once the footer file is known. *)
Definition compose_footer (base_pdf_path footer_path output_pdf_path : string)
    (template_width template_height : float)
    (pattern_name roll_width roll_length : string) : M bool :=
  opened <- open_documents base_pdf_path footer_path ;;
  match opened with None => ret false | Some (base_doc, footer_doc) =>
  let base_page := (base_doc, O) in
  let footer_page := (footer_doc, O) in
  r <- attempt (get_pixmap footer_page) ;;
  match r with
  | None => doc_close base_doc ;;; doc_close footer_doc ;;; ret false
  | Some footer_pixmap =>
  band <- lift (footer_band footer_pixmap template_width template_height) ;;
  let footer_height := fst band in
  let footer_rect := snd band in
  r <- attempt (insert_image_pixmap base_page footer_rect footer_pixmap) ;;
  match r with
  | None => doc_close base_doc ;;; doc_close footer_doc ;;; ret false
  | Some _ =>
  add_text base_page template_width template_height footer_height
    pattern_name roll_width roll_length ;;;
  save_final base_doc footer_doc output_pdf_path
  end end end.

Definition overlay_footer_and_add_text (base_pdf_path footer_path output_pdf_path : string)
    (template_width template_height : float)
    (pattern_name roll_width roll_length : string) : M bool :=
  try_except
    (e <- os_path_exists base_pdf_path ;;
     if negb e then ret false else
     located <- locate_footer footer_path output_pdf_path template_width ;;
     match located with
     | None => ret false
     | Some footer_path =>
         compose_footer base_pdf_path footer_path output_pdf_path
           template_width template_height pattern_name roll_width roll_length
     end)
    (ret false).

(** ** [main] *)

Definition template_6ft_width : float := 2171.53.
Definition template_6ft_height : float := 5285.94.
Definition template_15ft_width : float := 2171.53.
Definition template_15ft_height : float := 13061.90.

Definition alternate_paths : list string :=
  [os_path_join TEMPLATE_IMAGES_FOLDER "Footer.pdf";
   os_path_join BASE_FOLDER "Footer.pdf";
   os_path_join SCRIPTS_FOLDER "footer.pdf";
   os_path_join TEMPLATE_IMAGES_FOLDER "footer.pdf";
   os_path_join BASE_FOLDER "footer.pdf"].

(** Lines 406-428: the footer path handed to every overlay call. *)
Definition select_footer_path : M string :=
  e <- os_path_exists FOOTER_PATH ;;
  if e then ret FOOTER_PATH else
  found <- first_existing alternate_paths ;;
  match found with
  | Some alt_path => ret alt_path
  | None => ret FOOTER_PATH
  end.

(** One pass of a retry loop (lines 451-461). *)
Definition generate (fuel : nat) (tiled_pdf image_path : string)
    (template_width template_height : float)
    (footer_path base_name roll_length : string) : M bool :=
  try_except
    (tiled <- create_tiled_image_pdf fuel tiled_pdf image_path
                template_width template_height 300 6 ;;
     if tiled then
       overlay_footer_and_add_text tiled_pdf footer_path tiled_pdf
         template_width template_height base_name "30'" roll_length
     else ret false)
    (ret false).

(** [for attempt in range(max_attempts)]: the result is [success]. *)
Fixpoint retry (attempts : nat) (body : M bool) : M bool :=
  match attempts with
  | O => ret false
  | S rest =>
      success <- body ;;
      if success then ret true else retry rest body
  end.

Definition max_attempts : nat := 3.

(** The body of the loop over [args.image_paths] (lines 431-499). *)
Definition process_image (fuel : nat) (footer_path image_path : string) : M unit :=
  e <- os_path_exists image_path ;;
  if negb e then ret tt else
  let base_name := fst (os_path_splitext (os_path_basename image_path)) in
  current_dir <- os_getcwd ;;
  let tiled_pdf_6 := os_path_join current_dir (base_name +:+ "_6ft.pdf") in
  retry max_attempts
    (generate fuel tiled_pdf_6 image_path template_6ft_width template_6ft_height
       footer_path base_name "6'") ;;;
  let tiled_pdf_15 := os_path_join current_dir (base_name +:+ "_15ft.pdf") in
  retry max_attempts
    (generate fuel tiled_pdf_15 image_path template_15ft_width template_15ft_height
       footer_path base_name "15'") ;;;
  os_path_exists tiled_pdf_6 ;;;
  os_path_exists tiled_pdf_15 ;;;
  ret tt.

Fixpoint process_images (fuel : nat) (footer_path : string) (image_paths : list string)
    : M unit :=
  match image_paths with
  | [] => ret tt
  | image_path :: rest =>
      process_image fuel footer_path image_path ;;;
      process_images fuel footer_path rest
  end.

(** [main] after [parse_args]: [image_paths] is [args.image_paths]; the
    result is the exit code. *)
Definition main (fuel : nat) (image_paths : list string) : M Z :=
  try_except
    (verified <- verify_directories ;;
     if negb verified then ret 1%Z else
     footer_path <- select_footer_path ;;
     process_images fuel footer_path image_paths ;;;
     ret 0%Z)
    (ret 1%Z).
End Compositor.

(** ** A sample platform and sample worlds, for running the model *)

Module Sample.

(** The last occurrence of [sep] splits [s] in two. *)
Fixpoint split_last (sep : Ascii.ascii) (s : string) : option (string * string) :=
  match s with
  | EmptyString => None
  | String c s' =>
      match split_last sep s' with
      | Some (h, t) => Some (String c h, t)
      | None => if Ascii.eqb c sep then Some (EmptyString, s') else None
      end
  end.

(** POSIX-style paths, for relative and absolute paths without a
    trailing slash. *)
Definition join (a b : string) : string :=
  if String.prefix "/" b then b
  else if String.eqb a "" then b
  else a +:+ "/" +:+ b.

Definition dirname (p : string) : string :=
  match split_last "/"%char p with
  | Some (h, _) => if String.eqb h "" then "/" else h
  | None => ""
  end.

Definition basename (p : string) : string :=
  match split_last "/"%char p with
  | Some (_, t) => t
  | None => p
  end.

Definition splitext (p : string) : string * string :=
  match split_last "."%char (basename p) with
  | Some (h, t) =>
      if String.eqb h "" then (p, "")
      else (String.substring 0 (String.length p - String.length t - 1) p, "." +:+ t)
  | None => (p, "")
  end.

(** A pixmap at 72 dpi covers the page: its sides rounded up. *)
Definition ceil (f : float) : Z :=
  match Py.int_of_float f with
  | Some z => if (Py.float_of_int z <? f)%float then z + 1 else z
  | None => 0
  end.

#[export] Instance posix : Platform := {|
  os_path_join := join;
  os_path_dirname := dirname;
  os_path_basename := basename;
  os_path_splitext := splitext;
  render_size := fun p => (ceil (page_width p), ceil (page_height p))
|}.

Definition no_faults : Op -> nat -> bool := fun _ _ => false.

Definition world (files : list (string * Node)) (faults : Op -> nat -> bool) : World :=
  mkWorld (list_to_map files) "/work" ∅ O O faults.

Definition rose : string := "/data/rose.png".

Definition square : string := "/data/square.png".

(** A 2:1 image, a 1:1 image and the working directory, nothing else. *)
Definition bare : list (string * Node) :=
  [(rose, ImageFile 200 100); (square, ImageFile 100 100); ("/work", Dir)].

Definition pictures (p : Page) : list Rect :=
  omap (fun it => match it with Picture r (FromFile _) => Some r | _ => None end) (items p).

(** A tiled six-foot page already written, without and with a footer
    file at the primary path, and with one in the base folder only. *)
Definition tiled : string := "/work/rose_6ft.pdf".
Definition blank : Page := mkPage 2171.53 5285.94 [].
Definition footer_page : Page := mkPage 612 100 [].

Definition with_tiled : list (string * Node) :=
  (tiled, PdfFile [blank]) :: bare.

Definition with_footer : list (string * Node) :=
  (FOOTER_PATH, PdfFile [footer_page]) :: with_tiled.

Definition base_footer_only : list (string * Node) :=
  (os_path_join BASE_FOLDER "Footer.pdf", PdfFile [footer_page]) :: with_tiled.

(** The same with the tiled document open under handle 0 and the footer
    image already on its page. *)
Definition footer_picture : Item :=
  Picture (mkRect 0 5185.94 2171.53 5285.94) (FromPixmap 2172 100).

Definition editing (faults : Op -> nat -> bool) : World :=
  mkWorld (list_to_map with_tiled) "/work"
    {[ O := [mkPage 2171.53 5285.94 [footer_picture]] ]} 1 O faults.


End Sample.

(** ** Vocabulary of the statements *)

(** The value of a loop variable that started at [v] after [k] additions
    of [d]: the [y] of row [k] is [advance tile_height k 0], the [x] of
    column [k] is [advance tile_width k 0]. *)
Definition advance (d : float) (k : nat) (v : float) : float :=
  Nat.iter k (fun u => (u + d)%float) v.

(** The tile rectangle whose top-left corner is [(x, y)]: its full size,
    whatever the template height. *)
Definition tile_at (tile_width tile_height x y : float) : Rect :=
  mkRect x y (x + tile_width) (y + tile_height).

(** Row [k] of a layout with [columns] tiles per row. *)
Definition grid_row (tile_width tile_height : float) (columns k : nat) : list Rect :=
  map (fun j => tile_at tile_width tile_height
                  (advance tile_width j 0) (advance tile_height k 0))
      (seq 0 columns).

Definition grid (tile_width tile_height : float) (columns rows : nat) : list Rect :=
  concat (map (grid_row tile_width tile_height columns) (seq 0 rows)).

(** No external call fails for a reason of its own. *)
Definition calm (w : World) : Prop := forall op t, faults w op t = false.

(** [faults] decided by the call alone, at every time. *)
Definition fails_exactly (bad : Op -> bool) (w : World) : Prop :=
  forall op t, faults w op t = bad op.

(** What a computation can end in, and what it leaves of the world. *)
Definition no_raise {A} (m : M A) : Prop := forall w, fst (m w) <> Exn.
Definition no_hang {A} (m : M A) : Prop := forall w, fst (m w) <> Hang.
Definition returns {A} (m : M A) : Prop := forall w, exists a w', m w = (Ok a, w').
Definition ensures {A} (m : M A) (Q : A -> World -> Prop) : Prop :=
  forall w a w', m w = (Ok a, w') -> Q a w'.




(** Fault oracles of the statements: only [os.remove] of [out] raises;
    only [os.replace] raises; only [insert_text] raises. *)
Definition remove_refused (out : string) (op : Op) : bool :=
  match op with OpRemove p => String.eqb p out | _ => false end.

Definition replace_refused (op : Op) : bool :=
  match op with OpReplace _ _ => true | _ => false end.

Definition text_refused (op : Op) : bool :=
  match op with OpInsertText _ _ => true | _ => false end.

(** The page the composition leaves: what the base page held, the footer
    image over the full width at the bottom, then the three fields. *)
Definition composed (pg : Page) (pix : Pixmap) (W Ht fh : float)
    (name rw rl : string) : Page :=
  mkPage (page_width pg) (page_height pg)
    (items pg ++
     [Picture (mkRect 0 (Ht - fh) W Ht) (FromPixmap (pix_width pix) (pix_height pix));
      Text (mkPoint (W - 160) (Ht - fh + 22)) name 14 "Helvetica" (Some (0.2, 0.2, 0.2));
      Text (mkPoint (W - 135) (Ht - fh + 37)) rw 14 "Helvetica" (Some (0.2, 0.2, 0.2));
      Text (mkPoint (W - 135) (Ht - fh + 55)) rl 14 "Helvetica" (Some (0.2, 0.2, 0.2))])%float.

(** The page [create_simple_footer] draws. *)
Definition simple_footer_page (width height : float) : Page :=
  mkPage width height
    [Box (mkRect 0 0 width height) (0.95, 0.95, 0.95) (0.95, 0.95, 0.95);
     Line (mkPoint 0 0) (mkPoint width 0) (0.8, 0.8, 0.8) 1;
     Text (mkPoint 50 20) "Celebrating the art of giving with love" 12 "helv" None;
     Text (mkPoint 50 40) "Aspen & Arlo Team" 12 "helv" None;
     Text (mkPoint (width / 2 - 100) 30) "ASPEN & ARLO" 16 "helv" None;
     Text (mkPoint (width - 200) 20) "Pattern:" 12 "helv" None;
     Text (mkPoint (width - 200) 40) "Roll Width:" 12 "helv" None;
     Text (mkPoint (width - 200) 60) "Roll Length:" 12 "helv" None;
     Text (mkPoint (width - 150) 80) "aspenandarlo.com" 10 "helv" None]%float.

Definition pixmap_of `{Platform} (p : Page) : Pixmap :=
  mkPixmap (fst (render_size p)) (snd (render_size p)).

(** A result [True] comes with the file [out] in place. *)
Definition exists_when_true (out : string) (b : bool) (w : World) : Prop :=
  b = true -> present w out = true.

(** ** Vocabulary of the exit code *)

(** A node that is not an image of a size outside [allowed]. *)
Definition node_allowed (allowed : Z -> Z -> Prop) (node : Node) : Prop :=
  forall iw ih, node = ImageFile iw ih -> allowed iw ih.

(** Every image file has an allowed size. *)
Definition map_allowed (allowed : Z -> Z -> Prop) (m : gmap string Node) : Prop :=
  forall p node, m !! p = Some node -> node_allowed allowed node.

Definition images_allowed (allowed : Z -> Z -> Prop) (w : World) : Prop :=
  map_allowed allowed (fs w).

(** [os.getcwd] fails at every time ([true]) or at none ([false]). *)
Definition getcwd_fails (b : bool) (w : World) : Prop :=
  forall t, faults w OpGetcwd t = b.

Definition sound (allowed : Z -> Z -> Prop) (b : bool) (w : World) : Prop :=
  images_allowed allowed w /\ getcwd_fails b w.

(** The tiling loops of both templates end within [fuel] for an image of
    [iw] by [ih] pixels. *)
Definition loops_end (fuel : nat) (iw ih : Z) : Prop :=
  forall tw th, tile_dims 2171.53 6 iw ih = Some (tw, th) ->
    tile_rects 2171.53 5285.94 tw th fuel <> None /\
    tile_rects 2171.53 13061.90 tw th fuel <> None.

(** The size in pixels of the scaled copy written for an image of [iw] by
    [ih] pixels (lines 90-96, at 300 dpi and six repeats). *)
Definition scaled_to (iw ih wpx hpx : Z) : Prop :=
  exists tw th scale,
    tile_dims 2171.53 6 iw ih = Some (tw, th) /\
    Py.int_truediv 300 72 = Some scale /\
    Py.int_of_float (tw * scale) = Some wpx /\
    Py.int_of_float (th * scale) = Some hpx.

(** The scaled copies of allowed images are allowed. *)
Definition sizes_closed (allowed : Z -> Z -> Prop) : Prop :=
  forall iw ih wpx hpx, allowed iw ih -> scaled_to iw ih wpx hpx -> allowed wpx hpx.

(** From a world in [I], [m] ends (it does not hang) in a world in [I],
    with a result in [Q] when it returns. *)
Definition keeps {A} (I : World -> Prop) (m : M A) (Q : A -> Prop) : Prop :=
  forall w, I w ->
    match m w with
    | (Ok a, w') => I w' /\ Q a
    | (Exn, w') => I w'
    | (Hang, _) => False
    end.

(** From a world in [I], [m] returns, in a world in [I]. *)
Definition total {A} (I : World -> Prop) (m : M A) : Prop :=
  forall w, I w -> exists a w', m w = (Ok a, w') /\ I w'.


(** ** Vocabulary of the further properties *)

(** What [fitz.open] cannot give a first page of: a directory, or a PDF
    without pages. *)
Definition unusable (node : option Node) : bool :=
  match node with Some Dir | Some (PdfFile []) => true | _ => false end.

(** Only [doc.save] raises. *)
Definition save_refused (op : Op) : bool :=
  match op with OpDocSave _ => true | _ => false end.

(** Only [get_pixmap] raises. *)
Definition pixmap_refused (op : Op) : bool :=
  match op with OpGetPixmap => true | _ => false end.

(** Only [insert_image] raises, at the rectangles [skip] selects. *)
Definition insert_refused (skip : Rect -> bool) (op : Op) : bool :=
  match op with OpInsertImage r => skip r | _ => false end.

(** The rectangles whose [insert_image] call goes through, and the tiles
    they leave on the page. *)
Definition kept (skip : Rect -> bool) (rects : list Rect) : list Rect :=
  List.filter (fun r => negb (skip r)) rects.

Definition tile_pictures (filename : string) (rects : list Rect) : list Item :=
  map (fun r => Picture r (FromFile filename)) rects.

(** The scaled copy of the image that [create_tiled_image_pdf] writes. *)
Definition temp_dir_of `{Platform} (output_pdf_path : string) : string :=
  os_path_join (os_path_dirname output_pdf_path) "temp".

Definition scaled_image_path_of `{Platform} (output_pdf_path image_path : string) : string :=
  os_path_join (temp_dir_of output_pdf_path)
    ("scaled_image_" +:+ os_path_basename image_path).

(** The file [verify_directories] writes into a directory and removes. *)
Definition probe `{Platform} (directory : string) : string :=
  os_path_join directory "test_write.tmp".

(** From [w] to [w'] no document was opened or closed and the only
    change of the file system is that directories were created. *)
Definition only_new_directories (w w' : World) : Prop :=
  docs w' = docs w /\
  forall p, fs w' !! p = fs w !! p \/ (fs w !! p = None /\ fs w' !! p = Some Dir).

(** A regular file that is not an image. *)
Definition other_file (image : string) (w : World) : Prop :=
  present w image = true /\ is_image (fs w !! image) = false.

(** Further sample worlds. *)
Module Cases.
Import Sample.
Local Open Scope float_scope.

Definition footer_ratio : float := Py.float_of_int 100 / Py.float_of_int 612.

(** An output path that does not contain [.pdf]. *)
Definition plain_out : string := "/work/rose_final".

(** A file at the tiled path that has no page. *)
Definition with_empty_base : list (string * Node) :=
  (FOOTER_PATH, PdfFile [footer_page]) :: (tiled, PdfFile []) :: bare.

(** The tiles of the first column fail. *)
Definition first_column (r : Rect) : bool := (x0 r =? 0)%float.

End Cases.


(** * Properties *)

(** ** Floats *)

Lemma positive_nonzero (r : float) : (0 <? r)%float = true -> (r =? 0)%float = false.
Proof.
  rewrite FloatAxioms.ltb_spec, FloatAxioms.eqb_spec.
  change (Prim2SF 0) with (S754_zero false).
  destruct (Prim2SF r) as [ | | | s m e]; try destruct s; cbn; congruence.
Qed.

Lemma advance_next d k v : advance d (S k) v = advance d k (v + d)%float.
Proof. unfold advance. induction k as [|k IH]; simpl; [reflexivity|]. simpl in IH. now rewrite IH. Qed.

(** ** The tiling loops *)

Section TileFacts.
Context {St : Type} (place : Rect -> St -> St).
Variables W H tw th : float.

Lemma tile_row_more fuel fuel' x y s s' :
  tile_row place W tw th fuel x y s = Some s' -> (fuel <= fuel')%nat ->
  tile_row place W tw th fuel' x y s = Some s'.
Proof.
  revert fuel' x s. induction fuel as [|n IH]; intros fuel' x s E L; [discriminate|].
  destruct fuel' as [|n']; [lia|]. simpl in *.
  destruct (x + tw <=? W)%float; [|exact E]. apply IH; [exact E | lia].
Qed.

Lemma tile_rows_more rf rf' fuel fuel' y s s' :
  tile_rows place W H tw th rf fuel y s = Some s' ->
  (rf <= rf')%nat -> (fuel <= fuel')%nat ->
  tile_rows place W H tw th rf' fuel' y s = Some s'.
Proof.
  revert fuel' y s. induction fuel as [|n IH]; intros fuel' y s E Lr L; [discriminate|].
  destruct fuel' as [|n']; [lia|]. simpl in *.
  destruct (y <? H)%float; [|exact E].
  destruct (tile_row place W tw th rf 0 y s) as [s1|] eqn:R; [|discriminate].
  rewrite (tile_row_more _ _ _ _ _ _ R Lr). apply IH; [exact E | exact Lr | lia].
Qed.

(** A row ends as soon as the next tile would not fit. *)
Lemma tile_row_ends m : forall fuel x y s,
  (advance tw m x + tw <=? W)%float = false -> (m < fuel)%nat ->
  exists s', tile_row place W tw th fuel x y s = Some s'.
Proof.
  induction m as [|m IH]; intros fuel x y s Hstop Hlt;
    (destruct fuel as [|n]; [lia|]); simpl.
  - simpl in Hstop. rewrite Hstop. eauto.
  - destruct (x + tw <=? W)%float; [|eauto].
    apply IH; [|lia]. rewrite <- advance_next. exact Hstop.
Qed.

Lemma tile_rows_ends m n : forall fuel rf y s,
  (advance tw m 0 + tw <=? W)%float = false -> (m < rf)%nat ->
  (advance th n y <? H)%float = false -> (n < fuel)%nat ->
  exists s', tile_rows place W H tw th rf fuel y s = Some s'.
Proof.
  induction n as [|n IH]; intros fuel rf y s Hrow Hm Hstop Hlt;
    (destruct fuel as [|f]; [lia|]); simpl.
  - simpl in Hstop. rewrite Hstop. eauto.
  - destruct (y <? H)%float; [|eauto].
    destruct (tile_row_ends m rf 0%float y s Hrow Hm) as [s1 ->].
    apply IH; auto; [|lia]. rewrite <- advance_next. exact Hstop.
Qed.
End TileFacts.

(** The loops collecting rectangles: what one row and all rows append. *)
Lemma tile_row_collects W tw th fuel : forall x y l l',
  tile_row (fun r l => l ++ [r]) W tw th fuel x y l = Some l' ->
  exists n, l' = l ++ map (fun j => tile_at tw th (advance tw j x) y) (seq 0 n) /\
            (forall j, (j < n)%nat -> (advance tw j x + tw <=? W)%float = true) /\
            (advance tw n x + tw <=? W)%float = false.
Proof.
  induction fuel as [|f IH]; intros x y l l' E; [discriminate|]. simpl in E.
  destruct (x + tw <=? W)%float eqn:G.
  - apply IH in E as (n & -> & Hfit & Hstop). exists (S n). split; [|split].
    + rewrite <- app_assoc. f_equal. simpl. f_equal.
      rewrite <- seq_shift, map_map. apply map_ext. intros j. now rewrite advance_next.
    + intros [|j] Hj; [exact G|]. rewrite advance_next. apply Hfit. lia.
    + now rewrite advance_next.
  - injection E as <-. exists O. simpl. rewrite app_nil_r. repeat split; [|exact G].
    intros j Hj. lia.
Qed.

Lemma SFcompare_swap (a b : spec_float) :
  SFcompare b a = option_map CompOpp (SFcompare a b).
Proof.
  destruct a as [sa|sa| |sa ma ea], b as [sb|sb| |sb mb eb]; try reflexivity;
    try (destruct sa; reflexivity); try (destruct sb; reflexivity);
    try (destruct sa, sb; reflexivity).
  cbn. f_equal. destruct sa, sb; try reflexivity.
  - rewrite (Z.compare_antisym ea eb).
    destruct (ea ?= eb)%Z eqn:E; cbn; try reflexivity.
    change (Pos.compare_cont Eq mb ma) with (mb ?= ma)%positive.
    change (Pos.compare_cont Eq ma mb) with (ma ?= mb)%positive.
    now rewrite (Pos.compare_antisym ma mb).
  - rewrite (Z.compare_antisym ea eb).
    destruct (ea ?= eb)%Z eqn:E; cbn; try reflexivity.
    change (Pos.compare_cont Eq mb ma) with (mb ?= ma)%positive.
    change (Pos.compare_cont Eq ma mb) with (ma ?= mb)%positive.
    now rewrite (Pos.compare_antisym ma mb).
Qed.

(** On numbers (no NaN) "not below" is "at least". *)
Lemma not_below_at_least (y h : float) :
  (y <? h)%float = false -> (y =? y)%float = true -> (h =? h)%float = true ->
  (h <=? y)%float = true.
Proof.
  rewrite FloatAxioms.ltb_spec, !FloatAxioms.eqb_spec, FloatAxioms.leb_spec.
  unfold SFltb, SFeqb, SFleb. rewrite (SFcompare_swap (Prim2SF y) (Prim2SF h)).
  destruct (Prim2SF y) as [sa|sa| |sa ma ea], (Prim2SF h) as [sb|sb| |sb mb eb];
    cbn; try discriminate; try reflexivity;
    try (destruct sa; cbn; congruence); try (destruct sb; cbn; congruence);
    try (destruct sa, sb; cbn; congruence).
  intros L _ _. 
  destruct (match sa, sb with
            | true, true => match (ea ?= eb)%Z with Eq => CompOpp (Pos.compare_cont Eq ma mb) | Lt => Gt | Gt => Lt end
            | true, false => Lt
            | false, true => Gt
            | false, false => match (ea ?= eb)%Z with Eq => Pos.compare_cont Eq ma mb | Lt => Lt | Gt => Gt end
            end); cbn; congruence.
Qed.

Lemma first_stop_unique (P : nat -> bool) n n' :
  (forall j, (j < n)%nat -> P j = true) -> P n = false ->
  (forall j, (j < n')%nat -> P j = true) -> P n' = false -> n = n'.
Proof.
  intros A B A' B'. destruct (Nat.lt_trichotomy n n') as [L | [E | L]]; [|exact E|].
  - rewrite (A' n L) in B. discriminate.
  - rewrite (A n' L) in B'. discriminate.
Qed.

Lemma tile_rows_collects W H tw th rf fuel : forall y l l',
  tile_rows (fun r l => l ++ [r]) W H tw th rf fuel y l = Some l' ->
  exists rows cols,
    l' = l ++ concat (map (fun k => map (fun j => tile_at tw th (advance tw j 0) (advance th k y))
                                      (seq 0 cols)) (seq 0 rows)) /\
    (forall k, (k < rows)%nat -> (advance th k y <? H)%float = true) /\
    (advance th rows y <? H)%float = false /\
    ((0 < rows)%nat ->
       (forall j, (j < cols)%nat -> (advance tw j 0 + tw <=? W)%float = true) /\
       (advance tw cols 0 + tw <=? W)%float = false).
Proof.
  induction fuel as [|f IH]; intros y l l' E; [discriminate|]. simpl in E.
  destruct (y <? H)%float eqn:G.
  - destruct (tile_row _ W tw th rf 0 y l) as [l1|] eqn:R; [|discriminate].
    apply tile_row_collects in R as (n & -> & Hfit & Hstop).
    apply IH in E as (rows & cols & -> & Hrows & Hend & Hcols).
    assert (Hn : rows = O \/ cols = n).
    { destruct rows as [|r]; [now left|right].
      destruct Hcols as [Hc Hs]; [lia|].
      apply (first_stop_unique (fun j => (advance tw j 0 + tw <=? W)%float)); assumption. }
    exists (S rows), n. split; [|split; [|split]].
    + rewrite <- app_assoc. f_equal. simpl. f_equal.
      destruct Hn as [-> | ->]; [reflexivity|].
      rewrite <- seq_shift, map_map. f_equal. apply map_ext. intros k.
      apply map_ext. intros j. now rewrite advance_next.
    + intros [|k] Hk; [exact G|]. rewrite advance_next. apply Hrows. lia.
    + now rewrite advance_next.
    + intros _. split; assumption.
  - injection E as <-. exists O, O. simpl. rewrite app_nil_r.
    repeat split; [intros; lia | exact G | lia | lia].
Qed.

(** The loops with any body do at every rectangle of [tile_rects], in
    order, what the body does. *)
Lemma tile_row_any {St} (place : Rect -> St -> St) W tw th fuel : forall x y s l,
  match tile_row (fun r l => l ++ [r]) W tw th fuel x y l with
  | Some l' => exists row, l' = l ++ row /\
      tile_row place W tw th fuel x y s = Some (fold_left (fun s r => place r s) row s)
  | None => tile_row place W tw th fuel x y s = None
  end.
Proof.
  induction fuel as [|f IH]; intros x y s l; simpl; [reflexivity|].
  destruct (x + tw <=? W)%float.
  - specialize (IH (x + tw)%float y (place (mkRect x y (x + tw) (y + th)) s)
                   (l ++ [mkRect x y (x + tw) (y + th)])).
    destruct (tile_row (fun r l => l ++ [r]) W tw th f _ y _) as [l'|]; [|exact IH].
    destruct IH as (row & -> & E). exists (mkRect x y (x + tw) (y + th) :: row).
    split; [now rewrite <- app_assoc | exact E].
  - exists []. split; [now rewrite app_nil_r | reflexivity].
Qed.

Lemma tile_rows_any {St} (place : Rect -> St -> St) W H tw th rf fuel : forall y s l,
  match tile_rows (fun r l => l ++ [r]) W H tw th rf fuel y l with
  | Some l' => exists rects, l' = l ++ rects /\
      tile_rows place W H tw th rf fuel y s = Some (fold_left (fun s r => place r s) rects s)
  | None => tile_rows place W H tw th rf fuel y s = None
  end.
Proof.
  induction fuel as [|f IH]; intros y s l; simpl; [reflexivity|].
  destruct (y <? H)%float.
  - pose proof (tile_row_any place W tw th rf 0%float y s l) as R.
    destruct (tile_row (fun r l => l ++ [r]) W tw th rf 0 y l) as [l1|].
    + destruct R as (row & -> & ->).
      specialize (IH (y + th)%float (fold_left (fun s r => place r s) row s) (l ++ row)).
      destruct (tile_rows (fun r l => l ++ [r]) W H tw th rf f _ _) as [l'|].
      * destruct IH as (rects & -> & E). exists (row ++ rects).
        split; [now rewrite <- app_assoc | now rewrite fold_left_app].
      * exact IH.
    + now rewrite R.
  - exists []. split; [now rewrite app_nil_r | reflexivity].
Qed.

Lemma tile_rows_visit {St} (place : Rect -> St -> St) W H tw th fuel s :
  tile_rows place W H tw th fuel fuel 0%float s =
  option_map (fun rects => fold_left (fun s r => place r s) rects s)
    (tile_rects W H tw th fuel).
Proof.
  unfold tile_rects. pose proof (tile_rows_any place W H tw th fuel fuel 0%float s []) as A.
  destruct (tile_rows (fun r l => l ++ [r]) W H tw th fuel fuel 0 []) as [l'|]; simpl.
  - destruct A as (rects & -> & E). exact E.
  - exact A.
Qed.

Lemma tile_dims_defined (W : float) (iw ih : Z) (r : float) :
  Py.int_truediv iw ih = Some r -> (0 <? r)%float = true ->
  tile_dims W 6 iw ih = Some ((W / 6)%float, (W / 6 / r)%float).
Proof.
  intros Hr Hpos. unfold tile_dims. rewrite Hr.
  change (Py.truediv W (Py.float_of_int 6)) with (Some (W / 6)%float).
  unfold Py.truediv. now rewrite (positive_nonzero r Hpos).
Qed.

(** C1: with six repeats and an image of aspect ratio [r > 0], the tile is
    [template_width / 6] wide and [tile_width / r] high.  The rectangles
    laid are exactly [rows] rows of [cols] tiles: the rows start at
    [y = 0], each [tile_height] below the one before, a row is laid at
    every [y] below [template_height] and the loop stops at the first [y]
    that is not, which on numbers (no NaN) is the first [y] at or above
    [template_height]; so a template of positive height gets at least
    the row at [y = 0].  Every row holds the same tiles, one at every
    [x = 0, tile_width, 2 tile_width, ...] whose right edge is within
    [template_width], hence at least one when the first tile fits.
    Every tile, the last row's too, has its full height (its lower edge
    is [y + tile_height], never cut at [template_height]), and the tiles
    of the last row are among the rectangles laid.  The loops return as
    soon as [fuel] exceeds the number of rows and of columns. *)
Theorem tiling_rows_unclipped (W H : float) (iw ih : Z) (r : float) :
  Py.int_truediv iw ih = Some r -> (0 <? r)%float = true ->
  let tw := (W / 6)%float in
  let th := (tw / r)%float in
  tile_dims W 6 iw ih = Some (tw, th) /\
  (forall fuel rects, tile_rects W H tw th fuel = Some rects ->
     exists rows cols,
       rects = grid tw th cols rows /\
       (forall k, (k < rows)%nat -> (advance th k 0 <? H)%float = true) /\
       (advance th rows 0 <? H)%float = false /\
       ((advance th rows 0 =? advance th rows 0)%float = true -> (H =? H)%float = true ->
        (H <=? advance th rows 0)%float = true) /\
       ((0 <? H)%float = true ->
          (0 < rows)%nat /\
          (forall j, (j < cols)%nat -> (advance tw j 0 + tw <=? W)%float = true) /\
          (advance tw cols 0 + tw <=? W)%float = false /\
          ((0 + tw <=? W)%float = true -> (0 < cols)%nat) /\
          (forall j, (j < cols)%nat ->
             In (tile_at tw th (advance tw j 0) (advance th (rows - 1) 0)) rects)) /\
       (forall t, In t rects ->
          exists k, (k < rows)%nat /\ y0 t = advance th k 0 /\
                    y1 t = (advance th k 0 + th)%float)) /\
  (forall rows cols fuel,
     (advance th rows 0 <? H)%float = false ->
     (advance tw cols 0 + tw <=? W)%float = false ->
     (rows < fuel)%nat -> (cols < fuel)%nat ->
     exists rects, tile_rects W H tw th fuel = Some rects).
Proof.
  intros Hr Hpos tw th. split; [|split].
  - exact (tile_dims_defined W iw ih r Hr Hpos).
  - intros fuel rects E. unfold tile_rects in E.
    apply tile_rows_collects in E as (rows & cols & -> & Hrows & Hend & Hcols).
    exists rows, cols. cbn [app].
    split; [reflexivity|]. split; [exact Hrows|]. split; [exact Hend|].
    split; [now apply not_below_at_least|]. split.
    + intros HH. assert (Hpos' : (0 < rows)%nat).
      { destruct rows as [|n]; [|lia]. change (advance th 0 0) with 0%float in Hend.
        congruence. }
      destruct (Hcols Hpos') as [Hfit Hstop].
      split; [exact Hpos'|]. split; [exact Hfit|]. split; [exact Hstop|]. split.
      * intros H0. destruct cols as [|c]; [|lia].
        change (advance tw 0 0) with 0%float in Hstop. congruence.
      * intros j Hj. apply in_concat.
        exists (map (fun j => tile_at tw th (advance tw j 0) (advance th (rows - 1) 0))
                  (seq 0 cols)).
        split.
        -- apply in_map_iff. exists (rows - 1)%nat. split; [reflexivity|].
           apply in_seq. lia.
        -- apply in_map_iff. exists j. split; [reflexivity|]. apply in_seq. lia.
    + intros t Ht.
      apply in_concat in Ht as (row & Hrow & Ht).
      apply in_map_iff in Hrow as (k & <- & Hk). apply in_seq in Hk.
      apply in_map_iff in Ht as (j & <- & _).
      exists k. repeat split. lia.
  - intros rows cols fuel Hend Hstop Hr' Hc'. unfold tile_rects.
    exact (tile_rows_ends _ W H tw th cols rows fuel fuel 0%float [] Hstop Hc' Hend Hr').
Qed.

Lemma tiling_rows_unclipped_witness :
  let tw := (2171.53 / 6)%float in
  let th := (tw / 2)%float in
  Py.int_truediv 200 100 = Some 2%float /\ (0 <? 2)%float = true /\
  tile_dims 2171.53 6 200 100 = Some (tw, th) /\
  exists rects, tile_rects 2171.53 5285.94 tw th 31 = Some rects /\
    rects = grid tw th 6 30 /\ length rects = 180%nat /\
    In (tile_at tw th (advance tw 5 0) (advance th 29 0)) rects /\
    (5285.94 <? advance th 29 0 + th)%float = true.
Proof.
  intros tw th.
  assert (A : Py.int_truediv 200 100 = Some 2%float) by (vm_compute; reflexivity).
  assert (B : (0 <? 2)%float = true) by (vm_compute; reflexivity).
  destruct (tiling_rows_unclipped 2171.53 5285.94 200 100 2 A B) as (D & G & T).
  split; [exact A|]. split; [exact B|]. split; [exact D|].
  destruct (T 30%nat 6%nat 31%nat) as (rects & E);
    [vm_compute; reflexivity | vm_compute; reflexivity | lia | lia |].
  exists rects. split; [exact E|].
  destruct (G 31%nat rects E) as (rows & cols & Eg & Hrows & Hend & _ & Hin & _).
  destruct Hin as (_ & Hfit & Hstop & _ & Hlast); [vm_compute; reflexivity|].
  assert (Er : rows = 30%nat).
  { apply (first_stop_unique (fun k => (advance (2171.53 / 6 / 2) k 0 <? 5285.94)%float));
      [exact Hrows | exact Hend | | vm_compute; reflexivity].
    intros k Hk. do 30 (destruct k as [|k]; [vm_compute; reflexivity|]). lia. }
  assert (Ec : cols = 6%nat).
  { apply (first_stop_unique
             (fun j => (advance (2171.53 / 6) j 0 + 2171.53 / 6 <=? 2171.53)%float));
      [exact Hfit | exact Hstop | | vm_compute; reflexivity].
    intros j Hj. do 6 (destruct j as [|j]; [vm_compute; reflexivity|]). lia. }
  subst rows cols. split; [exact Eg|]. split; [rewrite Eg; vm_compute; reflexivity|].
  split; [apply (Hlast 5%nat); lia | vm_compute; reflexivity].
Defined.

Lemma tile_rects_more W H tw th fuel fuel' rects :
  tile_rects W H tw th fuel = Some rects -> (fuel <= fuel')%nat ->
  tile_rects W H tw th fuel' = Some rects.
Proof. intros E L. exact (tile_rows_more _ W H tw th _ _ _ _ _ _ _ E L L). Qed.

(** C3: a 2:1 image on the six-foot template gets tiles 361.92 wide and
    180.96 high (to two decimals), laid in 30 rows of 6, 180 rectangles in
    all; 29 rows do not reach the template height and 30 do.  Run on a
    sample world, [create_tiled_image_pdf] writes a page with these 180
    pictures. *)
Theorem six_foot_two_to_one (iw ih : Z) (fuel : nat) :
  Py.int_truediv iw ih = Some 2%float -> (31 <= fuel)%nat ->
  exists tw th,
    tile_dims template_6ft_width 6 iw ih = Some (tw, th) /\
    ((361.915 <=? tw) && (tw <? 361.925))%float = true /\
    ((180.955 <=? th) && (th <? 180.965))%float = true /\
    ((29 * th <? template_6ft_height) && (template_6ft_height <=? 30 * th))%float = true /\
    tile_rects template_6ft_width template_6ft_height tw th fuel = Some (grid tw th 6 30) /\
    length (grid tw th 6 30) = 180%nat /\
    (let out := "/work/rose_6ft.pdf" in
     let run := create_tiled_image_pdf (H := Sample.posix) 31 out Sample.rose
                  template_6ft_width template_6ft_height 300 6
                  (Sample.world Sample.bare Sample.no_faults) in
     fst run = Ok true /\
     exists page, fs (snd run) !! out = Some (PdfFile [page]) /\
                  Sample.pictures page = grid tw th 6 30).
Proof.
  intros Hr Hfuel.
  exists (template_6ft_width / 6)%float, (template_6ft_width / 6 / 2)%float.
  split; [apply (tile_dims_defined _ iw ih 2 Hr); reflexivity|].
  split; [vm_compute; reflexivity|]. split; [vm_compute; reflexivity|].
  split; [vm_compute; reflexivity|].
  split; [apply (tile_rects_more _ _ _ _ 31); [vm_compute; reflexivity | exact Hfuel]|].
  split; [reflexivity|].
  split; [vm_compute; reflexivity|].
  eexists. split; vm_compute; reflexivity.
Qed.

Lemma six_foot_two_to_one_witness :
  Py.int_truediv 200 100 = Some 2%float /\ (31 <= 31)%nat /\
  exists tw th,
    tile_dims template_6ft_width 6 200 100 = Some (tw, th) /\
    tile_rects template_6ft_width template_6ft_height tw th 31 = Some (grid tw th 6 30).
Proof.
  split; [vm_compute; reflexivity|]. split; [lia|].
  destruct (six_foot_two_to_one 200 100 31) as (tw & th & A & _ & _ & _ & B & _);
    [vm_compute; reflexivity | lia |].
  exists tw, th. split; assumption.
Defined.

(** C2 fails on the code at width 31: [31 / 6] added six times exceeds 31
    in binary64, so the sixth tile is refused and a row holds five tiles
    that end at 25.83, not at 31. *)
Theorem row_of_five_at_width_31 :
  let tw := (31 / 6)%float in
  tile_dims 31 6 100 100 = Some (tw, tw) /\
  tile_rects 31 5 tw tw 10 = Some (grid tw tw 5 1) /\
  length (grid tw tw 5 1) = 5%nat /\
  (advance tw 5 0 + tw <=? 31)%float = false /\
  (31 <? advance tw 5 0 + tw)%float = true /\
  (forall t, In t (grid tw tw 5 1) -> (x1 t <? 25.84)%float = true) /\
  (let out := "/work/square_6ft.pdf" in
   let run := create_tiled_image_pdf (H := Sample.posix) 10 out Sample.square 31 5 300 6
                (Sample.world Sample.bare Sample.no_faults) in
   fst run = Ok true /\
   exists page, fs (snd run) !! out = Some (PdfFile [page]) /\
                Sample.pictures page = grid tw tw 5 1).
Proof.
  intros tw. repeat split; try (vm_compute; reflexivity).
  - intros t Ht. vm_compute in Ht.
    repeat (destruct Ht as [<- | Ht]; [vm_compute; reflexivity|]). destruct Ht.
  - eexists. split; vm_compute; reflexivity.
Qed.

(** ** Computations *)

Create HintDb py discriminated.

Section Outcomes.
Context {A B : Type}.

Lemma no_raise_ret (a : A) : no_raise (ret a).
Proof. intros w. discriminate. Qed.

Lemma no_raise_get (f : World -> A) : no_raise (get f).
Proof. intros w. discriminate. Qed.

Lemma no_raise_bind (m : M A) (k : A -> M B) :
  no_raise m -> (forall a, no_raise (k a)) -> no_raise (bind m k).
Proof.
  intros Hm Hk w. unfold bind. specialize (Hm w).
  destruct (m w) as [[a| |] w1]; simpl in *; [apply Hk | congruence | discriminate].
Qed.

Lemma no_raise_try (m h : M A) : no_raise h -> no_raise (try_except m h).
Proof.
  intros Hh w. unfold try_except.
  destruct (m w) as [[a| |] w1]; simpl; [discriminate | apply Hh | discriminate].
Qed.

Lemma no_hang_ret (a : A) : no_hang (ret a).
Proof. intros w. discriminate. Qed.

Lemma no_hang_raise : no_hang (@raise A).
Proof. intros w. discriminate. Qed.

Lemma no_hang_get (f : World -> A) : no_hang (get f).
Proof. intros w. discriminate. Qed.

Lemma no_hang_lift (o : option A) : no_hang (lift o).
Proof. destruct o; intros w; discriminate. Qed.

Lemma no_hang_bind (m : M A) (k : A -> M B) :
  no_hang m -> (forall a, no_hang (k a)) -> no_hang (bind m k).
Proof.
  intros Hm Hk w. unfold bind. specialize (Hm w).
  destruct (m w) as [[a| |] w1]; simpl in *; [apply Hk | discriminate | congruence].
Qed.

Lemma no_hang_try (m h : M A) : no_hang m -> no_hang h -> no_hang (try_except m h).
Proof.
  intros Hm Hh w. unfold try_except. specialize (Hm w).
  destruct (m w) as [[a| |] w1]; simpl in *; [discriminate | apply Hh | congruence].
Qed.

Lemma returns_intro (m : M A) : no_raise m -> no_hang m -> returns m.
Proof.
  intros Hr Hh w. specialize (Hr w). specialize (Hh w).
  destruct (m w) as [[a| |] w1]; simpl in *; [eauto | congruence | congruence].
Qed.

Lemma bind_ok (m : M A) (k : A -> M B) w a w' :
  m w = (Ok a, w') -> bind m k w = k a w'.
Proof. intros E. unfold bind. now rewrite E. Qed.

Lemma bind_exn (m : M A) (k : A -> M B) w w' :
  m w = (Exn, w') -> bind m k w = (Exn, w').
Proof. intros E. unfold bind. now rewrite E. Qed.

Lemma ensures_bind (m : M A) (k : A -> M B) Q :
  (forall a, ensures (k a) Q) -> ensures (bind m k) Q.
Proof.
  intros Hk w b w' E. unfold bind in E.
  destruct (m w) as [[a| |] w1]; [exact (Hk a w1 b w' E) | discriminate | discriminate].
Qed.

Lemma ensures_try (m h : M A) Q :
  ensures m Q -> ensures h Q -> ensures (try_except m h) Q.
Proof.
  intros Hm Hh w a w' E. unfold try_except in E.
  destruct (m w) as [[a1| |] w1] eqn:Em;
    [exact (Hm w a w' (eq_trans Em E)) | exact (Hh w1 a w' E) | discriminate].
Qed.

Section Preserved.
Variable R : World -> World -> Prop.
Hypothesis R_refl : forall w, R w w.
Hypothesis R_trans : forall w1 w2 w3, R w1 w2 -> R w2 w3 -> R w1 w3.



End Preserved.
End Outcomes.

#[local] Hint Resolve no_raise_ret no_raise_get no_raise_try
  no_hang_ret no_hang_raise no_hang_get no_hang_lift : py.

(** The outer [try] of a function catches whatever its body raises. *)
Ltac structural :=
  repeat first
    [ progress intros
    | apply no_raise_try | apply no_raise_bind | apply no_raise_ret | apply no_raise_get
    | apply no_hang_try | apply no_hang_bind | apply no_hang_ret | apply no_hang_raise
    | apply no_hang_get | apply no_hang_lift
    | match goal with
      | |- no_raise (match ?x with _ => _ end) => destruct x
      | |- no_hang (match ?x with _ => _ end) => destruct x
      | |- no_raise (if ?x then _ else _) => destruct x
      | |- no_hang (if ?x then _ else _) => destruct x
      end ].

Lemma no_hang_extern op : no_hang (extern op).
Proof. intros w. unfold extern. simpl. destruct (faults w op (clock w)); discriminate. Qed.

Lemma no_hang_modify f : no_hang (modify f).
Proof. intros w. discriminate. Qed.

Lemma no_hang_new_doc pages : no_hang (new_doc pages).
Proof. intros w. discriminate. Qed.

#[local] Hint Resolve no_hang_extern no_hang_modify no_hang_new_doc : py.

Ltac hangfree :=
  repeat first
    [ progress intros
    | apply no_hang_try | apply no_hang_bind | apply no_hang_ret | apply no_hang_raise
    | apply no_hang_get | apply no_hang_lift | apply no_hang_extern | apply no_hang_modify
    | apply no_hang_new_doc
    | match goal with
      | |- no_hang (match ?x with _ => _ end) => destruct x
      | |- no_hang (if ?x then _ else _) => destruct x
      end
    | solve [auto with py] ].

Lemma no_hang_os_makedirs p : no_hang (os_makedirs p).
Proof. unfold os_makedirs. hangfree. Qed.

Lemma no_hang_write_node op p n : no_hang (write_node op p n).
Proof. unfold write_node. hangfree. Qed.

Lemma no_hang_os_remove p : no_hang (os_remove p).
Proof. unfold os_remove. hangfree. Qed.

Lemma no_hang_page_draw op page it : no_hang (page_draw op page it).
Proof. unfold page_draw, doc_pages. hangfree. Qed.

#[local] Hint Resolve no_hang_os_makedirs no_hang_write_node no_hang_os_remove
  no_hang_page_draw : py.

Section ProgramFacts.
Context `{Platform}.

Lemma no_raise_first_existing paths : no_raise (first_existing paths).
Proof. induction paths as [|p rest IH]; simpl; structural; exact IH. Qed.

Lemma no_hang_first_existing paths : no_hang (first_existing paths).
Proof. induction paths as [|p rest IH]; simpl; hangfree. Qed.

Lemma returns_select_footer_path : returns select_footer_path.
Proof.
  apply returns_intro; unfold select_footer_path, os_path_exists.
  - structural; apply no_raise_first_existing.
  - hangfree; apply no_hang_first_existing.
Qed.

Lemma returns_verify_each dirs : returns (verify_each dirs).
Proof.
  apply returns_intro.
  - induction dirs as [|d rest IH]; simpl; unfold attempt, os_path_exists; structural;
      exact IH.
  - induction dirs as [|d rest IH]; simpl;
      unfold attempt, os_path_exists, write_text; hangfree.
Qed.

Lemma no_raise_retry n body : no_raise body -> no_raise (retry n body).
Proof. intros Hb. induction n as [|n IH]; simpl; structural; assumption. Qed.

Lemma no_raise_generate fuel a b c d e f g : no_raise (generate fuel a b c d e f g).
Proof. unfold generate. structural. Qed.
End ProgramFacts.

(** ** Text placement *)







(** ** Running the model on a symbolic world *)

Arguments set_fs f w /.
Arguments set_docs f w /.
Arguments tick w /.
Arguments present w path /.
Arguments ret {A} a w /.
Arguments raise {A} w /.
Arguments bind {A B} m k w /.
Arguments try_except {A} m handler w /.
Arguments attempt {A} m w /.
Arguments lift {A} o w /.
Arguments get {A} f w /.
Arguments modify f w /.
Arguments extern op w /.
Arguments os_path_exists path w /.
Arguments os_getcwd w /.
Arguments os_makedirs path w /.
Arguments write_node op path node w /.
Arguments write_text path content w /.
Arguments os_remove path w /.
Arguments os_replace src dst w /.
Arguments os_path_getsize path w /.
Arguments Image_open path w /.
Arguments Image_resize image width height w /.
Arguments Image_save image path w /.
Arguments new_doc pages w /.
Arguments doc_pages doc w /.
Arguments fitz_open_new w /.
Arguments fitz_open path w /.
Arguments page_count doc w /.
Arguments doc_new_page doc width height w /.
Arguments doc_close doc w /.
Arguments doc_save doc path w /.
Arguments get_page page w /.
Arguments page_draw op page it w /.
Arguments insert_image_file page rect filename w /.
Arguments insert_image_pixmap page rect pixmap w /.
Arguments insert_text page point text fontsize fontname color w /.
Arguments draw_rect page rect color fill w /.
Arguments draw_line page p q color width w /.
Arguments get_pixmap {H} page w /.
Arguments stamp page point text w /.

(** One step of evaluation: the monad and the primitives unfold, the maps
    stay folded. *)
Ltac run :=
  cbn [bind ret raise try_except attempt lift get modify extern
       tick set_fs set_docs fs cwd docs next_doc clock faults fst snd negb
       os_path_exists os_getcwd os_makedirs write_node write_text os_remove os_replace
       os_path_getsize Image_open Image_resize Image_save new_doc doc_pages fitz_open_new
       fitz_open page_count doc_new_page doc_close doc_save get_page page_draw
       insert_image_file insert_image_pixmap insert_text draw_rect draw_line get_pixmap
       stamp present is_dir is_file is_image orb andb] in *.

(** Lookups after the writes of a run. *)
Ltac look :=
  repeat first
    [ rewrite lookup_insert_eq | rewrite lookup_delete_eq
    | rewrite lookup_insert_ne by (congruence || lia)
    | rewrite lookup_delete_ne by (congruence || lia) ].

(** Evaluation as far as it goes, [facts] rewriting what is known of the
    starting world. *)
Tactic Notation "steps" tactic3(facts) :=
  repeat first [ progress run | progress look | progress facts ].

Lemma file_not_dir n : is_dir (Some n) = false -> is_file (Some n) = true.
Proof. destruct n; simpl; congruence. Qed.

Section SaveFacts.
Context `{Platform}.

Lemma save_final_plain base_doc footer_doc out pages w :
  calm w -> docs w !! base_doc = Some pages ->
  is_dir (fs w !! temp_path out) = false -> is_dir (fs w !! out) = false ->
  temp_path out <> out ->
  exists w', save_final base_doc footer_doc out w = (Ok true, w') /\
    fs w' !! out = Some (PdfFile pages) /\ fs w' !! temp_path out = None /\
    (forall p, p <> out -> p <> temp_path out -> fs w' !! p = fs w !! p) /\
    docs w' = delete footer_doc (delete base_doc (docs w)) /\
    calm w'.
Proof.
  destruct w as [fs0 cwd0 docs0 nd clk flt]. unfold calm. cbn [faults fs docs].
  intros Hc Hd Ht Ho Hne. unfold save_final.
  destruct (fs0 !! out) as [n|] eqn:Eo;
    [pose proof (file_not_dir n Ho) as Hf|];
    steps (rewrite ?Hc, ?Hd, ?Ht, ?Eo, ?Hf);
    (eexists; split; [reflexivity|]); cbn [fs docs faults]; look;
    repeat split; try assumption; intros; now look.
Qed.

Lemma save_final_fallback base_doc footer_doc out pages w :
  fails_exactly (remove_refused out) w -> docs w !! base_doc = Some pages ->
  present w out = true ->
  is_dir (fs w !! temp_path out) = false -> is_dir (fs w !! new_path out) = false ->
  temp_path out <> out ->
  exists w', save_final base_doc footer_doc out w = (Ok true, w') /\
    fs w' !! new_path out = Some (PdfFile pages) /\
    (new_path out <> out -> fs w' !! out = fs w !! out).
Proof.
  destruct w as [fs0 cwd0 docs0 nd clk flt]. unfold fails_exactly. cbn [faults fs docs present].
  intros Hc Hd Hp Ht Hn Hne. unfold save_final.
  destruct (fs0 !! out) as [n|] eqn:Eo; [clear Hp|discriminate].
  destruct (decide (new_path out = temp_path out)) as [E|E].
  - rewrite E in *.
    steps (rewrite ?Hc, ?Hd, ?Ht, ?Eo, ?String.eqb_refl; cbn [remove_refused]).
    eexists. split; [reflexivity|]. cbn [fs]. look. now split.
  - steps (rewrite ?Hc, ?Hd, ?Ht, ?Hn, ?Eo, ?String.eqb_refl; cbn [remove_refused]).
    eexists. split; [reflexivity|]. cbn [fs]. look. split; [reflexivity|].
    intros Hno. now look.
Qed.

Lemma save_final_replace_refused base_doc footer_doc out pages w :
  fails_exactly replace_refused w -> docs w !! base_doc = Some pages ->
  is_dir (fs w !! temp_path out) = false -> is_dir (fs w !! out) = false ->
  temp_path out <> out ->
  exists w', save_final base_doc footer_doc out w = (Ok false, w') /\
    fs w' !! temp_path out = Some (PdfFile pages) /\
    fs w' !! out = None /\
    (new_path out <> temp_path out -> new_path out <> out ->
       fs w' !! new_path out = fs w !! new_path out).
Proof.
  destruct w as [fs0 cwd0 docs0 nd clk flt]. unfold fails_exactly. cbn [faults fs docs].
  intros Hc Hd Ht Ho Hne. unfold save_final.
  destruct (fs0 !! out) as [n|] eqn:Eo;
    [pose proof (file_not_dir n Ho) as Hf|];
    steps (rewrite ?Hc, ?Hd, ?Ht, ?Eo, ?Hf; cbn [replace_refused]);
    (eexists; split; [reflexivity|]); cbn [fs]; look;
    repeat split; try assumption; intros; now look.
Qed.
End SaveFacts.

(** ** Composition *)

Lemma first_page (p : Page) (l : list Page) : (p :: l) !! O = Some p.
Proof. reflexivity. Qed.

Lemma set_first_page (p q : Page) (l : list Page) : <[O := q]> (p :: l) = q :: l.
Proof. reflexivity. Qed.

Ltac pages :=
  repeat first [ rewrite first_page | rewrite set_first_page
               | progress cbn [length app Nat.eqb draw items page_width page_height] ].

Section ComposeFacts.
Context `{Platform}.
Local Open Scope float_scope.

Lemma compose_footer_calm base fp out W Ht name rw rl w pg rest fpg frest q :
  calm w ->
  fs w !! base = Some (PdfFile (pg :: rest)) ->
  fs w !! fp = Some (PdfFile (fpg :: frest)) ->
  Py.int_truediv (snd (render_size fpg)) (fst (render_size fpg)) = Some q ->
  is_dir (fs w !! temp_path out) = false -> is_dir (fs w !! out) = false ->
  temp_path out <> out ->
  exists w',
    compose_footer base fp out W Ht name rw rl w = (Ok true, w') /\
    fs w' !! out =
      Some (PdfFile (composed pg (mkPixmap (fst (render_size fpg)) (snd (render_size fpg)))
                       W Ht (q * W) name rw rl :: rest)) /\
    (forall p, p <> out -> p <> temp_path out -> fs w' !! p = fs w !! p) /\
    calm w'.
Proof.
  destruct w as [fs0 cwd0 docs0 nd clk flt]. unfold calm. cbn [faults fs docs].
  intros Hc Hb Hf Hq Ht' Ho Hne.
  unfold compose_footer, open_documents, footer_band, add_text, primary_text.
  steps (rewrite ?Hc, ?Hb, ?Hf, ?Hq; pages; cbn [pix_width pix_height]).
  match goal with
  | |- exists w', save_final _ _ _ ?w0 = _ /\ _ =>
      match w0 with
      | context [mkWorld _ _ (<[nd := ?pgs]> _)] =>
          destruct (save_final_plain nd (S nd) out pgs w0)
            as (w' & E & Eo & _ & Eother & _ & Hc');
          [ | cbn [docs]; apply lookup_insert_eq | | | | exists w'; split; [exact E|] ]
      end
  end;
    cbn [fs faults] in *; try assumption.
  split; [|split; assumption].
  rewrite Eo. unfold composed, draw. cbn [items page_width page_height].
  rewrite <- !app_assoc. reflexivity.
Qed.

Lemma create_simple_footer_calm path width height w :
  calm w -> is_dir (fs w !! path) = false ->
  exists w', create_simple_footer path width height w = (Ok true, w') /\
    fs w' = <[path := PdfFile [simple_footer_page width height]]> (fs w) /\
    calm w'.
Proof.
  destruct w as [fs0 cwd0 docs0 nd clk flt]. unfold calm. cbn [faults fs docs].
  intros Hc Hp. unfold create_simple_footer.
  steps (rewrite ?Hc, ?Hp; pages).
  eexists. split; [reflexivity|]. cbn [fs faults]. split; [reflexivity | assumption].
Qed.
End ComposeFacts.

Section OverlayFacts.
Context `{Platform}.
Local Open Scope float_scope.

Lemma int_truediv_defined (a b : Z) :
  (Py.float_of_int b =? 0) = false ->
  Py.int_truediv a b = Some (Py.float_of_int a / Py.float_of_int b).
Proof. intros E. unfold Py.int_truediv, Py.truediv. now rewrite E. Qed.

(** C9: with a footer raster [Wf] by [Hf], where nothing fails, the
    composition returns [True] and leaves in the output file the base
    page with the footer image in the rectangle
    [(0, H - footerHeight, W, H)], [footerHeight = Hf / Wf * W], followed
    by the pattern name at [(W - 160, H - footerHeight + 22)], the roll
    width at [(W - 135, H - footerHeight + 37)] and the roll length at
    [(W - 135, H - footerHeight + 55)], each in 14 pt Helvetica of colour
    (0.2, 0.2, 0.2). *)
Theorem footer_geometry (base footer out : string) (W Ht : float)
    (name rw rl : string) (w : World) (pg : Page) (rest : list Page)
    (fpg : Page) (frest : list Page) (Wf Hf : Z) :
  calm w ->
  fs w !! base = Some (PdfFile (pg :: rest)) ->
  fs w !! footer = Some (PdfFile (fpg :: frest)) ->
  render_size fpg = (Wf, Hf) ->
  (Py.float_of_int Wf =? 0) = false ->
  is_dir (fs w !! temp_path out) = false -> is_dir (fs w !! out) = false ->
  temp_path out <> out ->
  let footer_height := Py.float_of_int Hf / Py.float_of_int Wf * W in
  footer_band (mkPixmap Wf Hf) W Ht =
    Some (footer_height, mkRect 0 (Ht - footer_height) W Ht) /\
  exists w',
    overlay_footer_and_add_text base footer out W Ht name rw rl w = (Ok true, w') /\
    fs w' !! out =
      Some (PdfFile
              (mkPage (page_width pg) (page_height pg)
                 (items pg ++
                  [Picture (mkRect 0 (Ht - footer_height) W Ht) (FromPixmap Wf Hf);
                   Text (mkPoint (W - 160) (Ht - footer_height + 22)) name 14 "Helvetica"
                     (Some (0.2, 0.2, 0.2));
                   Text (mkPoint (W - 135) (Ht - footer_height + 37)) rw 14 "Helvetica"
                     (Some (0.2, 0.2, 0.2));
                   Text (mkPoint (W - 135) (Ht - footer_height + 55)) rl 14 "Helvetica"
                     (Some (0.2, 0.2, 0.2))]) :: rest)).
Proof.
  intros Hc Hb Hf' Hr Hz Ht' Ho Hne fh. split.
  - unfold footer_band. cbn [pix_width pix_height].
    now rewrite (int_truediv_defined Hf Wf Hz).
  - destruct (compose_footer_calm base footer out W Ht name rw rl w pg rest fpg frest
                (Py.float_of_int Hf / Py.float_of_int Wf))
      as (w' & E & Eo & _); try assumption.
    { rewrite Hr. cbn [fst snd]. exact (int_truediv_defined Hf Wf Hz). }
    exists w'. split.
    + unfold overlay_footer_and_add_text, locate_footer.
      destruct w as [fs0 cwd0 docs0 nd clk flt]. cbn [fs] in Hb, Hf'.
      steps (rewrite ?Hb, ?Hf'). rewrite E. reflexivity.
    + rewrite Eo, Hr. reflexivity.
Qed.

(** C8: when neither the footer path nor any of the three fallback
    locations holds a file and nothing fails, a placeholder footer page
    of height 100 (whatever the template) is written to
    [simple_footer.pdf] beside the output, its pixmap is the footer
    image of the output page, and the three fields follow it. *)
Theorem synthetic_footer (base footer out : string) (W Ht : float)
    (name rw rl : string) (w : World) (pg : Page) (rest : list Page) (q : float) :
  calm w ->
  fs w !! base = Some (PdfFile (pg :: rest)) ->
  present w footer = false ->
  Forall (fun p => present w p = false) fallback_paths ->
  let simple := simple_footer_path out in
  let placeholder := simple_footer_page W 100 in
  simple <> base ->
  is_dir (fs w !! simple) = false ->
  Py.int_truediv (pix_height (pixmap_of placeholder)) (pix_width (pixmap_of placeholder))
    = Some q ->
  is_dir (fs w !! temp_path out) = false -> is_dir (fs w !! out) = false ->
  temp_path out <> out ->
  page_height placeholder = 100 /\
  locate_footer footer out W w =
    (Ok (Some simple), snd (create_simple_footer simple W 100 w)) /\
  fs (snd (create_simple_footer simple W 100 w)) !! simple = Some (PdfFile [placeholder]) /\
  exists w',
    overlay_footer_and_add_text base footer out W Ht name rw rl w = (Ok true, w') /\
    fs w' !! out =
      Some (PdfFile (composed pg (pixmap_of placeholder) W Ht (q * W) name rw rl :: rest)).
Proof.
  intros Hc Hb Hfoot Hfall simple placeholder Hsb Hsd Hq Ht' Ho Hne.
  destruct (create_simple_footer_calm simple W 100 w Hc Hsd) as (w1 & E1 & F1 & C1).
  assert (L : locate_footer footer out W w = (Ok (Some simple), w1)).
  { unfold locate_footer, fallback_paths in *.
    inversion Hfall as [|? ? P1 Hfall1]; subst. inversion Hfall1 as [|? ? P2 Hfall2]; subst.
    inversion Hfall2 as [|? ? P3 _]; subst. clear Hfall Hfall1 Hfall2.
    fold simple. destruct w as [fs0 cwd0 docs0 nd clk flt].
    cbn [present fs] in Hfoot, P1, P2, P3.
    steps (cbn [first_existing]; rewrite ?Hfoot, ?P1, ?P2, ?P3, ?E1). reflexivity. }
  rewrite E1. cbn [snd]. split; [reflexivity|]. split; [exact L|].
  split; [rewrite F1; apply lookup_insert_eq|].
  destruct (compose_footer_calm base simple out W Ht name rw rl w1 pg rest placeholder [] q)
    as (w' & E & Eo & _); try assumption; rewrite ?F1.
  - rewrite lookup_insert_ne by assumption. exact Hb.
  - apply lookup_insert_eq.
  - destruct (decide (simple = temp_path out)) as [Es|N];
      [rewrite <- Es; now rewrite lookup_insert_eq | now rewrite lookup_insert_ne].
  - destruct (decide (simple = out)) as [Es|N];
      [rewrite <- Es; now rewrite lookup_insert_eq | now rewrite lookup_insert_ne].
  - exists w'. split; [|exact Eo].
    unfold overlay_footer_and_add_text.
    destruct w as [fs0 cwd0 docs0 nd clk flt]. cbn [fs] in Hb.
    steps (rewrite ?Hb, ?L, ?E). reflexivity.
Qed.
End OverlayFacts.

(** ** Return values and the output file *)

Lemma replace_keeps_path (s : string) :
  Py.replace s ".pdf" "_temp.pdf" = s -> Py.replace s ".pdf" "_new.pdf" = s.
Proof.
  unfold Py.replace. induction s as [|c s IH]; [reflexivity|].
  cbn [Py.replace_from]. destruct (String.prefix ".pdf" (String c s)) eqn:P.
  - intros E. exfalso. cbn [String.prefix] in P.
    destruct (ascii_dec "." c) as [<-|]; [|discriminate].
    cbn in E. discriminate.
  - intros E. injection E as E. now rewrite (IH E).
Qed.

Ltac look_in E :=
  repeat first
    [ rewrite lookup_insert_eq in E | rewrite lookup_delete_eq in E
    | rewrite lookup_insert_ne in E by (congruence || lia)
    | rewrite lookup_delete_ne in E by (congruence || lia) ].

(** Case analysis along a run that returned: every test the run depends
    on is decided, and the runs that end otherwise are dismissed. *)
Ltac crack E :=
  repeat first
         [ progress run | progress look_in E |
          match type of E with
          | _ = _ => discriminate E
          | (Ok true, ?w) = (Ok _, _) => injection E as <-; run; look
          | context [match ?m !! ?k with _ => _ end] => destruct (m !! k) eqn:?
          | context [is_dir ?x] => destruct (is_dir x) eqn:?
          | context [is_file ?x] => destruct (is_file x) eqn:?
          | context [if ?c then _ else _] => destruct c eqn:?
          end ];
  repeat match goal with
         | Hx : ?m !! ?k = _ |- context [?m !! ?k] => rewrite Hx
         end;
  try congruence.

Section ReturnFacts.
Context `{Platform}.

Lemma checked_true out w w' :
  (e <- os_path_exists out ;;
   if e then os_path_getsize out ;;; ret true else ret false) w = (Ok true, w') ->
  present w' out = true.
Proof.
  destruct w as [fs0 cwd0 docs0 nd clk flt]. run.
  destruct (fs0 !! out) eqn:Eo; run; [|discriminate].
  destruct (flt (OpGetsize out) clk); run; [discriminate|].
  rewrite Eo. run. intros [= <-]. run. now rewrite Eo.
Qed.

Lemma ensures_false out : ensures (ret false) (exists_when_true out).
Proof. intros w a w' [= <- <-]. discriminate. Qed.

Lemma ensures_checked out :
  ensures (e <- os_path_exists out ;;
           if e then os_path_getsize out ;;; ret true else ret false)
          (exists_when_true out).
Proof. intros w a w' E ->. exact (checked_true out w w' E). Qed.

Lemma create_tiled_true fuel out image W Ht dpi reps :
  ensures (create_tiled_image_pdf fuel out image W Ht dpi reps) (exists_when_true out).
Proof.
  unfold create_tiled_image_pdf.
  repeat first
    [ apply ensures_checked | apply ensures_false
    | apply ensures_try | apply ensures_bind; intros ?
    | match goal with
      | |- ensures (match ?x with _ => _ end) _ => destruct x
      | |- ensures (if ?x then _ else _) _ => destruct x
      end ].
Qed.

Lemma save_final_true base_doc footer_doc out :
  ensures (save_final base_doc footer_doc out) (exists_when_true out).
Proof.
  intros w b w' E ->. destruct w as [fs0 cwd0 docs0 nd clk flt].
  unfold save_final in E.
  destruct (decide (temp_path out = out)) as [Et|Et].
  - pose proof (replace_keeps_path out Et) as En. fold (new_path out) in En.
    rewrite Et, En in E. clear Et En. crack E.
  - destruct (decide (new_path out = out)) as [En|En];
      [rewrite En in E; crack E|].
    destruct (decide (new_path out = temp_path out)) as [Ent|Ent];
      [rewrite Ent in E|]; crack E.
Qed.

Ltac ens :=
  repeat first
    [ apply ensures_checked | apply ensures_false | apply save_final_true
    | apply ensures_try | apply ensures_bind; intros ?
    | match goal with
      | |- ensures (match ?x with _ => _ end) _ => destruct x
      | |- ensures (if ?x then _ else _) _ => destruct x
      | |- ensures (let (_, _) := ?x in _) _ => destruct x
      end ].

Lemma overlay_true base footer out W Ht name rw rl :
  ensures (overlay_footer_and_add_text base footer out W Ht name rw rl)
          (exists_when_true out).
Proof. unfold overlay_footer_and_add_text, compose_footer. ens. Qed.

Lemma overlay_without_base base footer out W Ht name rw rl w :
  present w base = false ->
  overlay_footer_and_add_text base footer out W Ht name rw rl w = (Ok false, w).
Proof.
  intros E. unfold overlay_footer_and_add_text. destruct w as [fs0 cwd0 docs0 nd clk flt].
  cbn [present fs] in E. run. rewrite E. reflexivity.
Qed.

Lemma image_open_refused image w :
  is_image (fs w !! image) = false \/ (forall t, faults w (OpImageOpen image) t = true) ->
  attempt (Image_open image) w = (Ok None, tick w).
Proof.
  intros Himg. destruct w as [fs0 cwd0 docs0 nd clk flt]. cbn [fs faults] in Himg. run.
  destruct Himg as [Hi|Hf]; [|now rewrite Hf].
  destruct (flt (OpImageOpen image) clk); [reflexivity|].
  destruct (fs0 !! image) as [[]|]; try reflexivity. discriminate.
Qed.

Lemma makedirs_absent dir w :
  present w dir = false ->
  os_makedirs dir w = (Exn, tick w) \/
  os_makedirs dir w = (Ok tt, set_fs (insert dir Dir) (tick w)).
Proof.
  intros Hp. destruct w as [fs0 cwd0 docs0 nd clk flt]. cbn [present fs] in Hp. run.
  destruct (fs0 !! dir); [discriminate|].
  destruct (flt (OpMakedirs dir) clk); [now left | now right].
Qed.

Lemma create_tiled_without_image fuel out image W Ht dpi reps w :
  is_image (fs w !! image) = false \/ (forall t, faults w (OpImageOpen image) t = true) ->
  os_path_dirname out <> out ->
  exists w', create_tiled_image_pdf fuel out image W Ht dpi reps w = (Ok false, w') /\
             fs w' !! out = fs w !! out.
Proof.
  intros Himg Hdir. unfold create_tiled_image_pdf, try_except.
  set (dir := os_path_dirname out) in *.
  rewrite (bind_ok (os_path_exists dir) _ w (present w dir) w eq_refl).
  assert (Hpre : (exists w1, (if present w dir then ret tt else os_makedirs dir) w = (Exn, w1) /\
                             fs w1 !! out = fs w !! out) \/
                 (exists w1, (if present w dir then ret tt else os_makedirs dir) w = (Ok tt, w1) /\
                             fs w1 !! out = fs w !! out /\
                             (is_image (fs w1 !! image) = false \/
                              forall t, faults w1 (OpImageOpen image) t = true))).
  { destruct (present w dir) eqn:Hp.
    - right. exists w. repeat split. exact Himg.
    - destruct (makedirs_absent dir w Hp) as [E|E]; rewrite E.
      + left. exists (tick w). now split.
      + right. eexists. split; [reflexivity|]. cbn [set_fs tick fs faults].
        split; [now rewrite lookup_insert_ne|].
        destruct Himg as [Hi|Hf]; [left|now right].
        destruct (decide (dir = image)) as [<-|N];
          [now rewrite lookup_insert_eq | now rewrite lookup_insert_ne]. }
  destruct Hpre as [(w1 & E & Ho) | (w1 & E & Ho & Himg1)].
  - rewrite (bind_exn _ _ _ _ E). exists w1. now split.
  - rewrite (bind_ok _ _ _ _ _ E).
    rewrite (bind_ok (os_path_exists image) _ w1 (present w1 image) w1 eq_refl).
    destruct (present w1 image); cbn [negb].
    + rewrite (bind_ok _ _ _ _ _ (image_open_refused image w1 Himg1)).
      exists (tick w1). now split.
    + exists w1. now split.
Qed.
End ReturnFacts.

(** ** The footer search *)

Section SearchFacts.
Context `{Platform}.

Lemma first_existing_finds paths w :
  first_existing paths w = (Ok (List.find (present w) paths), w).
Proof.
  induction paths as [|p rest IH]; [reflexivity|].
  cbn [first_existing List.find].
  rewrite (bind_ok (os_path_exists p) _ w (present w p) w eq_refl).
  destruct (present w p); [reflexivity | exact IH].
Qed.

Lemma find_absent (f : string -> bool) l :
  Forall (fun p => f p = false) l -> List.find f l = None.
Proof. induction 1 as [|p l E _ IH]; [reflexivity|]. cbn. now rewrite E. Qed.

(** C4: with no file at the primary footer path, [main] takes the first
    existing of: [Footer.pdf] in the template-images folder, [Footer.pdf]
    in the base folder, then the lower-case [footer.pdf] in the scripts,
    template-images and base folders; so the base-folder file is taken
    when the template-images one is absent.  The overlay uses the path
    taken as it is, and synthesizes the placeholder only when none of
    these files exists. *)
Theorem footer_search_order (w : World) (out : string) (W : float) :
  present w FOOTER_PATH = false ->
  let candidates :=
    [os_path_join TEMPLATE_IMAGES_FOLDER "Footer.pdf";
     os_path_join BASE_FOLDER "Footer.pdf";
     os_path_join SCRIPTS_FOLDER "footer.pdf";
     os_path_join TEMPLATE_IMAGES_FOLDER "footer.pdf";
     os_path_join BASE_FOLDER "footer.pdf"] in
  let chosen := default FOOTER_PATH (List.find (present w) candidates) in
  select_footer_path w = (Ok chosen, w) /\
  (present w (os_path_join TEMPLATE_IMAGES_FOLDER "Footer.pdf") = false ->
   present w (os_path_join BASE_FOLDER "Footer.pdf") = true ->
   chosen = os_path_join BASE_FOLDER "Footer.pdf") /\
  (Exists (fun p => present w p = true) candidates ->
   locate_footer chosen out W w = (Ok (Some chosen), w)) /\
  (Forall (fun p => present w p = false) candidates ->
   chosen = FOOTER_PATH /\
   locate_footer chosen out W w =
     (r <- attempt (create_simple_footer (simple_footer_path out) W 100) ;;
      match r with
      | Some _ => ret (Some (simple_footer_path out))
      | None => ret None
      end) w).
Proof.
  intros Hprim candidates chosen. split; [|split; [|split]].
  - unfold select_footer_path.
    rewrite (bind_ok (os_path_exists FOOTER_PATH) _ w false w);
      [|unfold os_path_exists, get; now rewrite Hprim].
    rewrite (bind_ok _ _ _ _ _ (first_existing_finds alternate_paths w)).
    unfold chosen. change candidates with alternate_paths.
    now destruct (List.find (present w) alternate_paths).
  - intros Ht Hb. unfold chosen, candidates. cbn [List.find]. now rewrite Ht, Hb.
  - intros Hex. assert (Hc : present w chosen = true).
    { unfold chosen. destruct (List.find (present w) candidates) as [p|] eqn:F.
      - now apply find_some in F.
      - exfalso. apply Exists_exists in Hex as (p & Hin & Hp).
        apply list_elem_of_In in Hin. apply (find_none _ _ F) in Hin. congruence. }
    unfold locate_footer.
    rewrite (bind_ok (os_path_exists chosen) _ w true w);
      [reflexivity | unfold os_path_exists, get; now rewrite Hc].
  - intros Hall. assert (Ec : chosen = FOOTER_PATH).
    { unfold chosen. now rewrite (find_absent _ _ Hall). }
    split; [exact Ec|]. rewrite Ec. unfold locate_footer.
    rewrite (bind_ok (os_path_exists FOOTER_PATH) _ w false w);
      [|unfold os_path_exists, get; now rewrite Hprim].
    rewrite (bind_ok _ _ _ _ _ (first_existing_finds fallback_paths w)).
    assert (F : List.find (present w) fallback_paths = None).
    { apply find_absent. unfold fallback_paths.
      inversion Hall as [|? ? P1 Hall1]; subst. inversion Hall1 as [|? ? P2 _]; subst.
      repeat constructor; assumption. }
    now rewrite F.
Qed.
End SearchFacts.

(** ** The claims on saving and on return values *)

Section Claims.
Context `{Platform}.

(** C5, as the code has it: the document is saved to the temporary path
    ([.pdf] replaced by [_temp.pdf]), an existing target is removed and
    the temporary file is moved over the target.  When the removal of
    the existing target fails the file goes to the [_new] path and the
    old target stays; when [os.replace] itself fails the result is
    [False], the temporary file is left behind, the old target is gone
    and nothing is written to the [_new] path. *)
Theorem safe_write (base_doc footer_doc : nat) (out : string)
    (pages : list Page) (w : World) :
  docs w !! base_doc = Some pages ->
  is_dir (fs w !! temp_path out) = false ->
  temp_path out <> out ->
  (calm w -> is_dir (fs w !! out) = false ->
     exists w', save_final base_doc footer_doc out w = (Ok true, w') /\
       fs w' !! out = Some (PdfFile pages) /\ fs w' !! temp_path out = None) /\
  (fails_exactly (remove_refused out) w -> present w out = true ->
   is_dir (fs w !! new_path out) = false ->
     exists w', save_final base_doc footer_doc out w = (Ok true, w') /\
       fs w' !! new_path out = Some (PdfFile pages) /\
       (new_path out <> out -> fs w' !! out = fs w !! out)) /\
  (fails_exactly replace_refused w -> is_dir (fs w !! out) = false ->
     exists w', save_final base_doc footer_doc out w = (Ok false, w') /\
       fs w' !! temp_path out = Some (PdfFile pages) /\
       fs w' !! out = None /\
       (new_path out <> temp_path out -> new_path out <> out ->
          fs w' !! new_path out = fs w !! new_path out)).
Proof.
  intros Hd Ht Hne. split; [|split].
  - intros Hc Ho.
    destruct (save_final_plain base_doc footer_doc out pages w Hc Hd Ht Ho Hne)
      as (w' & E & A & B & _).
    exists w'. repeat split; assumption.
  - intros Hf Hp Hn.
    exact (save_final_fallback base_doc footer_doc out pages w Hf Hd Hp Ht Hn Hne).
  - intros Hf Ho.
    exact (save_final_replace_refused base_doc footer_doc out pages w Hf Hd Ht Ho Hne).
Qed.

(** C10: [create_tiled_image_pdf] and [overlay_footer_and_add_text]
    return [True] only with the output file in place at that moment;
    when the source image is missing or cannot be opened, respectively
    when the base PDF is missing, they return [False] and the output
    path holds what it held before. *)
Theorem true_means_written (fuel : nat) (out image base footer : string)
    (W Ht : float) (dpi reps : Z) (name rw rl : string) (w : World) :
  (forall w', create_tiled_image_pdf fuel out image W Ht dpi reps w = (Ok true, w') ->
     present w' out = true) /\
  (forall w', overlay_footer_and_add_text base footer out W Ht name rw rl w = (Ok true, w') ->
     present w' out = true) /\
  (is_image (fs w !! image) = false \/ (forall t, faults w (OpImageOpen image) t = true) ->
   os_path_dirname out <> out ->
     exists w', create_tiled_image_pdf fuel out image W Ht dpi reps w = (Ok false, w') /\
                fs w' !! out = fs w !! out) /\
  (present w base = false ->
     overlay_footer_and_add_text base footer out W Ht name rw rl w = (Ok false, w)).
Proof.
  split; [|split; [|split]].
  - intros w' E. exact (create_tiled_true fuel out image W Ht dpi reps w true w' E eq_refl).
  - intros w' E. exact (overlay_true base footer out W Ht name rw rl w true w' E eq_refl).
  - apply create_tiled_without_image.
  - apply overlay_without_base.
Qed.

(** The tiling loops of the program visit the rectangles of [tile_rects],
    and never end when these have no end. *)
Lemma insert_tiles_visits fuel page file W Ht tw th w :
  insert_tiles fuel page file W Ht tw th w =
  match tile_rects W Ht tw th fuel with
  | Some rects =>
      let s := fold_left (fun s r => place_tile page file r s) rects (0%Z, w) in
      (Ok (fst s), snd s)
  | None => (Hang, w)
  end.
Proof.
  unfold insert_tiles. rewrite tile_rows_visit.
  destruct (tile_rects W Ht tw th fuel) as [rects|]; [|reflexivity].
  simpl. now destruct (fold_left _ rects _).
Qed.
End Claims.

(** ** The statements at sample worlds *)

Module Runs.
Import Sample.
Local Open Scope float_scope.

Lemma calm_world files : calm (world files no_faults).
Proof. intros op t. reflexivity. Qed.

Lemma footer_search_order_witness :
  let w := world base_footer_only no_faults in
  present w FOOTER_PATH = false /\
  select_footer_path w =
    (Ok "C:/Users/john/Downloads/Folder_For_Uploader/Footer.pdf"%string, w).
Proof.
  intros w. assert (Hp : present w FOOTER_PATH = false) by (vm_compute; reflexivity).
  split; [exact Hp|].
  destruct (footer_search_order w tiled 2171.53 Hp) as (A & B & _).
  rewrite A, B; [reflexivity | vm_compute; reflexivity | vm_compute; reflexivity].
Defined.

(** C5 as stated fails: with [os.replace] failing, the overlay returns
    [False] and no file appears at the [_new] path. *)
Lemma replace_failure_is_reported :
  let w := world with_footer (fun op _ => replace_refused op) in
  let run := overlay_footer_and_add_text tiled FOOTER_PATH tiled
               2171.53 5285.94 "rose" "30'" "6'" w in
  fails_exactly replace_refused w /\
  fst run = Ok false /\
  new_path tiled = "/work/rose_6ft_new.pdf"%string /\
  fs (snd run) !! new_path tiled = None /\
  fs (snd run) !! tiled = None.
Proof.
  intros w run. split; [intros op t; reflexivity|].
  repeat split; vm_compute; reflexivity.
Qed.

Lemma safe_write_witness :
  let pages := [mkPage 2171.53 5285.94 [footer_picture]] in
  (exists w', save_final O 1 tiled (editing no_faults) = (Ok true, w') /\
              fs w' !! tiled = Some (PdfFile pages)) /\
  (exists w', save_final O 1 tiled (editing (fun op _ => remove_refused tiled op))
              = (Ok true, w') /\
              fs w' !! new_path tiled = Some (PdfFile pages)) /\
  (exists w', save_final O 1 tiled (editing (fun op _ => replace_refused op))
              = (Ok false, w') /\
              fs w' !! tiled = None).
Proof.
  intros pages.
  assert (Hne : temp_path tiled <> tiled) by (vm_compute; discriminate).
  split; [|split].
  - destruct (safe_write O 1 tiled pages (editing no_faults)) as (A & _ & _);
      [vm_compute; reflexivity | vm_compute; reflexivity | exact Hne |].
    destruct A as (w' & E & F & _);
      [intros op t; reflexivity | vm_compute; reflexivity |].
    exists w'. split; assumption.
  - destruct (safe_write O 1 tiled pages (editing (fun op _ => remove_refused tiled op)))
      as (_ & A & _);
      [vm_compute; reflexivity | vm_compute; reflexivity | exact Hne |].
    destruct A as (w' & E & F & _);
      [intros op t; reflexivity | vm_compute; reflexivity | vm_compute; reflexivity |].
    exists w'. split; assumption.
  - destruct (safe_write O 1 tiled pages (editing (fun op _ => replace_refused op)))
      as (_ & _ & A);
      [vm_compute; reflexivity | vm_compute; reflexivity | exact Hne |].
    destruct A as (w' & E & _ & F & _);
      [intros op t; reflexivity | vm_compute; reflexivity |].
    exists w'. split; assumption.
Defined.


Lemma synthetic_footer_witness :
  let w := world with_tiled no_faults in
  let q := Py.float_of_int 100 / Py.float_of_int 2172 in
  present w FOOTER_PATH = false /\
  exists w',
    overlay_footer_and_add_text tiled FOOTER_PATH tiled 2171.53 5285.94
      "rose" "30'" "6'" w = (Ok true, w') /\
    fs w' !! tiled =
      Some (PdfFile [composed blank (pixmap_of (simple_footer_page 2171.53 100))
                       2171.53 5285.94 (q * 2171.53) "rose" "30'" "6'"]).
Proof.
  intros w q. split; [vm_compute; reflexivity|].
  destruct (synthetic_footer tiled FOOTER_PATH tiled 2171.53 5285.94 "rose" "30'" "6'"
              w blank [] q) as (_ & _ & _ & R);
    [ apply calm_world | vm_compute; reflexivity | vm_compute; reflexivity
    | unfold fallback_paths; repeat constructor; vm_compute; reflexivity
    | vm_compute; discriminate | vm_compute; reflexivity | vm_compute; reflexivity
    | vm_compute; reflexivity | vm_compute; reflexivity | vm_compute; discriminate
    | exact R ].
Defined.

Lemma footer_geometry_witness :
  let w := world with_footer no_faults in
  render_size footer_page = (612, 100)%Z /\
  (Py.float_of_int 612 =? 0) = false /\
  exists w',
    overlay_footer_and_add_text tiled FOOTER_PATH tiled 2171.53 5285.94
      "rose" "30'" "6'" w = (Ok true, w').
Proof.
  intros w. split; [vm_compute; reflexivity|]. split; [vm_compute; reflexivity|].
  destruct (footer_geometry tiled FOOTER_PATH tiled 2171.53 5285.94 "rose" "30'" "6'"
              w blank [] footer_page [] 612 100) as (_ & w' & E & _);
    [ apply calm_world | vm_compute; reflexivity | vm_compute; reflexivity
    | vm_compute; reflexivity | vm_compute; reflexivity | vm_compute; reflexivity
    | vm_compute; reflexivity | vm_compute; discriminate
    | exists w'; exact E ].
Defined.

Lemma true_means_written_witness :
  let w := world bare no_faults in
  is_image (fs w !! "/data/missing.png") = false /\
  os_path_dirname tiled <> tiled /\
  (exists w', create_tiled_image_pdf 31 tiled "/data/missing.png"
                2171.53 5285.94 300 6 w = (Ok false, w') /\
              fs w' !! tiled = fs w !! tiled) /\
  present w tiled = false /\
  overlay_footer_and_add_text tiled FOOTER_PATH tiled 2171.53 5285.94
    "rose" "30'" "6'" w = (Ok false, w).
Proof.
  intros w.
  assert (A : is_image (fs w !! "/data/missing.png") = false) by (vm_compute; reflexivity).
  assert (B : os_path_dirname tiled <> tiled) by (vm_compute; discriminate).
  assert (C : present w tiled = false) by (vm_compute; reflexivity).
  destruct (true_means_written 31 tiled "/data/missing.png" tiled FOOTER_PATH
              2171.53 5285.94 300 6 "rose" "30'" "6'" w) as (_ & _ & R1 & R2).
  split; [exact A|]. split; [exact B|]. split; [exact (R1 (or_introl A) B)|].
  split; [exact C | exact (R2 C)].
Defined.

(** Two images, the first of which is not an image: all attempts at it
    fail, and the second image gets both its outputs. *)
Example second_image_is_processed :
  let files := ("/data/broken.png", TextFile "not an image") :: bare in
  let run := main 100 ["/data/broken.png"; rose] (world files no_faults) in
  fst run = Ok 0%Z /\
  present (snd run) "/work/broken_6ft.pdf" = false /\
  present (snd run) "/work/broken_15ft.pdf" = false /\
  present (snd run) "/work/rose_6ft.pdf" = true /\
  present (snd run) "/work/rose_15ft.pdf" = true.
Proof. repeat split; vm_compute; reflexivity. Qed.

(** A save that fails once (the first [doc.save] of the run, its 197th
    external call): the next attempt writes the output, at the price of
    more calls than the undisturbed run makes. *)
Example transient_save_failure :
  let once (op : Op) (t : nat) :=
    match op with OpDocSave _ => Nat.eqb t 196 | _ => false end in
  let run := main 100 [rose] (world bare once) in
  let undisturbed := main 100 [rose] (world bare no_faults) in
  fst (create_tiled_image_pdf 100 "/work/rose_6ft.pdf" rose 2171.53 5285.94 300 6
         (tick (snd (verify_directories (world bare once))))) = Ok false /\
  fst run = Ok 0%Z /\ present (snd run) "/work/rose_6ft.pdf" = true /\
  (clock (snd undisturbed) < clock (snd run))%nat.
Proof. repeat split; vm_compute; try reflexivity. lia. Qed.
End Runs.


(** ** The exit code *)

(** *** Runs that end *)

Section Keeping.
Context (I : World -> Prop).

Lemma keeps_ret {A} (a : A) (Q : A -> Prop) : Q a -> keeps I (ret a) Q.
Proof. intros Ha w Hw. cbn. now split. Qed.

Lemma keeps_raise {A} (Q : A -> Prop) : keeps I raise Q.
Proof. intros w Hw. exact Hw. Qed.

Lemma keeps_bind {A B} (m : M A) (k : A -> M B) Q R :
  keeps I m Q -> (forall a, Q a -> keeps I (k a) R) -> keeps I (bind m k) R.
Proof.
  intros Hm Hk w Hw. specialize (Hm w Hw). unfold bind.
  destruct (m w) as [[a| |] w1]; [|exact Hm|exact Hm].
  destruct Hm as [Hw1 Ha]. exact (Hk a Ha w1 Hw1).
Qed.

Lemma keeps_weaken {A} (m : M A) (Q Q' : A -> Prop) :
  keeps I m Q -> (forall a, Q a -> Q' a) -> keeps I m Q'.
Proof.
  intros Hm HQ w Hw. specialize (Hm w Hw).
  destruct (m w) as [[a| |] w1]; [|exact Hm|exact Hm].
  destruct Hm as [Hw1 Ha]. split; [exact Hw1 | exact (HQ a Ha)].
Qed.

Lemma keeps_then {A B} (m : M A) (k : A -> M B) Q R :
  keeps I m Q -> (forall a, keeps I (k a) R) -> keeps I (bind m k) R.
Proof. intros Hm Hk. apply (keeps_bind m k Q R Hm). intros a _. apply Hk. Qed.

Lemma keeps_try {A} (m h : M A) Q : keeps I m Q -> keeps I h Q -> keeps I (try_except m h) Q.
Proof.
  intros Hm Hh w Hw. specialize (Hm w Hw). unfold try_except.
  destruct (m w) as [[a| |] w1]; [exact Hm | exact (Hh w1 Hm) | exact Hm].
Qed.

Lemma keeps_attempt {A} (m : M A) Q :
  keeps I m Q ->
  keeps I (attempt m) (fun r => match r with Some a => Q a | None => True end).
Proof.
  intros Hm. unfold attempt. apply keeps_try.
  - apply (keeps_bind m _ Q); [exact Hm|]. intros a Ha. now apply keeps_ret.
  - now apply keeps_ret.
Qed.

Lemma keeps_attempt_any {A} (m : M A) Q :
  keeps I m Q -> keeps I (attempt m) (fun _ => True).
Proof. intros Hm. apply (keeps_weaken _ _ _ (keeps_attempt m Q Hm)). trivial. Qed.

Lemma keeps_lift {A} (o : option A) : keeps I (lift o) (fun a => o = Some a).
Proof. destruct o; [now apply keeps_ret | apply keeps_raise]. Qed.

Lemma keeps_get {A} (f : World -> A) : keeps I (get f) (fun _ => True).
Proof. intros w Hw. cbn. now split. Qed.

Lemma total_ret {A} (a : A) : total I (ret a).
Proof. intros w Hw. now exists a, w. Qed.

Lemma total_get {A} (f : World -> A) : total I (get f).
Proof. intros w Hw. now exists (f w), w. Qed.

Lemma total_bind {A B} (m : M A) (k : A -> M B) :
  total I m -> (forall a, total I (k a)) -> total I (bind m k).
Proof.
  intros Hm Hk w Hw. destruct (Hm w Hw) as (a & w1 & E & Hw1).
  destruct (Hk a w1 Hw1) as (b & w2 & E2 & Hw2).
  exists b, w2. split; [|exact Hw2]. unfold bind. now rewrite E.
Qed.

(** A [try] whose handler returns: the statement returns. *)
Lemma total_try {A} (m h : M A) Q : keeps I m Q -> total I h -> total I (try_except m h).
Proof.
  intros Hm Hh w Hw. specialize (Hm w Hw). unfold try_except.
  destruct (m w) as [[a| |] w1]; [|exact (Hh w1 Hm)|contradiction].
  exists a, w1. split; [reflexivity | apply Hm].
Qed.

Lemma total_retry n (body : M bool) : total I body -> total I (retry n body).
Proof.
  intros Hb. induction n as [|n IH]; cbn [retry]; [apply total_ret|].
  apply total_bind; [exact Hb|]. intros [|]; [apply total_ret | exact IH].
Qed.
End Keeping.

(** *** The calls keep the image sizes and the fault oracle *)

Section SoundFacts.
Context `{Platform} (allowed : Z -> Z -> Prop) (g : bool).

Lemma map_allowed_insert m p n :
  map_allowed allowed m -> node_allowed allowed n -> map_allowed allowed (<[p := n]> m).
Proof.
  intros Hm Hn q node. destruct (decide (p = q)) as [->|N].
  - rewrite lookup_insert_eq. now intros [= <-].
  - rewrite lookup_insert_ne by exact N. apply Hm.
Qed.

Lemma map_allowed_delete m p : map_allowed allowed m -> map_allowed allowed (delete p m).
Proof.
  intros Hm q node. destruct (decide (p = q)) as [->|N].
  - now rewrite lookup_delete_eq.
  - rewrite lookup_delete_ne by exact N. apply Hm.
Qed.

(** The tests a call makes are decided, one after the other. *)
Ltac branch :=
  match goal with
  | |- context [if ?f ?op ?t then Exn else Ok tt] => destruct (f op t)
  | |- context [match ?m !! ?k with _ => _ end] =>
      let x := fresh "x" in destruct (m !! k) as [x|] eqn:?; [try destruct x|]
  | |- context [is_dir (?m !! ?k)] =>
      let x := fresh "x" in destruct (m !! k) as [x|] eqn:?; [destruct x|]
  | |- context [is_file (?m !! ?k)] =>
      let x := fresh "x" in destruct (m !! k) as [x|] eqn:?; [destruct x|]
  | |- context [is_image (?m !! ?k)] =>
      let x := fresh "x" in destruct (m !! k) as [x|] eqn:?; [destruct x|]
  end.

Ltac settle :=
  match goal with Hs : sound _ _ _ |- _ => destruct Hs as [? ?] end;
  unfold sound, images_allowed, getcwd_fails in *; cbn [fs faults] in *;
  repeat match goal with |- _ /\ _ => split end;
  try assumption; try exact Logic.I;
  repeat first [ apply map_allowed_insert | apply map_allowed_delete ];
  try assumption;
  try match goal with
      | Hm : map_allowed _ ?m, Hx : ?m !! ?k = Some ?n |- node_allowed _ ?n =>
          exact (Hm _ _ Hx)
      end;
  try (intros ? ? [=]).

Ltac prim :=
  intros [fs0 cwd0 docs0 nd clk flt] Hs; run; repeat (branch; run); settle.

Lemma keeps_os_path_exists p : keeps (sound allowed g) (os_path_exists p) (fun _ => True).
Proof. apply keeps_get. Qed.

Lemma keeps_os_getcwd : keeps (sound allowed g) os_getcwd (fun _ => True).
Proof. unfold os_getcwd. prim. Qed.

Lemma keeps_os_makedirs p : keeps (sound allowed g) (os_makedirs p) (fun _ => True).
Proof. prim. Qed.

Lemma keeps_write_text p s : keeps (sound allowed g) (write_text p s) (fun _ => True).
Proof. prim. Qed.

Lemma keeps_os_remove p : keeps (sound allowed g) (os_remove p) (fun _ => True).
Proof. prim. Qed.

Lemma keeps_os_replace p q : keeps (sound allowed g) (os_replace p q) (fun _ => True).
Proof. prim. Qed.

Lemma keeps_os_path_getsize p : keeps (sound allowed g) (os_path_getsize p) (fun _ => True).
Proof. prim. Qed.

Lemma keeps_Image_open p :
  keeps (sound allowed g) (Image_open p)
    (fun image => allowed (im_width image) (im_height image)).
Proof.
  prim. cbn [im_width im_height].
  match goal with
  | Hm : map_allowed _ ?m, Hx : ?m !! _ = Some (ImageFile ?a ?b) |- _ =>
      exact (Hm _ _ Hx a b eq_refl)
  end.
Qed.

Lemma keeps_Image_resize image a b :
  keeps (sound allowed g) (Image_resize image a b) (fun image' => image' = mkImage a b).
Proof. prim. reflexivity. Qed.

Lemma keeps_Image_save image p :
  allowed (im_width image) (im_height image) ->
  keeps (sound allowed g) (Image_save image p) (fun _ => True).
Proof. intros Ha. prim; subst; exact Ha. Qed.

Lemma keeps_fitz_open_new : keeps (sound allowed g) fitz_open_new (fun _ => True).
Proof. prim. Qed.

Lemma keeps_fitz_open p : keeps (sound allowed g) (fitz_open p) (fun _ => True).
Proof. prim. Qed.

Lemma keeps_page_count d : keeps (sound allowed g) (page_count d) (fun _ => True).
Proof. prim. Qed.

Lemma keeps_doc_new_page d a b : keeps (sound allowed g) (doc_new_page d a b) (fun _ => True).
Proof. prim. Qed.

Lemma keeps_doc_close d : keeps (sound allowed g) (doc_close d) (fun _ => True).
Proof. prim. Qed.

Lemma keeps_doc_save d p : keeps (sound allowed g) (doc_save d p) (fun _ => True).
Proof. prim. Qed.

Lemma keeps_page_draw op page it : keeps (sound allowed g) (page_draw op page it) (fun _ => True).
Proof. prim. Qed.

Lemma keeps_insert_image_file page r f :
  keeps (sound allowed g) (insert_image_file page r f) (fun _ => True).
Proof. prim. Qed.

Lemma keeps_get_pixmap page : keeps (sound allowed g) (get_pixmap page) (fun _ => True).
Proof. prim. Qed.
End SoundFacts.

Create HintDb keeps.

#[local] Hint Resolve keeps_os_path_exists keeps_os_getcwd keeps_os_makedirs keeps_write_text
  keeps_os_remove keeps_os_replace keeps_os_path_getsize keeps_fitz_open_new keeps_fitz_open
  keeps_page_count keeps_doc_new_page keeps_doc_close keeps_doc_save keeps_page_draw
  keeps_insert_image_file keeps_get_pixmap : keeps.

Section Sequences.
Context (I : World -> Prop).

Lemma keeps_seq {A B} (m : M A) (k : A -> M B) R :
  keeps I m (fun _ => True) -> (forall a, keeps I (k a) R) -> keeps I (bind m k) R.
Proof. apply keeps_then. Qed.

Lemma keeps_lift_any {A} (o : option A) : keeps I (lift o) (fun _ => True).
Proof. apply (keeps_weaken I _ _ _ (keeps_lift I o)). trivial. Qed.
End Sequences.

(** The statements of a function body, one after the other. *)
Ltac kp :=
  cbv zeta;
  lazymatch goal with
  | |- keeps _ (bind _ _) _ => apply keeps_seq; [kp | intros ?; kp]
  | |- keeps _ (try_except _ _) _ => apply keeps_try; kp
  | |- keeps _ (attempt _) _ => apply (keeps_attempt_any _ _ (fun _ => True)); kp
  | |- keeps _ (ret _) _ => apply keeps_ret; exact Logic.I
  | |- keeps _ raise _ => apply keeps_raise
  | |- keeps _ (lift _) _ => apply keeps_lift_any
  | |- keeps _ (get _) _ => apply keeps_get
  | |- keeps _ (if ?c then _ else _) _ => destruct c; kp
  | |- keeps _ (match ?x with _ => _ end) _ => destruct x; kp
  | |- _ => solve [eauto with keeps]
  end.

Section ProgramKeeps.
Context `{Platform} (allowed : Z -> Z -> Prop) (g : bool).

Lemma keeps_insert_image_pixmap page r pix :
  keeps (sound allowed g) (insert_image_pixmap page r pix) (fun _ => True).
Proof. apply keeps_page_draw. Qed.

Lemma keeps_insert_text page pt s size font color :
  keeps (sound allowed g) (insert_text page pt s size font color) (fun _ => True).
Proof. apply keeps_page_draw. Qed.

Lemma keeps_draw_rect page r c f : keeps (sound allowed g) (draw_rect page r c f) (fun _ => True).
Proof. apply keeps_page_draw. Qed.

Lemma keeps_draw_line page p q c wd :
  keeps (sound allowed g) (draw_line page p q c wd) (fun _ => True).
Proof. apply keeps_page_draw. Qed.

Lemma keeps_stamp page pt s : keeps (sound allowed g) (stamp page pt s) (fun _ => True).
Proof. apply keeps_page_draw. Qed.

Hint Resolve keeps_insert_image_pixmap keeps_insert_text keeps_draw_rect keeps_draw_line
  keeps_stamp : keeps.

Lemma keeps_verify_each dirs : keeps (sound allowed g) (verify_each dirs) (fun _ => True).
Proof. induction dirs as [|d rest IH]; cbn [verify_each]; kp. Qed.

Lemma keeps_first_existing paths :
  keeps (sound allowed g) (first_existing paths) (fun _ => True).
Proof. induction paths as [|p rest IH]; cbn [first_existing]; kp. Qed.

Lemma keeps_create_simple_footer p a b :
  keeps (sound allowed g) (create_simple_footer p a b) (fun _ => True).
Proof. unfold create_simple_footer. kp. Qed.

Hint Resolve keeps_verify_each keeps_first_existing keeps_create_simple_footer : keeps.

Lemma keeps_locate_footer footer out W :
  keeps (sound allowed g) (locate_footer footer out W) (fun _ => True).
Proof. unfold locate_footer. kp. Qed.

Lemma keeps_open_documents base footer :
  keeps (sound allowed g) (open_documents base footer) (fun _ => True).
Proof. unfold open_documents. kp. Qed.

Lemma keeps_add_text page W Ht fh name rw rl :
  keeps (sound allowed g) (add_text page W Ht fh name rw rl) (fun _ => True).
Proof. unfold add_text, primary_text, alternative_text. kp. Qed.

Lemma keeps_save_final d d' out :
  keeps (sound allowed g) (save_final d d' out) (fun _ => True).
Proof. unfold save_final. kp. Qed.

Hint Resolve keeps_locate_footer keeps_open_documents keeps_add_text keeps_save_final : keeps.

Lemma keeps_overlay base footer out W Ht name rw rl :
  keeps (sound allowed g)
    (overlay_footer_and_add_text base footer out W Ht name rw rl) (fun _ => True).
Proof. unfold overlay_footer_and_add_text, compose_footer. kp. Qed.

Lemma keeps_select_footer_path :
  keeps (sound allowed g) select_footer_path (fun _ => True).
Proof. unfold select_footer_path. kp. Qed.
End ProgramKeeps.

#[local] Hint Resolve keeps_overlay keeps_select_footer_path keeps_verify_each : keeps.

(** *** The tiling step *)

Section TilingKeeps.
Context `{Platform} (allowed : Z -> Z -> Prop) (g : bool) (fuel : nat).
Hypothesis Hloops : forall iw ih, allowed iw ih -> loops_end fuel iw ih.
Hypothesis Hclosed : sizes_closed allowed.

Lemma place_tile_sound page file r s :
  sound allowed g (snd s) -> sound allowed g (snd (place_tile page file r s)).
Proof.
  intros Hs. unfold place_tile.
  pose proof (keeps_insert_image_file allowed g page r file (snd s) Hs) as K.
  destruct (insert_image_file page r file (snd s)) as [[[]| |] w']; cbn [snd];
    [apply K | exact K | contradiction].
Qed.

Lemma place_tiles_sound page file rects : forall s,
  sound allowed g (snd s) ->
  sound allowed g (snd (fold_left (fun s r => place_tile page file r s) rects s)).
Proof.
  induction rects as [|r rects IH]; intros s Hs; [exact Hs|].
  cbn [fold_left]. apply IH. now apply place_tile_sound.
Qed.

Lemma keeps_insert_tiles page file W Ht tw th :
  tile_rects W Ht tw th fuel <> None ->
  keeps (sound allowed g) (insert_tiles fuel page file W Ht tw th) (fun _ => True).
Proof.
  intros Hend w Hs. rewrite insert_tiles_visits.
  destruct (tile_rects W Ht tw th fuel) as [rects|]; [|contradiction].
  cbv zeta. split; [|exact Logic.I].
  exact (place_tiles_sound page file rects (0%Z, w) Hs).
Qed.

(** [create_tiled_image_pdf] as [main] calls it: at the width of the
    templates and at one of their heights. *)
Lemma keeps_create_tiled out image Ht :
  Ht = template_6ft_height \/ Ht = template_15ft_height ->
  keeps (sound allowed g)
    (create_tiled_image_pdf fuel out image template_6ft_width Ht 300 6) (fun _ => True).
Proof.
  intros HHt. unfold create_tiled_image_pdf. cbv zeta.
  apply keeps_try; [|kp].
  apply keeps_seq; [kp|intros e].
  apply keeps_seq; [kp|intros _].
  apply keeps_seq; [kp|intros e']. destruct (negb e'); [kp|].
  eapply keeps_bind; [exact (keeps_attempt _ _ _ (keeps_Image_open allowed g image))|].
  intros [image0|] Himg; [|kp].
  apply keeps_seq; [kp|intros [[doc page]|]]; [|kp].
  eapply keeps_bind; [apply keeps_lift|]. intros [tw th] Hdims. cbn [fst snd].
  eapply keeps_bind; [apply keeps_lift|]. intros scale Hscale.
  eapply keeps_bind; [apply keeps_lift|]. intros wpx Hwpx.
  eapply keeps_bind; [apply keeps_lift|]. intros hpx Hhpx.
  assert (Hpx : allowed wpx hpx).
  { apply (Hclosed (im_width image0) (im_height image0)); [exact Himg|].
    exists tw, th, scale. repeat split; assumption. }
  apply keeps_seq; [kp|intros _].
  apply keeps_seq.
  { apply (keeps_attempt_any _ _ (fun _ => True)).
    eapply keeps_bind; [apply keeps_Image_resize|].
    intros image' ->. now apply keeps_Image_save. }
  intros [u|]; [|kp].
  apply keeps_seq; [kp|intros e3]. destruct (negb e3); [kp|].
  apply keeps_seq; [|intros n; kp].
  apply keeps_insert_tiles.
  destruct (Hloops _ _ Himg tw th Hdims) as [H6 H15].
  destruct HHt as [-> | ->]; assumption.
Qed.

Lemma total_generate out image Ht footer name rl :
  Ht = template_6ft_height \/ Ht = template_15ft_height ->
  total (sound allowed g)
    (generate fuel out image template_6ft_width Ht footer name rl).
Proof.
  intros HHt. unfold generate.
  apply (total_try _ _ _ (fun _ => True)); [|apply total_ret].
  apply keeps_seq; [now apply keeps_create_tiled|]. intros [|]; kp.
Qed.
End TilingKeeps.

(** *** The loop over the images *)

Section LoopFacts.
Context `{Platform} (allowed : Z -> Z -> Prop) (fuel : nat).
Hypothesis Hloops : forall iw ih, allowed iw ih -> loops_end fuel iw ih.
Hypothesis Hclosed : sizes_closed allowed.

Lemma total_os_getcwd : total (sound allowed false) os_getcwd.
Proof.
  intros [fs0 cwd0 docs0 nd clk flt] Hs. unfold os_getcwd. run.
  destruct Hs as [Hi Hg]. unfold getcwd_fails in Hg. cbn [faults] in Hg. rewrite Hg.
  eexists _, _. split; [reflexivity|]. now split.
Qed.

Lemma total_process_image footer image :
  total (sound allowed false) (process_image fuel footer image).
Proof.
  unfold process_image. apply total_bind; [apply total_get|]. intros e.
  destruct (negb e); [apply total_ret|]. cbv zeta.
  apply total_bind; [apply total_os_getcwd|]. intros current_dir.
  apply total_bind.
  { apply total_retry, (total_generate allowed false fuel Hloops Hclosed). now left. }
  intros _. apply total_bind.
  { apply total_retry, (total_generate allowed false fuel Hloops Hclosed). now right. }
  intros _. apply total_bind; [apply total_get|]. intros _.
  apply total_bind; [apply total_get|]. intros _. apply total_ret.
Qed.

Lemma total_process_images footer images :
  total (sound allowed false) (process_images fuel footer images).
Proof.
  induction images as [|image rest IH]; cbn [process_images]; [apply total_ret|].
  apply total_bind; [apply total_process_image|]. intros _. exact IH.
Qed.

Lemma getcwd_aborts footer image rest w :
  present w image = true -> faults w OpGetcwd (clock w) = true ->
  process_images fuel footer (image :: rest) w = (Exn, tick w).
Proof.
  destruct w as [fs0 cwd0 docs0 nd clk flt]. cbn [present fs faults clock].
  intros Hp Hf. cbn [process_images]. unfold process_image, os_getcwd. run.
  destruct (fs0 !! image); [|discriminate]. run. rewrite Hf. reflexivity.
Qed.

Lemma select_leaves_world w :
  exists footer, select_footer_path w = (Ok footer, w).
Proof.
  unfold select_footer_path.
  rewrite (bind_ok (os_path_exists FOOTER_PATH) _ w (present w FOOTER_PATH) w eq_refl).
  destruct (present w FOOTER_PATH); [now eexists|].
  rewrite (bind_ok _ _ _ _ _ (first_existing_finds alternate_paths w)).
  destruct (List.find (present w) alternate_paths); now eexists.
Qed.
End LoopFacts.

Section ExitCode.
Context `{Platform}.

(** C6, as the code has it.  [verify_directories] has returned; the
    images of the world have sizes for which the tiling loops end within
    [fuel], and so have their scaled copies.

    - When the verification failed, [main] returns 1 at once.
    - When it passed and [os.getcwd] does not fail, [main] returns 0,
      whatever else fails: after the footer selection, which changes
      nothing, the loop has run over all the images.
    - In that loop every image returns: a missing one changes nothing, any
      other one, whether its outputs were produced or not, leaves a world
      from which the loop goes on with the remaining images.
    - [os.getcwd()] is called for every existing image outside the [try]
      blocks of the retry loops: when it raises, [main] returns 1 from
      inside the loop and the remaining images are not processed. *)
Theorem image_failures_do_not_abort (allowed : Z -> Z -> Prop) (fuel : nat)
    (image_paths : list string) (w w1 : World) (verified : bool) :
  (forall iw ih, allowed iw ih -> loops_end fuel iw ih) ->
  sizes_closed allowed ->
  images_allowed allowed w ->
  verify_directories w = (Ok verified, w1) ->
  (verified = false -> main fuel image_paths w = (Ok 1%Z, w1)) /\
  (verified = true -> getcwd_fails false w ->
     exists footer w',
       select_footer_path w1 = (Ok footer, w1) /\
       process_images fuel footer image_paths w1 = (Ok tt, w') /\
       main fuel image_paths w = (Ok 0%Z, w')) /\
  (forall footer image rest w0,
     images_allowed allowed w0 -> getcwd_fails false w0 ->
     (present w0 image = false -> process_image fuel footer image w0 = (Ok tt, w0)) /\
     exists w2,
       process_image fuel footer image w0 = (Ok tt, w2) /\
       images_allowed allowed w2 /\ getcwd_fails false w2 /\
       process_images fuel footer (image :: rest) w0 = process_images fuel footer rest w2) /\
  (verified = true ->
     forall image rest, image_paths = image :: rest ->
       present w1 image = true -> faults w1 OpGetcwd (clock w1) = true ->
       main fuel image_paths w = (Ok 1%Z, tick w1)).
Proof.
  intros Hloops Hclosed Hi V. split; [|split; [|split]].
  - intros ->. unfold main, try_except, verify_directories in *.
    now rewrite (bind_ok _ _ _ _ _ V).
  - intros -> Hg.
    assert (Hs1 : sound allowed false w1).
    { pose proof (keeps_verify_each allowed false
                    [BASE_FOLDER; TEMPLATE_IMAGES_FOLDER; SCRIPTS_FOLDER] w (conj Hi Hg)) as K.
      unfold verify_directories in V. rewrite V in K. apply K. }
    destruct (select_leaves_world w1) as (footer & S).
    destruct (total_process_images allowed fuel Hloops Hclosed footer image_paths w1 Hs1)
      as ([] & w' & P & _).
    exists footer, w'. split; [exact S|]. split; [exact P|].
    unfold main, try_except. rewrite (bind_ok _ _ _ _ _ V). cbn [negb].
    rewrite (bind_ok _ _ _ _ _ S). now rewrite (bind_ok _ _ _ _ _ P).
  - intros footer image rest w0 Hi0 Hg0. split.
    + intros Habs. unfold process_image.
      rewrite (bind_ok (os_path_exists image) _ w0 false w0);
        [reflexivity | unfold os_path_exists, get; now rewrite Habs].
    + destruct (total_process_image allowed fuel Hloops Hclosed footer image w0 (conj Hi0 Hg0))
        as ([] & w2 & P & Hi2 & Hg2).
      exists w2. split; [exact P|]. split; [exact Hi2|]. split; [exact Hg2|].
      cbn [process_images]. now rewrite (bind_ok _ _ _ _ _ P).
  - intros -> image rest -> Hp Hf.
    destruct (select_leaves_world w1) as (footer & S).
    unfold main, try_except. rewrite (bind_ok _ _ _ _ _ V). cbn [negb].
    rewrite (bind_ok _ _ _ _ _ S).
    now rewrite (bind_exn _ _ _ _ (getcwd_aborts fuel footer image rest w1 Hp Hf)).
Qed.
End ExitCode.

Module Exits.
Import Sample.
Local Open Scope float_scope.

(** Images twice as wide as high, or square. *)
Lemma sample_sizes_end (iw ih : Z) :
  Py.int_truediv iw ih = Some 2 \/ Py.int_truediv iw ih = Some 1 -> loops_end 100 iw ih.
Proof.
  intros [E|E] tw th D; unfold tile_dims in D; rewrite E in D; vm_compute in D;
    injection D as <- <-; split; vm_compute; discriminate.
Qed.

Lemma sample_sizes_closed :
  sizes_closed (fun iw ih => Py.int_truediv iw ih = Some 2 \/ Py.int_truediv iw ih = Some 1).
Proof.
  intros iw ih wpx hpx [E|E] (tw & th & scale & D & S & A & B); unfold tile_dims in D;
    rewrite E in D; vm_compute in D; injection D as <- <-;
    vm_compute in S; injection S as <-;
    vm_compute in A; injection A as <-; vm_compute in B; injection B as <-;
    [left | right]; vm_compute; reflexivity.
Qed.

Lemma sample_images_allowed faults :
  images_allowed (fun iw ih => Py.int_truediv iw ih = Some 2 \/ Py.int_truediv iw ih = Some 1)
    (world (("/data/notes.png", TextFile "not a picture") :: bare) faults).
Proof.
  intros p node Hl. apply elem_of_list_to_map_2 in Hl.
  repeat (apply elem_of_cons in Hl as [Hl|Hl]; [injection Hl as -> ->|]);
    try (intros iw ih [= <- <-]); try (intros iw ih [=]).
  - left. vm_compute. reflexivity.
  - right. vm_compute. reflexivity.
  - apply elem_of_nil in Hl. contradiction.
Qed.

Lemma image_failures_do_not_abort_witness :
  let w := world (("/data/notes.png", TextFile "not a picture") :: bare) no_faults in
  let images := ["/data/missing.png"; "/data/notes.png"; rose; square]%string in
  exists w', main 100 images w = (Ok 0%Z, w').
Proof.
  intros w images.
  assert (V : exists w1, verify_directories w = (Ok true, w1))
    by (eexists; vm_compute; reflexivity).
  destruct V as (w1 & V).
  destruct (image_failures_do_not_abort _ 100 images w w1 true
              sample_sizes_end sample_sizes_closed (sample_images_allowed no_faults) V)
    as (_ & R & _).
  destruct R as (footer & w' & _ & _ & M); [reflexivity | intros t; reflexivity |].
  exists w'. exact M.
Defined.

(** C6 as stated fails: [os.getcwd] raises once, at the first image; the
    verification had passed, the error is inside the loop, and [main]
    returns 1 without having looked at the second image, which is
    processed when nothing fails. *)
Lemma getcwd_failure_ends_the_run :
  let once (op : Op) (t : nat) :=
    match op with OpGetcwd => Nat.eqb t 9 | _ => false end in
  let run := main 100 [rose; square] (world bare once) in
  let undisturbed := main 100 [rose; square] (world bare no_faults) in
  verify_directories (world bare once) =
    (Ok true, snd (verify_directories (world bare once))) /\
  clock (snd (verify_directories (world bare once))) = 9%nat /\
  fst run = Ok 1%Z /\
  present (snd run) "/work/square_6ft.pdf" = false /\
  present (snd run) "/work/square_15ft.pdf" = false /\
  fst undisturbed = Ok 0%Z /\
  present (snd undisturbed) "/work/square_6ft.pdf" = true /\
  present (snd undisturbed) "/work/square_15ft.pdf" = true.
Proof. cbv zeta. repeat apply conj; vm_compute; reflexivity. Qed.
End Exits.

(** * Further properties of the code *)

(** ** The tiling loops *)

(** X1: no tile reaches past the right edge and every tile starts above
    the lower edge: for every rectangle the loops visit, [x1 <= W] and
    [y0 < H] hold as the loop guards test them. *)
Theorem tiles_within_guards (W H tw th : float) (fuel : nat) (rects : list Rect) :
  tile_rects W H tw th fuel = Some rects ->
  forall t, In t rects ->
    (x1 t <=? W)%float = true /\ (y0 t <? H)%float = true /\
    x1 t = (x0 t + tw)%float /\ y1 t = (y0 t + th)%float.
Proof.
  intros E t Ht. unfold tile_rects in E.
  apply tile_rows_collects in E as (rows & cols & -> & Hrows & _ & Hcols).
  simpl in Ht. apply in_concat in Ht as (row & Hrow & Ht).
  apply in_map_iff in Hrow as (k & <- & Hk). apply in_seq in Hk.
  apply in_map_iff in Ht as (j & <- & Hj). apply in_seq in Hj.
  destruct Hcols as [Hfit _]; [lia|].
  cbn [tile_at x0 x1 y0 y1]. repeat split; [apply Hfit | apply Hrows]; lia.
Qed.

Lemma tiles_within_guards_witness :
  exists rects, tile_rects 31 5 (31 / 6) (31 / 6) 10 = Some rects /\
    forall t, In t rects -> (x1 t <=? 31)%float = true /\ (y0 t <? 5)%float = true.
Proof.
  eexists. split; [vm_compute; reflexivity|].
  intros t Ht.
  destruct (tiles_within_guards 31 5 (31 / 6) (31 / 6) 10 _ eq_refl t Ht) as (A & B & _).
  split; assumption.
Defined.




(** ** Temporary and fallback paths *)

Lemma replace_changes_pdf (new : string) (c : ascii) (p : string) :
  c <> "."%char ->
  Py.replace (p +:+ ".pdf") ".pdf" (String c new) <> p +:+ ".pdf".
Proof.
  intros Hc. unfold Py.replace. induction p as [|a p IH].
  - cbn. intros [= E _]. now apply Hc.
  - change (String a p +:+ ".pdf") with (String a (p +:+ ".pdf")).
    cbn [Py.replace_from].
    destruct (String.prefix ".pdf" (String a (p +:+ ".pdf"))) eqn:P.
    + cbn [String.prefix] in P. destruct (ascii_dec "." a) as [<-|]; [|discriminate].
      cbn. intros [= E _]. now apply Hc.
    + intros [= E]. now apply IH.
Qed.

Lemma temp_new_differ (s : string) :
  Py.replace s ".pdf" "_temp.pdf" = Py.replace s ".pdf" "_new.pdf" ->
  Py.replace s ".pdf" "_temp.pdf" = s.
Proof.
  unfold Py.replace. induction s as [|a s IH]; [reflexivity|].
  cbn [Py.replace_from]. destruct (String.prefix ".pdf" (String a s)).
  - cbn. intros E. discriminate E.
  - intros [= E]. now rewrite (IH E).
Qed.

(** X3: for every output path that ends in [.pdf], the temporary path and
    the [_new] path differ from the output path and from each other, so a
    save never writes its temporary file over the target. *)
Theorem pdf_paths_are_distinct (p : string) :
  let out := p +:+ ".pdf" in
  temp_path out <> out /\ new_path out <> out /\ temp_path out <> new_path out.
Proof.
  intros out. unfold temp_path, new_path.
  assert (A : Py.replace out ".pdf" "_temp.pdf" <> out)
    by (apply replace_changes_pdf; discriminate).
  split; [exact A|]. split; [apply replace_changes_pdf; discriminate|].
  intros E. apply A. now apply temp_new_differ.
Qed.

(** ** Saving and composing: edge cases *)

Section MoreSaveFacts.
Context `{Platform}.
Local Open Scope float_scope.

Lemma save_without_pdf_in_path (base_doc footer_doc : nat) (out : string)
    (pages : list Page) (w : World) :
  calm w -> docs w !! base_doc = Some pages ->
  is_dir (fs w !! out) = false ->
  temp_path out = out ->
  exists w', save_final base_doc footer_doc out w = (Ok false, w') /\
             fs w' !! out = None /\
             (forall p, p <> out -> fs w' !! p = fs w !! p).
Proof.
  destruct w as [fs0 cwd0 docs0 nd clk flt]. unfold calm. cbn [faults fs docs].
  intros Hc Hd Ho Et. unfold save_final. rewrite Et.
  steps (rewrite ?Hc, ?Hd, ?Ho).
  eexists. split; [reflexivity|]. cbn [fs]. look. split; [reflexivity|].
  intros p Hp. now look.
Qed.

(** The composition up to the save, where nothing fails. *)
Lemma compose_reaches_save base fp out W Ht name rw rl w pg rest fpg frest q :
  calm w ->
  fs w !! base = Some (PdfFile (pg :: rest)) ->
  fs w !! fp = Some (PdfFile (fpg :: frest)) ->
  Py.int_truediv (snd (render_size fpg)) (fst (render_size fpg)) = Some q ->
  exists w1,
    compose_footer base fp out W Ht name rw rl w =
      save_final (next_doc w) (S (next_doc w)) out w1 /\
    calm w1 /\ fs w1 = fs w /\
    docs w1 !! next_doc w =
      Some (composed pg (pixmap_of fpg) W Ht (q * W) name rw rl :: rest).
Proof.
  destruct w as [fs0 cwd0 docs0 nd clk flt]. unfold calm. cbn [faults fs docs next_doc].
  intros Hc Hb Hf Hq.
  unfold compose_footer, open_documents, footer_band, add_text, primary_text.
  steps (rewrite ?Hc, ?Hb, ?Hf, ?Hq; pages; cbn [pix_width pix_height]).
  eexists. split; [reflexivity|]. cbn [fs docs faults]. look.
  split; [assumption|]. split; [reflexivity|].
  unfold composed, pixmap_of, draw. cbn [items page_width page_height pix_width pix_height].
  rewrite <- !app_assoc. reflexivity.
Qed.

(** X4: an output path without [.pdf] in it is its own temporary path.
    The save then writes the document over the target, removes it as the
    "existing output file" and has nothing left to move: where nothing
    fails, the overlay returns [False] and no file is left at the output
    path, not even the one that was there.  (The output is another file
    than the base PDF: PyMuPDF refuses a plain save over the file a
    document was opened from.) *)
Theorem overlay_without_pdf_in_path (base footer out : string) (W Ht : float)
    (name rw rl : string) (w : World) (pg : Page) (rest : list Page)
    (fpg : Page) (frest : list Page) (q : float) :
  calm w ->
  fs w !! base = Some (PdfFile (pg :: rest)) ->
  fs w !! footer = Some (PdfFile (fpg :: frest)) ->
  Py.int_truediv (snd (render_size fpg)) (fst (render_size fpg)) = Some q ->
  is_dir (fs w !! out) = false ->
  base <> out ->
  temp_path out = out ->
  exists w', overlay_footer_and_add_text base footer out W Ht name rw rl w = (Ok false, w') /\
             fs w' !! out = None /\
             (forall p, p <> out -> fs w' !! p = fs w !! p).
Proof.
  intros Hc Hb Hf Hq Ho _ Et.
  destruct (compose_reaches_save base footer out W Ht name rw rl w pg rest fpg frest q
              Hc Hb Hf Hq) as (w1 & E & Hc1 & Hfs & Hd).
  destruct (save_without_pdf_in_path (next_doc w) (S (next_doc w)) out _ w1 Hc1 Hd)
    as (w' & E' & A & B); [now rewrite Hfs | exact Et |].
  exists w'. rewrite Hfs in B. split; [|split; assumption].
  unfold overlay_footer_and_add_text, locate_footer.
  destruct w as [fs0 cwd0 docs0 nd clk flt]. cbn [fs next_doc] in *.
  steps (rewrite ?Hb, ?Hf, ?E, ?E'). reflexivity.
Qed.
End MoreSaveFacts.

Section TextLossFacts.
Context `{Platform}.
Local Open Scope float_scope.

Lemma save_final_text_refused base_doc footer_doc out pages w :
  fails_exactly text_refused w -> docs w !! base_doc = Some pages ->
  is_dir (fs w !! temp_path out) = false -> is_dir (fs w !! out) = false ->
  temp_path out <> out ->
  exists w', save_final base_doc footer_doc out w = (Ok true, w') /\
    fs w' !! out = Some (PdfFile pages).
Proof.
  destruct w as [fs0 cwd0 docs0 nd clk flt]. unfold fails_exactly. cbn [faults fs docs].
  intros Hc Hd Ht Ho Hne. unfold save_final.
  destruct (fs0 !! out) as [n|] eqn:Eo;
    [pose proof (file_not_dir n Ho) as Hf|];
    steps (rewrite ?Hc, ?Hd, ?Ht, ?Eo, ?Hf; cbn [text_refused]);
    (eexists; split; [reflexivity|]); cbn [fs]; now look.
Qed.

(** X5: when every [insert_text] call fails and nothing else does, the
    overlay still returns [True], and the page it writes holds what the
    base page held and the footer image, with no text at all. *)
Theorem overlay_without_text (base footer out : string) (W Ht : float)
    (name rw rl : string) (w : World) (pg : Page) (rest : list Page)
    (fpg : Page) (frest : list Page) (q : float) :
  fails_exactly text_refused w ->
  fs w !! base = Some (PdfFile (pg :: rest)) ->
  fs w !! footer = Some (PdfFile (fpg :: frest)) ->
  Py.int_truediv (snd (render_size fpg)) (fst (render_size fpg)) = Some q ->
  is_dir (fs w !! temp_path out) = false -> is_dir (fs w !! out) = false ->
  temp_path out <> out ->
  exists w',
    overlay_footer_and_add_text base footer out W Ht name rw rl w = (Ok true, w') /\
    fs w' !! out =
      Some (PdfFile
              (mkPage (page_width pg) (page_height pg)
                 (items pg ++
                  [Picture (mkRect 0 (Ht - q * W) W Ht)
                     (FromPixmap (fst (render_size fpg)) (snd (render_size fpg)))])
               :: rest)).
Proof.
  destruct w as [fs0 cwd0 docs0 nd clk flt]. unfold fails_exactly. cbn [faults fs docs].
  intros Hc Hb Hf Hq Ht' Ho Hne.
  unfold overlay_footer_and_add_text, locate_footer, compose_footer, open_documents,
    footer_band, add_text, primary_text, alternative_text.
  steps (rewrite ?Hc, ?Hb, ?Hf, ?Hq; pages; cbn [pix_width pix_height text_refused]).
  match goal with
  | |- context [save_final _ _ _ ?w0] =>
      match w0 with
      | context [mkWorld _ _ (<[nd := ?pgs]> _)] =>
          destruct (save_final_text_refused nd (S nd) out pgs w0) as (w' & E & Eo);
          [ exact Hc | cbn [docs]; apply lookup_insert_eq | exact Ht' | exact Ho | exact Hne | ]
      end
  end.
  rewrite E. exists w'. split; [reflexivity|]. rewrite Eo. reflexivity.
Qed.
End TextLossFacts.

Section InputFacts.
Context `{Platform}.
Local Open Scope float_scope.

(** The next fault test of the run is decided both ways. *)
Ltac fork :=
  match goal with
  | |- context [if ?f ?op ?t then Exn else Ok tt] => destruct (f op t) eqn:?
  end.

(** X6: when the base path or the footer path names a directory or a
    PDF without pages (and both exist), the overlay returns [False],
    whatever else fails, and writes nothing. *)
Theorem overlay_rejects_empty_documents (base footer out : string) (W Ht : float)
    (name rw rl : string) (w : World) :
  present w base = true -> present w footer = true ->
  unusable (fs w !! base) || unusable (fs w !! footer) = true ->
  exists w', overlay_footer_and_add_text base footer out W Ht name rw rl w = (Ok false, w') /\
             fs w' = fs w.
Proof.
  destruct w as [fs0 cwd0 docs0 nd clk flt]. cbn [present fs].
  intros Hb Hf Hbad.
  unfold overlay_footer_and_add_text, locate_footer, compose_footer, open_documents.
  destruct (fs0 !! base) as [[| |[|pg rest]|]|] eqn:Eb; try discriminate Hb;
    destruct (fs0 !! footer) as [[| |[|fpg frest]|]|] eqn:Ef; try discriminate Hf;
    try discriminate Hbad;
    repeat first [ progress run | progress look | progress pages
                 | progress (rewrite ?Eb, ?Ef) | fork ];
    (eexists; split; [reflexivity|]); reflexivity.
Qed.
End InputFacts.

Section HandleFacts.
Context `{Platform}.
Local Open Scope float_scope.

(** X7: the two documents the overlay opens are closed when it succeeds,
    but when [doc.save] fails it returns [False] with both still open (the
    composed base document and the footer document), having written
    nothing. *)
Theorem documents_left_open_by_failed_save (base footer out : string) (W Ht : float)
    (name rw rl : string) (w : World) (pg : Page) (rest : list Page)
    (fpg : Page) (frest : list Page) (q : float) :
  fs w !! base = Some (PdfFile (pg :: rest)) ->
  fs w !! footer = Some (PdfFile (fpg :: frest)) ->
  Py.int_truediv (snd (render_size fpg)) (fst (render_size fpg)) = Some q ->
  (calm w -> is_dir (fs w !! temp_path out) = false -> is_dir (fs w !! out) = false ->
   temp_path out <> out ->
     exists w', overlay_footer_and_add_text base footer out W Ht name rw rl w = (Ok true, w') /\
       docs w' !! next_doc w = None /\ docs w' !! S (next_doc w) = None) /\
  (fails_exactly save_refused w ->
     exists w', overlay_footer_and_add_text base footer out W Ht name rw rl w = (Ok false, w') /\
       fs w' = fs w /\
       docs w' !! next_doc w =
         Some (composed pg (pixmap_of fpg) W Ht (q * W) name rw rl :: rest) /\
       docs w' !! S (next_doc w) = Some (fpg :: frest)).
Proof.
  intros Hb Hf Hq. split.
  - intros Hc Ht' Ho Hne.
    destruct (compose_reaches_save base footer out W Ht name rw rl w pg rest fpg frest q
                Hc Hb Hf Hq) as (w1 & E & Hc1 & Hfs & Hd).
    destruct (save_final_plain (next_doc w) (S (next_doc w)) out _ w1 Hc1 Hd)
      as (w' & E' & _ & _ & _ & Hdocs & _); rewrite ?Hfs; try assumption.
    exists w'. split.
    + unfold overlay_footer_and_add_text, locate_footer.
      destruct w as [fs0 cwd0 docs0 nd clk flt]. cbn [fs next_doc] in *.
      steps (rewrite ?Hb, ?Hf, ?E, ?E'). reflexivity.
    + rewrite Hdocs. split; look; reflexivity.
  - destruct w as [fs0 cwd0 docs0 nd clk flt]. unfold fails_exactly.
    cbn [faults fs docs next_doc] in *. intros Hc.
    unfold overlay_footer_and_add_text, locate_footer, compose_footer, open_documents,
      footer_band, add_text, primary_text, save_final.
    steps (rewrite ?Hc, ?Hb, ?Hf, ?Hq; pages; cbn [pix_width pix_height save_refused]).
    eexists. split; [reflexivity|]. cbn [fs docs]. look.
    split; [reflexivity|]. split; [|reflexivity].
    unfold composed, pixmap_of, draw. cbn [items page_width page_height pix_width pix_height].
    rewrite <- !app_assoc. reflexivity.
Qed.
End HandleFacts.


Ltac pages_in E :=
  repeat first [ rewrite first_page in E | rewrite set_first_page in E
               | progress cbn [length app Nat.eqb draw items page_width page_height] in E ].

(** X8: [create_simple_footer] has no failure value: whenever it returns,
    whatever fails elsewhere, the result is [True], the file at
    [output_path] is a PDF of one page of the requested size holding the
    grey band, the line and the seven texts, the document is closed again
    and no other path has changed. *)
Theorem simple_footer_is_complete (output_path : string) (width height : float)
    (w w' : World) (b : bool) :
  create_simple_footer output_path width height w = (Ok b, w') ->
  b = true /\
  fs w' !! output_path = Some (PdfFile [simple_footer_page width height]) /\
  (forall p, p <> output_path -> fs w' !! p = fs w !! p) /\
  docs w' !! next_doc w = None.
Proof.
  destruct w as [fs0 cwd0 docs0 nd clk flt]. unfold create_simple_footer. intros E.
  repeat first
    [ progress run | progress look_in E | progress pages_in E
    | match type of E with
      | _ = _ => discriminate E
      | context [if ?f ?op ?t then Exn else Ok tt] => destruct (f op t) eqn:?
      | context [is_dir ?x] => destruct (is_dir x) eqn:?
      end ].
  injection E as <- <-. cbn [fs docs next_doc]. look.
  repeat split; try reflexivity. intros p Hp. now look.
Qed.

Lemma simple_footer_is_complete_witness :
  exists w', create_simple_footer "/work/simple_footer.pdf" 2171.53%float 100%float
               (Sample.world Sample.bare Sample.no_faults) = (Ok true, w') /\
             fs w' !! "/work/simple_footer.pdf" =
               Some (PdfFile [simple_footer_page 2171.53%float 100%float]).
Proof.
  assert (E : exists w', create_simple_footer "/work/simple_footer.pdf" 2171.53%float
                           100%float (Sample.world Sample.bare Sample.no_faults)
                         = (Ok true, w'))
    by (eexists; vm_compute; reflexivity).
  destruct E as (w' & E). exists w'. split; [exact E|].
  exact (proj1 (proj2 (simple_footer_is_complete _ _ _ _ _ _ E))).
Defined.

(** ** The tiled page *)

Section TiledFacts.
Context `{Platform}.
Local Open Scope float_scope.

(** The loop body over a list of rectangles: the tiles that go through
    are drawn in order and counted, the others are skipped. *)
Lemma place_tiles_fold (skip : Rect -> bool) (d : nat) (file : string) (rects : list Rect) :
  forall (n : Z) (w : World) (pw ph : float) (its : list Item),
  fails_exactly (insert_refused skip) w ->
  is_image (fs w !! file) = true ->
  docs w !! d = Some [mkPage pw ph its] ->
  exists w',
    fold_left (fun s r => place_tile (d, O) file r s) rects (n, w) =
      ((n + Z.of_nat (length (kept skip rects)))%Z, w') /\
    fails_exactly (insert_refused skip) w' /\ fs w' = fs w /\
    next_doc w' = next_doc w /\
    docs w' !! d = Some [mkPage pw ph (its ++ tile_pictures file (kept skip rects))].
Proof.
  induction rects as [|r rects IH]; intros n w pw ph its Hf Hi Hd.
  - exists w. cbn [fold_left kept List.filter length tile_pictures map].
    rewrite Z.add_0_r, app_nil_r. repeat split; assumption.
  - cbn [fold_left]. unfold kept. cbn [List.filter]. fold (kept skip rects).
    destruct w as [fs0 cwd0 docs0 nd clk flt]. unfold fails_exactly in Hf.
    cbn [fs faults docs next_doc] in *. unfold place_tile at 2.
    steps (rewrite ?Hf, ?Hi, ?Hd; cbn [insert_refused]).
    destruct (skip r); cbn [negb]; steps (rewrite ?Hd; pages).
    + apply IH; assumption.
    + match goal with
      | |- context [fold_left _ _ (?n', ?w0)] =>
          destruct (IH n' w0 pw ph (its ++ [Picture r (FromFile file)])) as (w' & E & A & B & C & D);
            [ exact Hf | exact Hi | cbn [docs]; now look | ]
      end.
      exists w'. rewrite E. cbn [length tile_pictures map] in *.
      rewrite <- app_assoc in D. cbn [app] in D.
      repeat split; try assumption. f_equal. lia.
Qed.

(** A run of [create_tiled_image_pdf] in which at most [insert_image]
    calls fail. *)
Lemma create_tiled_run (skip : Rect -> bool) (fuel : nat)
    (out image : string) (W Ht : float) (dpi reps : Z) (w : World)
    (iw ih : Z) (tw th scale : float) (wpx hpx : Z) (rects : list Rect) :
  fails_exactly (insert_refused skip) w ->
  fs w !! image = Some (ImageFile iw ih) ->
  tile_dims W reps iw ih = Some (tw, th) ->
  Py.int_truediv dpi 72 = Some scale ->
  Py.int_of_float (tw * scale) = Some wpx ->
  Py.int_of_float (th * scale) = Some hpx ->
  tile_rects W Ht tw th fuel = Some rects ->
  let temp_dir := temp_dir_of out in
  let scaled := scaled_image_path_of out image in
  present w (os_path_dirname out) = true ->
  is_file (fs w !! temp_dir) = false ->
  is_dir (fs w !! scaled) = false -> is_dir (fs w !! out) = false ->
  scaled <> temp_dir -> out <> temp_dir ->
  exists w',
    create_tiled_image_pdf fuel out image W Ht dpi reps w = (Ok true, w') /\
    fs w' !! out =
      Some (PdfFile [mkPage W Ht (tile_pictures scaled (kept skip rects))]) /\
    (out <> scaled -> fs w' !! scaled = Some (ImageFile wpx hpx)) /\
    is_dir (fs w' !! temp_dir) = true /\
    docs w' !! next_doc w = None /\
    fails_exactly (insert_refused skip) w' /\
    (forall p, p <> out -> p <> scaled -> p <> temp_dir -> fs w' !! p = fs w !! p).
Proof.
  intros Hf Himg Hdims Hscale Hwpx Hhpx Hrects temp_dir scaled Hdir Htd Hsc Hout Hst Hot.
  subst temp_dir scaled. unfold scaled_image_path_of in *. unfold temp_dir_of in *.
  destruct w as [fs0 cwd0 docs0 nd clk flt]. unfold fails_exactly in Hf.
  cbn [fs faults docs next_doc present] in *.
  unfold create_tiled_image_pdf.
  set (dir := os_path_dirname out) in *.
  set (temp_dir := os_path_join dir "temp") in *.
  set (scaled := os_path_join temp_dir _) in *.
  destruct (fs0 !! dir) as [dn|] eqn:Edir; [clear Hdir|discriminate].
  assert (Hout3 : forall fs1 : gmap string Node, is_dir (fs1 !! out) = false ->
            is_dir (<[scaled := ImageFile wpx hpx]> fs1 !! out) = false).
  { intros fs1 E. destruct (decide (out = scaled)) as [<-|N];
      [now rewrite lookup_insert_eq | now look]. }
  destruct (fs0 !! temp_dir) as [[]|] eqn:Etd; try discriminate Htd.
  all: steps (rewrite ?Hf, ?Edir, ?Himg, ?Hdims, ?Hscale, ?Hwpx, ?Hhpx, ?Etd, ?Hsc;
              cbn [insert_refused im_width im_height app length]).
  all: rewrite insert_tiles_visits, Hrects; cbv zeta.
  all: match goal with
       | |- context [fold_left _ ?rs (0%Z, ?w0)] =>
           destruct (place_tiles_fold skip nd scaled rs 0%Z w0 W Ht [])
             as (w3 & E & Hf3 & Hfs3 & Hnd3 & Hd3);
             [ exact Hf | cbn [fs]; now look | cbn [docs]; now look | ]
       end.
  all: rewrite E; clear E; destruct w3 as [fs3 cwd3 docs3 nd3 clk3 flt3].
  all: unfold fails_exactly in Hf3; cbn [fs faults docs next_doc app] in *; subst fs3.
  all: steps (rewrite ?Hf3, ?Hd3, ?Hout3 by (look; assumption); cbn [insert_refused]).
  all: eexists; (split; [reflexivity|]); cbn [fs docs faults]; look.
  all: split; [reflexivity|]; split; [intros N; now look|].
  all: split; [|split; [reflexivity|split; [exact Hf3|intros p N1 N2 N3; now look]]].
  all: rewrite lookup_insert_ne by exact Hot; rewrite lookup_insert_ne by exact Hst.
  all: now rewrite ?Etd, ?lookup_insert_eq.
Qed.

(** X9: where at most [insert_image] calls fail, the image is readable,
    the tile sizes are defined and the loops end, [create_tiled_image_pdf]
    returns [True] and the output file is one page of the template size
    holding, in visiting order, exactly the tiles whose [insert_image]
    went through (all of them when none fails, none when all fail: the
    result is [True] all the same).  The scaled copy of the image stays
    in the [temp] folder beside the output, and the document is closed.
    The pixel sizes are taken positive, as PIL demands of [resize]. *)
Theorem tiled_page_holds_the_tiles (skip : Rect -> bool) (fuel : nat)
    (out image : string) (W Ht : float) (dpi reps : Z) (w : World)
    (iw ih : Z) (tw th scale : float) (wpx hpx : Z) (rects : list Rect) :
  fails_exactly (insert_refused skip) w ->
  fs w !! image = Some (ImageFile iw ih) ->
  tile_dims W reps iw ih = Some (tw, th) ->
  Py.int_truediv dpi 72 = Some scale ->
  Py.int_of_float (tw * scale) = Some wpx ->
  Py.int_of_float (th * scale) = Some hpx ->
  (0 < wpx)%Z -> (0 < hpx)%Z ->
  tile_rects W Ht tw th fuel = Some rects ->
  let temp_dir := temp_dir_of out in
  let scaled := scaled_image_path_of out image in
  present w (os_path_dirname out) = true ->
  is_file (fs w !! temp_dir) = false ->
  is_dir (fs w !! scaled) = false -> is_dir (fs w !! out) = false ->
  scaled <> temp_dir -> out <> temp_dir ->
  exists w',
    create_tiled_image_pdf fuel out image W Ht dpi reps w = (Ok true, w') /\
    fs w' !! out =
      Some (PdfFile [mkPage W Ht (tile_pictures scaled (kept skip rects))]) /\
    (out <> scaled -> fs w' !! scaled = Some (ImageFile wpx hpx)) /\
    is_dir (fs w' !! temp_dir) = true /\
    docs w' !! next_doc w = None.
Proof.
  intros Hf Himg Hdims Hscale Hwpx Hhpx _ _ Hrects temp_dir scaled Hdir Htd Hsc Hout Hst Hot.
  destruct (create_tiled_run skip fuel out image W Ht dpi reps w iw ih tw th scale
              wpx hpx rects Hf Himg Hdims Hscale Hwpx Hhpx Hrects Hdir Htd Hsc Hout Hst Hot)
    as (w' & E & A & B & C & D & _).
  exists w'. repeat split; assumption.
Qed.
End TiledFacts.

Lemma tiled_page_holds_the_tiles_witness :
  let w := Sample.world Sample.bare (fun op _ => insert_refused Cases.first_column op) in
  exists w' rects,
    tile_rects 2171.53 5285.94 (2171.53 / 6) (2171.53 / 6 / (200 / 100)) 100 = Some rects /\
    length rects = 180%nat /\ length (kept Cases.first_column rects) = 150%nat /\
    create_tiled_image_pdf (H := Sample.posix) 100 Sample.tiled Sample.rose
      2171.53 5285.94 300 6 w = (Ok true, w') /\
    fs w' !! Sample.tiled =
      Some (PdfFile [mkPage 2171.53 5285.94
                       (tile_pictures "/work/temp/scaled_image_rose.png"
                          (kept Cases.first_column rects))]).
Proof.
  intros w.
  edestruct (tiled_page_holds_the_tiles (H := Sample.posix) Cases.first_column 100
               Sample.tiled Sample.rose 2171.53 5285.94 300 6 w 200 100)
    as (w' & E & Eo & _);
    [ intros op t; reflexivity | vm_compute; reflexivity | vm_compute; reflexivity
    | vm_compute; reflexivity | vm_compute; reflexivity | vm_compute; reflexivity
    | vm_compute; reflexivity | vm_compute; reflexivity | vm_compute; reflexivity
    | vm_compute; reflexivity | vm_compute; reflexivity | vm_compute; reflexivity
    | vm_compute; reflexivity | vm_compute; discriminate | vm_compute; discriminate | ].
  exists w'. eexists. split; [vm_compute; reflexivity|].
  split; [vm_compute; reflexivity|]. split; [vm_compute; reflexivity|].
  split; [exact E | exact Eo].
Defined.

(** ** Start-up verification *)

Section VerifyFacts.
Context `{Platform}.

Lemma verify_step d rest w w' :
  verify_each (d :: rest) w = (Ok true, w') ->
  probe d <> d ->
  exists w1, verify_each rest w1 = (Ok true, w') /\
    present w1 d = true /\ fs w1 !! probe d = None /\
    (forall p, p <> probe d ->
       fs w1 !! p = fs w !! p \/ (fs w !! p = None /\ fs w1 !! p = Some Dir /\ p = d)).
Proof.
  intros E Hne. destruct w as [fs0 cwd0 docs0 nd clk flt].
  cbn [verify_each] in E. fold (probe d) in E. run.
  destruct (fs0 !! d) as [n|] eqn:Ed; run.
  - destruct (flt (OpWrite (probe d)) clk); run; [discriminate E|].
    destruct (is_dir (fs0 !! probe d)); run; [discriminate E|].
    destruct (flt (OpRemove (probe d)) (S clk)); run; [discriminate E|].
    rewrite lookup_insert_eq in E. run.
    eexists. split; [exact E|]. run. look. rewrite Ed.
    split; [reflexivity|]. split; [reflexivity|]. intros p Hp. left. now look.
  - destruct (flt (OpMakedirs d) clk); run; [discriminate E|].
    rewrite Ed in E. run.
    change (bool_decide (is_Some (Some tt))) with true in E. run.
    destruct (flt (OpWrite (probe d)) (S clk)); run; [discriminate E|].
    rewrite lookup_insert_ne in E by congruence.
    destruct (is_dir (fs0 !! probe d)); run; [discriminate E|].
    destruct (flt (OpRemove (probe d)) (S (S clk))); run; [discriminate E|].
    rewrite lookup_insert_eq in E. run.
    eexists. split; [exact E|]. run. look.
    split; [reflexivity|]. split; [reflexivity|]. intros p Hp.
    destruct (decide (p = d)) as [->|N]; [right | left]; now look.
Qed.

Lemma verify_each_true dirs : forall w w',
  verify_each dirs w = (Ok true, w') ->
  (forall d d', In d dirs -> In d' dirs -> probe d' <> d) ->
  (forall d, In d dirs -> present w' d = true /\ fs w' !! probe d = None) /\
  (forall p, (forall d, In d dirs -> p <> probe d) ->
     fs w' !! p = fs w !! p \/ (fs w !! p = None /\ fs w' !! p = Some Dir /\ In p dirs)).
Proof.
  induction dirs as [|d rest IH]; intros w w' E Hsep.
  - injection E as <-. split; [intros d []|]. intros p _. now left.
  - destruct (verify_step d rest w w' E) as (w1 & E1 & Hd & Ht & Hframe);
      [apply Hsep; now left|].
    destruct (IH w1 w' E1) as (Hin & Hout);
      [intros a b Ha Hb; apply Hsep; now right|].
    assert (Hd' : present w' d = true).
    { destruct (Hout d) as [Eq|(_ & Eq & _)].
      - intros d' Hd'. apply not_eq_sym, Hsep; [now left | now right].
      - unfold present in *. now rewrite Eq.
      - unfold present. now rewrite Eq. }
    assert (Ht' : fs w' !! probe d = None).
    { destruct (in_dec string_dec (probe d) (map probe rest)) as [Hi|Hi].
      - apply in_map_iff in Hi as (d' & Eq & Hd''). rewrite <- Eq. now apply Hin.
      - destruct (Hout (probe d)) as [Eq|(_ & _ & Hr)].
        + intros d' Hd'' Eq. apply Hi. rewrite Eq. now apply in_map.
        + now rewrite Eq.
        + exfalso. apply (Hsep (probe d) d); [now right | now left | reflexivity]. }
    split.
    + intros a [<-|Ha]; [now split | now apply Hin].
    + intros p Hp.
      destruct (Hframe p) as [Eq|(En & Eq & Epd)]; [apply Hp; now left| |];
        (destruct (Hout p) as [Eq'|(En' & Eq' & Hr)];
           [intros a Ha; apply Hp; now right| |]).
      * left. congruence.
      * right. rewrite <- Eq. repeat split; try assumption. now right.
      * right. rewrite Eq'. repeat split; try assumption. left. now rewrite Epd.
      * congruence.
Qed.

(** X10: when [verify_directories] returns [True], the base folder, the
    template-images folder and the scripts folder all exist, and none of
    them holds a [test_write.tmp] any more, also not one that was there
    before the run.  Every other path holds what it held, or has become
    a directory. *)
Theorem verified_directories_exist (w w' : World) :
  let directories := [BASE_FOLDER; TEMPLATE_IMAGES_FOLDER; SCRIPTS_FOLDER] in
  (forall d d', In d directories -> In d' directories -> probe d' <> d) ->
  verify_directories w = (Ok true, w') ->
  (forall d, In d directories -> present w' d = true /\ fs w' !! probe d = None) /\
  (forall p, (forall d, In d directories -> p <> probe d) ->
     fs w' !! p = fs w !! p \/ (fs w !! p = None /\ fs w' !! p = Some Dir)).
Proof.
  intros directories Hsep E.
  destruct (verify_each_true directories w w' E Hsep) as (A & B).
  split; [exact A|]. intros p Hp.
  destruct (B p Hp) as [Eq|(N & Eq & _)]; [now left | now right].
Qed.
End VerifyFacts.

Lemma verified_directories_exist_witness :
  let w := Sample.world ((probe (H := Sample.posix) BASE_FOLDER, TextFile "notes")
                           :: Sample.bare) Sample.no_faults in
  exists w', verify_directories (H := Sample.posix) w = (Ok true, w') /\
    present w' (SCRIPTS_FOLDER (H := Sample.posix)) = true /\
    present w (probe (H := Sample.posix) BASE_FOLDER) = true /\
    fs w' !! probe (H := Sample.posix) BASE_FOLDER = None.
Proof.
  intros w.
  assert (E : exists w', verify_directories (H := Sample.posix) w = (Ok true, w'))
    by (eexists; vm_compute; reflexivity).
  destruct E as (w' & E). exists w'. split; [exact E|].
  destruct (verified_directories_exist (H := Sample.posix) w w') as (A & _).
  - intros d d' Hd Hd'. cbn [In] in Hd, Hd'.
    destruct Hd as [<-|[<-|[<-|[]]]]; destruct Hd' as [<-|[<-|[<-|[]]]];
      apply String.eqb_neq; vm_compute; reflexivity.
  - exact E.
  - split; [|split].
    + apply (A SCRIPTS_FOLDER). cbn [In]. auto.
    + vm_compute; reflexivity.
    + apply (A BASE_FOLDER). cbn [In]. auto.
Defined.

(** ** Division by zero in the tile sizes *)

Lemma tile_dims_undefined (W : float) (reps iw ih : Z) :
  reps = 0%Z \/ ih = 0%Z -> tile_dims W reps iw ih = None.
Proof.
  intros [-> | ->]; unfold tile_dims; [reflexivity|].
  destruct (Py.truediv W (Py.float_of_int reps)); reflexivity.
Qed.

Section DivisionFacts.
Context `{Platform}.
Local Open Scope float_scope.

(** X11: with [horizontal_repeats = 0] (or an image of height 0) the
    division of line 90 (of line 91) raises; where nothing else fails,
    [create_tiled_image_pdf] then returns [False] without having
    written anything, and the document it created is left open with
    its empty page. *)
Theorem zero_repeats_is_reported (fuel : nat) (out image : string) (W Ht : float)
    (dpi reps : Z) (w : World) (iw ih : Z) :
  calm w ->
  fs w !! image = Some (ImageFile iw ih) ->
  present w (os_path_dirname out) = true ->
  reps = 0%Z \/ ih = 0%Z ->
  exists w', create_tiled_image_pdf fuel out image W Ht dpi reps w = (Ok false, w') /\
    fs w' = fs w /\
    docs w' !! next_doc w = Some [mkPage W Ht []].
Proof.
  intros Hc Himg Hdir Hz. pose proof (tile_dims_undefined W reps iw ih Hz) as Hd.
  destruct w as [fs0 cwd0 docs0 nd clk flt]. unfold calm in Hc.
  cbn [fs faults docs next_doc present] in *.
  unfold create_tiled_image_pdf.
  destruct (fs0 !! os_path_dirname out) eqn:Edir; [clear Hdir|discriminate].
  steps (rewrite ?Hc, ?Edir, ?Himg, ?Hd; cbn [im_width im_height app length]).
  eexists. split; [reflexivity|]. cbn [fs docs]. look. now split.
Qed.
End DivisionFacts.

Lemma zero_repeats_is_reported_witness :
  let w := Sample.world Sample.bare Sample.no_faults in
  exists w', create_tiled_image_pdf (H := Sample.posix) 100 Sample.tiled Sample.rose
               2171.53 5285.94 300 0 w = (Ok false, w') /\
    fs w' = fs w /\
    docs w' !! O = Some [mkPage 2171.53 5285.94 []].
Proof.
  intros w.
  apply (zero_repeats_is_reported (H := Sample.posix) 100 Sample.tiled Sample.rose
           2171.53 5285.94 300 0 w 200 100);
    [ intros op t; reflexivity | vm_compute; reflexivity | vm_compute; reflexivity
    | left; reflexivity ].
Defined.

(** ** A failed start-up verification *)

Section StartFacts.
Context `{Platform}.

Lemma verify_each_unwritable d rest w :
  (forall t, faults w (OpWrite (probe d)) t = true) ->
  exists w', verify_each (d :: rest) w = (Ok false, w') /\
    only_new_directories w w'.
Proof.
  intros Hf. destruct w as [fs0 cwd0 docs0 nd clk flt]. cbn [faults] in Hf.
  cbn [verify_each]. fold (probe d). run.
  destruct (fs0 !! d) as [n|] eqn:Ed; run.
  - rewrite Hf. run. eexists. split; [reflexivity|]. split; [reflexivity|].
    intros p. now left.
  - destruct (flt (OpMakedirs d) clk); run.
    + eexists. split; [reflexivity|]. split; [reflexivity|]. intros p. now left.
    + rewrite Ed. run. change (bool_decide (is_Some (Some tt))) with true. run.
      rewrite Hf. run. eexists. split; [reflexivity|]. split; [reflexivity|].
      intros p. run. destruct (decide (p = d)) as [->|N]; [right | left]; now look.
Qed.

(** X12: when the test file cannot be written into the base folder,
    [main] returns 1 at once: no image is looked at, no document is
    opened and no file is written or removed; at most the base folder
    has been created. *)
Theorem unwritable_base_stops_main (fuel : nat) (image_paths : list string) (w : World) :
  (forall t, faults w (OpWrite (probe BASE_FOLDER)) t = true) ->
  exists w', main fuel image_paths w = (Ok 1%Z, w') /\
    docs w' = docs w /\
    forall p, fs w' !! p = fs w !! p \/ (fs w !! p = None /\ fs w' !! p = Some Dir).
Proof.
  intros Hf.
  destruct (verify_each_unwritable BASE_FOLDER [TEMPLATE_IMAGES_FOLDER; SCRIPTS_FOLDER] w Hf)
    as (w' & E & R).
  exists w'. split; [|exact R].
  unfold main, try_except, verify_directories.
  now rewrite (bind_ok _ _ _ _ _ E).
Qed.
End StartFacts.

Lemma unwritable_base_stops_main_witness :
  let refused (op : Op) (t : nat) :=
    match op with OpWrite _ => true | _ => false end in
  let w := Sample.world Sample.bare refused in
  exists w', main (H := Sample.posix) 100 [Sample.rose] w = (Ok 1%Z, w') /\
             fs w' !! Sample.rose = fs w !! Sample.rose.
Proof.
  intros refused w.
  destruct (unwritable_base_stops_main (H := Sample.posix) 100 [Sample.rose] w)
    as (w' & E & _ & A); [intros t; reflexivity|].
  exists w'. split; [exact E|].
  destruct (A Sample.rose) as [Eq|[N _]]; [exact Eq | discriminate N].
Defined.

(** ** The fallback footer of the overlay *)

Section FallbackFacts.
Context `{Platform}.
Local Open Scope float_scope.

Lemma locate_present footer out W w :
  present w footer = true -> locate_footer footer out W w = (Ok (Some footer), w).
Proof.
  intros Hp. unfold locate_footer.
  now rewrite (bind_ok (os_path_exists footer) _ w true w)
    by (unfold os_path_exists, get; now rewrite Hp).
Qed.

Lemma locate_fallback footer out W w p :
  present w footer = false ->
  List.find (present w) fallback_paths = Some p ->
  locate_footer footer out W w = (Ok (Some p), w).
Proof.
  intros Hp Hfind. unfold locate_footer.
  rewrite (bind_ok (os_path_exists footer) _ w false w)
    by (unfold os_path_exists, get; now rewrite Hp).
  rewrite (bind_ok _ _ _ _ _ (first_existing_finds fallback_paths w)).
  now rewrite Hfind.
Qed.

(** X13: when there is no file at the footer path it is given, the
    overlay looks for [Footer.pdf] in the template-images folder, then
    in the scripts folder, then in the base folder, and goes on exactly
    as if it had been called with the first of these that exists: no
    placeholder is made. *)
Theorem overlay_takes_first_fallback (base footer out : string) (W Ht : float)
    (name rw rl : string) (w : World) (p : string) :
  present w footer = false ->
  List.find (present w)
    [os_path_join TEMPLATE_IMAGES_FOLDER "Footer.pdf";
     os_path_join SCRIPTS_FOLDER "Footer.pdf";
     os_path_join BASE_FOLDER "Footer.pdf"] = Some p ->
  locate_footer footer out W w = (Ok (Some p), w) /\
  overlay_footer_and_add_text base footer out W Ht name rw rl w =
  overlay_footer_and_add_text base p out W Ht name rw rl w.
Proof.
  intros Hp Hfind. pose proof (locate_fallback footer out W w p Hp Hfind) as L.
  split; [exact L|].
  apply find_some in Hfind as [_ Hpp].
  pose proof (locate_present p out W w Hpp) as L'.
  unfold overlay_footer_and_add_text, try_except.
  rewrite !(bind_ok (os_path_exists base) _ w (present w base) w eq_refl).
  destruct (present w base); cbn [negb]; [|reflexivity].
  now rewrite (bind_ok _ _ _ _ _ L), (bind_ok _ _ _ _ _ L').
Qed.
End FallbackFacts.

Lemma overlay_takes_first_fallback_witness :
  let w := Sample.world Sample.base_footer_only Sample.no_faults in
  let found := @os_path_join Sample.posix BASE_FOLDER "Footer.pdf" in
  present w (FOOTER_PATH (H := Sample.posix)) = false /\
  locate_footer (H := Sample.posix) (FOOTER_PATH (H := Sample.posix)) Sample.tiled
    2171.53 w = (Ok (Some found), w).
Proof.
  intros w found. assert (Hp : present w (FOOTER_PATH (H := Sample.posix)) = false)
    by (vm_compute; reflexivity).
  split; [exact Hp|].
  refine (proj1 (overlay_takes_first_fallback (H := Sample.posix) Sample.tiled
                   (FOOTER_PATH (H := Sample.posix)) Sample.tiled 2171.53 5285.94 "rose" "30'" "6'" w found Hp _)).
  vm_compute; reflexivity.
Defined.

(** ** A placeholder footer that cannot be made *)

Section PlaceholderFacts.
Context `{Platform}.
Local Open Scope float_scope.

Lemma simple_footer_save_refused path width height w :
  fails_exactly save_refused w ->
  exists w', create_simple_footer path width height w = (Exn, w') /\
    fs w' = fs w /\
    docs w' !! next_doc w = Some [simple_footer_page width height] /\
    docs w' !! S (next_doc w) = docs w !! S (next_doc w).
Proof.
  destruct w as [fs0 cwd0 docs0 nd clk flt]. unfold fails_exactly. cbn [faults fs docs].
  intros Hc. unfold create_simple_footer.
  steps (rewrite ?Hc; pages; cbn [save_refused]).
  eexists. split; [reflexivity|]. cbn [fs docs next_doc]. look. now repeat split.
Qed.

(** X14: with no footer file at the given path nor at any fallback
    location, an exception inside [create_simple_footer] ends the overlay
    with [False] before the base document is opened.  When it is
    [doc.save] that fails, nothing has been written and the placeholder
    document is left open. *)
Theorem failed_placeholder_ends_overlay (base footer out : string) (W Ht : float)
    (name rw rl : string) (w : World) :
  present w base = true ->
  present w footer = false ->
  Forall (fun p => present w p = false) fallback_paths ->
  let simple := simple_footer_path out in
  (forall w1, create_simple_footer simple W 100 w = (Exn, w1) ->
     overlay_footer_and_add_text base footer out W Ht name rw rl w = (Ok false, w1)) /\
  (fails_exactly save_refused w ->
     exists w1, overlay_footer_and_add_text base footer out W Ht name rw rl w = (Ok false, w1) /\
       fs w1 = fs w /\
       docs w1 !! next_doc w = Some [simple_footer_page W 100] /\
       docs w1 !! S (next_doc w) = docs w !! S (next_doc w)).
Proof.
  intros Hb Hfoot Hfall simple.
  assert (G : forall w1, create_simple_footer simple W 100 w = (Exn, w1) ->
            overlay_footer_and_add_text base footer out W Ht name rw rl w = (Ok false, w1)).
  { intros w1 E.
    assert (L : locate_footer footer out W w = (Ok None, w1)).
    { unfold locate_footer.
      rewrite (bind_ok (os_path_exists footer) _ w false w)
        by (unfold os_path_exists, get; now rewrite Hfoot).
      rewrite (bind_ok _ _ _ _ _ (first_existing_finds fallback_paths w)).
      rewrite (find_absent _ _ Hfall). fold simple.
      unfold bind, attempt, try_except, bind. rewrite E. reflexivity. }
    unfold overlay_footer_and_add_text, try_except.
    rewrite (bind_ok (os_path_exists base) _ w true w)
      by (unfold os_path_exists, get; now rewrite Hb).
    cbn [negb]. now rewrite (bind_ok _ _ _ _ _ L). }
  split; [exact G|]. intros Hc.
  destruct (simple_footer_save_refused simple W 100 w Hc) as (w1 & E & A & B & C).
  exists w1. split; [exact (G w1 E)|]. now repeat split.
Qed.
End PlaceholderFacts.

Lemma failed_placeholder_ends_overlay_witness :
  let w := Sample.world Sample.with_tiled (fun op _ => save_refused op) in
  exists w1,
    overlay_footer_and_add_text (H := Sample.posix) Sample.tiled
      (FOOTER_PATH (H := Sample.posix)) Sample.tiled 2171.53 5285.94
      "rose" "30'" "6'" w = (Ok false, w1) /\
    fs w1 = fs w /\
    docs w1 !! O = Some [simple_footer_page 2171.53 100].
Proof.
  intros w.
  destruct (failed_placeholder_ends_overlay (H := Sample.posix) Sample.tiled
              (FOOTER_PATH (H := Sample.posix)) Sample.tiled 2171.53 5285.94
              "rose" "30'" "6'" w) as (_ & R);
    [ vm_compute; reflexivity | vm_compute; reflexivity
    | unfold fallback_paths; repeat constructor; vm_compute; reflexivity | ].
  destruct R as (w1 & E & A & B & _); [intros op t; reflexivity|].
  exists w1. split; [exact E|]. split; [exact A | exact B].
Defined.

(** ** A file that is not an image *)

Section NotAnImage.
Context `{Platform}.
Local Open Scope float_scope.

Lemma only_new_directories_refl w : only_new_directories w w.
Proof. split; [reflexivity|]. intros p. now left. Qed.

Lemma only_new_directories_trans w1 w2 w3 :
  only_new_directories w1 w2 -> only_new_directories w2 w3 -> only_new_directories w1 w3.
Proof.
  intros [D1 F1] [D2 F2]. split; [congruence|]. intros p.
  destruct (F1 p) as [E1|[N1 E1]], (F2 p) as [E2|[N2 E2]].
  - left. congruence.
  - right. split; congruence.
  - right. split; congruence.
  - congruence.
Qed.

Lemma other_file_kept image w w' :
  other_file image w -> only_new_directories w w' -> other_file image w'.
Proof.
  unfold other_file, present. intros [P I] [_ F].
  destruct (F image) as [E|[N _]]; [now rewrite E | now rewrite N in P].
Qed.

Lemma create_tiled_not_image fuel out image W Ht dpi reps w :
  other_file image w ->
  exists w', create_tiled_image_pdf fuel out image W Ht dpi reps w = (Ok false, w') /\
             only_new_directories w w'.
Proof.
  unfold other_file, only_new_directories.
  destruct w as [fs0 cwd0 docs0 nd clk flt]. cbn [present fs docs]. intros [P I].
  unfold create_tiled_image_pdf. set (dir := os_path_dirname out).
  destruct (fs0 !! image) as [n|] eqn:Ei; [clear P|discriminate].
  destruct (fs0 !! dir) as [dn|] eqn:Ed.
  - steps (rewrite ?Ed, ?Ei).
    destruct (flt (OpImageOpen image) clk); destruct n; try discriminate I; run;
      (eexists; split; [reflexivity|]); (split; [reflexivity|]); intros p; now left.
  - steps (rewrite ?Ed).
    destruct (flt (OpMakedirs dir) clk); run.
    + eexists. split; [reflexivity|]. split; [reflexivity|]. intros p; now left.
    + assert (Hne : dir <> image) by congruence.
      steps (rewrite ?Ed, ?Ei).
      destruct (flt (OpImageOpen image) (S clk)); destruct n; try discriminate I; run;
        (eexists; split; [reflexivity|]); (split; [reflexivity|]); intros p; cbn [fs];
        (destruct (decide (p = dir)) as [->|N]; [right | left]; now look).
Qed.

Lemma generate_not_image fuel out image W Ht footer name rl w :
  other_file image w ->
  exists w', generate fuel out image W Ht footer name rl w = (Ok false, w') /\
             only_new_directories w w'.
Proof.
  intros Hi.
  destruct (create_tiled_not_image fuel out image W Ht 300 6 w Hi) as (w' & E & R).
  exists w'. split; [|exact R]. unfold generate, try_except.
  now rewrite (bind_ok _ _ _ _ _ E).
Qed.

Lemma retry_not_image fuel out image W Ht footer name rl n : forall w,
  other_file image w ->
  exists w', retry n (generate fuel out image W Ht footer name rl) w = (Ok false, w') /\
             only_new_directories w w'.
Proof.
  induction n as [|n IH]; intros w Hi.
  - exists w. split; [reflexivity | apply only_new_directories_refl].
  - destruct (generate_not_image fuel out image W Ht footer name rl w Hi) as (w1 & E & R).
    destruct (IH w1 (other_file_kept image w w1 Hi R)) as (w' & E' & R').
    exists w'. split; [|exact (only_new_directories_trans _ _ _ R R')].
    cbn [retry]. now rewrite (bind_ok _ _ _ _ _ E).
Qed.

Lemma getcwd_outcome w :
  os_getcwd w = (if faults w OpGetcwd (clock w) then Exn else Ok (cwd w), tick w).
Proof.
  destruct w as [fs0 cwd0 docs0 nd clk flt]. unfold os_getcwd. run.
  now destruct (flt OpGetcwd clk).
Qed.

(** X15: an image path that names a file which is not an image costs the
    six attempts and nothing else: whatever the fuel and whatever fails
    but [os.getcwd], the image's turn of the loop ends normally, no
    document is left open and no file is written or removed; at most
    directories are created.  When [os.getcwd] fails, the turn raises
    before the first attempt. *)
Theorem unreadable_image_writes_nothing (fuel : nat) (footer image : string) (w : World) :
  present w image = true ->
  is_image (fs w !! image) = false ->
  (faults w OpGetcwd (clock w) = false ->
     exists w', process_image fuel footer image w = (Ok tt, w') /\
       docs w' = docs w /\
       forall p, fs w' !! p = fs w !! p \/ (fs w !! p = None /\ fs w' !! p = Some Dir)) /\
  (faults w OpGetcwd (clock w) = true ->
     process_image fuel footer image w = (Exn, tick w)).
Proof.
  intros P I. assert (Hi : other_file image (tick w)) by now split.
  pose proof (getcwd_outcome w) as G.
  split; intros Hf; rewrite Hf in G; unfold process_image;
    rewrite (bind_ok (os_path_exists image) _ w true w)
      by (unfold os_path_exists, get; now rewrite P);
    cbn [negb]; [|now rewrite (bind_exn _ _ _ _ G)].
  rewrite (bind_ok _ _ _ _ _ G).
  match goal with
  | |- context [retry _ (generate _ ?out _ ?W ?Ht _ ?name ?rl)] =>
      destruct (retry_not_image fuel out image W Ht footer name rl max_attempts (tick w) Hi)
        as (w1 & E1 & R1)
  end.
  rewrite (bind_ok _ _ _ _ _ E1).
  match goal with
  | |- context [retry _ (generate _ ?out _ ?W ?Ht _ ?name ?rl)] =>
      destruct (retry_not_image fuel out image W Ht footer name rl max_attempts w1
                  (other_file_kept image (tick w) w1 Hi R1)) as (w2 & E2 & R2)
  end.
  rewrite (bind_ok _ _ _ _ _ E2).
  exists w2. split; [reflexivity|].
  exact (only_new_directories_trans (tick w) w1 w2 R1 R2).
Qed.
End NotAnImage.

Lemma unreadable_image_writes_nothing_witness :
  let w := Sample.world (("/data/notes.png", TextFile "not a picture") :: Sample.bare)
             Sample.no_faults in
  exists w', process_image (H := Sample.posix) 100 (FOOTER_PATH (H := Sample.posix))
               "/data/notes.png" w = (Ok tt, w') /\
    docs w' = docs w.
Proof.
  intros w.
  destruct (unreadable_image_writes_nothing (H := Sample.posix) 100
              (FOOTER_PATH (H := Sample.posix)) "/data/notes.png" w)
    as (R & _); [vm_compute; reflexivity | vm_compute; reflexivity |].
  destruct R as (w' & E & D & _); [reflexivity|].
  exists w'. split; [exact E | exact D].
Defined.

(** ** Tiling and footer in one pass *)

Section Pipeline.
Context `{Platform}.
Local Open Scope float_scope.

Lemma calm_insert_refused w : calm w -> fails_exactly (insert_refused (fun _ => false)) w.
Proof. intros Hc op t. rewrite Hc. now destruct op. Qed.

Lemma kept_all rects : kept (fun _ => false) rects = rects.
Proof.
  unfold kept. induction rects as [|r l IH]; [reflexivity|].
  cbn [List.filter negb] in *. now rewrite IH.
Qed.

Lemma overlay_is_compose base footer out W Ht name rw rl w w' :
  present w base = true -> present w footer = true ->
  compose_footer base footer out W Ht name rw rl w = (Ok true, w') ->
  overlay_footer_and_add_text base footer out W Ht name rw rl w = (Ok true, w').
Proof.
  intros Hb Hf E. unfold overlay_footer_and_add_text, try_except.
  rewrite (bind_ok (os_path_exists base) _ w true w)
    by (unfold os_path_exists, get; now rewrite Hb).
  cbn [negb]. rewrite (bind_ok _ _ _ _ _ (locate_present footer out W w Hf)).
  now rewrite E.
Qed.

(** X16: one pass of the retry loop where nothing fails: the tiled page
    is written to the output path and the overlay then replaces it by
    the same page with the footer image and the three texts after the
    tiles; roll width is ['30'']. *)
Theorem tiling_then_footer (fuel : nat) (out image : string) (W Ht : float)
    (footer name rl : string) (w : World) (iw ih : Z) (tw th : float) (wpx hpx : Z)
    (rects : list Rect) (fpg : Page) (frest : list Page) (q : float) :
  calm w ->
  fs w !! image = Some (ImageFile iw ih) ->
  tile_dims W 6 iw ih = Some (tw, th) ->
  Py.int_of_float (tw * (300 / 72)) = Some wpx ->
  Py.int_of_float (th * (300 / 72)) = Some hpx ->
  (0 < wpx)%Z -> (0 < hpx)%Z ->
  tile_rects W Ht tw th fuel = Some rects ->
  fs w !! footer = Some (PdfFile (fpg :: frest)) ->
  Py.int_truediv (snd (render_size fpg)) (fst (render_size fpg)) = Some q ->
  let temp_dir := temp_dir_of out in
  let scaled := scaled_image_path_of out image in
  present w (os_path_dirname out) = true ->
  is_file (fs w !! temp_dir) = false ->
  is_dir (fs w !! scaled) = false -> is_dir (fs w !! out) = false ->
  is_dir (fs w !! temp_path out) = false ->
  scaled <> temp_dir -> out <> temp_dir -> temp_path out <> temp_dir ->
  footer <> out -> footer <> scaled -> temp_path out <> out ->
  exists w',
    generate fuel out image W Ht footer name rl w = (Ok true, w') /\
    fs w' !! out =
      Some (PdfFile [composed (mkPage W Ht (tile_pictures scaled rects)) (pixmap_of fpg)
                       W Ht (q * W) name "30'" rl]).
Proof.
  intros Hc Himg Hdims Hwpx Hhpx _ _ Hrects Hfoot Hq temp_dir scaled
    Hdir Htd Hsc Hout Htp Hst Hot Htt Hfo Hfs Hne.
  destruct (create_tiled_run (fun _ => false) fuel out image W Ht 300 6 w iw ih tw th
              (300 / 72) wpx hpx rects (calm_insert_refused w Hc) Himg Hdims eq_refl
              Hwpx Hhpx Hrects Hdir Htd Hsc Hout Hst Hot)
    as (w1 & E1 & Eo & Es & Ed & _ & Hf1 & Hframe).
  fold temp_dir in Ed, Hframe. fold scaled in Eo, Es, Hframe. rewrite kept_all in Eo.
  assert (Hc1 : calm w1).
  { intros op t. rewrite Hf1. now destruct op. }
  assert (Hft : footer <> temp_dir).
  { intros ->. now rewrite Hfoot in Htd. }
  assert (Hfoot1 : fs w1 !! footer = Some (PdfFile (fpg :: frest))).
  { now rewrite Hframe. }
  assert (Htp1 : is_dir (fs w1 !! temp_path out) = false).
  { destruct (decide (temp_path out = scaled)) as [Eq|N].
    - rewrite Eq, Es; [reflexivity|]. congruence.
    - now rewrite Hframe. }
  assert (Hout1 : is_dir (fs w1 !! out) = false) by now rewrite Eo.
  destruct (compose_footer_calm out footer out W Ht name "30'" rl w1 _ [] fpg frest q
              Hc1 Eo Hfoot1 Hq Htp1 Hout1 Hne) as (w' & E & Eo' & _).
  exists w'. split; [|exact Eo'].
  unfold generate, try_except. rewrite (bind_ok _ _ _ _ _ E1).
  rewrite (overlay_is_compose out footer out W Ht name "30'" rl w1 w'); [reflexivity | | |exact E].
  - unfold present. now rewrite Eo.
  - unfold present. now rewrite Hfoot1.
Qed.
End Pipeline.

Lemma tiling_then_footer_witness :
  let w := Sample.world
             ((FOOTER_PATH (H := Sample.posix), PdfFile [Sample.footer_page]) :: Sample.bare)
             Sample.no_faults in
  exists w' rects,
    tile_rects 2171.53 5285.94 (2171.53 / 6) (2171.53 / 6 / (200 / 100)) 100 = Some rects /\
    generate (H := Sample.posix) 100 Sample.tiled Sample.rose 2171.53 5285.94
      (FOOTER_PATH (H := Sample.posix)) "rose" "6'" w = (Ok true, w') /\
    fs w' !! Sample.tiled =
      Some (PdfFile
              [composed (mkPage 2171.53 5285.94
                           (tile_pictures "/work/temp/scaled_image_rose.png" rects))
                 (mkPixmap 612 100) 2171.53 5285.94 (Cases.footer_ratio * 2171.53)
                 "rose" "30'" "6'"]).
Proof.
  intros w.
  edestruct (tiling_then_footer (H := Sample.posix) 100 Sample.tiled Sample.rose
               2171.53 5285.94 (FOOTER_PATH (H := Sample.posix)) "rose" "6'" w 200 100)
    as (w' & E & Eo);
    [ intros op t; reflexivity | vm_compute; reflexivity | vm_compute; reflexivity
    | vm_compute; reflexivity | vm_compute; reflexivity | vm_compute; reflexivity
    | vm_compute; reflexivity | vm_compute; reflexivity | vm_compute; reflexivity
    | vm_compute; reflexivity | vm_compute; reflexivity | vm_compute; reflexivity
    | vm_compute; reflexivity | vm_compute; reflexivity | vm_compute; reflexivity
    | vm_compute; discriminate | vm_compute; discriminate | vm_compute; discriminate
    | vm_compute; discriminate | vm_compute; discriminate | vm_compute; discriminate | ].
  exists w'. eexists. split; [vm_compute; reflexivity|].
  split; [exact E | exact Eo].
Defined.

(** ** Failures before the text *)

Section EarlyFailures.
Context `{Platform}.
Local Open Scope float_scope.

(** X17: when [get_pixmap] fails, or the [insert_image] of the footer,
    the overlay returns [False] having written nothing, and here it has
    closed both documents. *)
Theorem early_failures_close_documents (base footer out : string) (W Ht : float)
    (name rw rl : string) (w : World) (pg : Page) (rest : list Page)
    (fpg : Page) (frest : list Page) (q : float) :
  fs w !! base = Some (PdfFile (pg :: rest)) ->
  fs w !! footer = Some (PdfFile (fpg :: frest)) ->
  Py.int_truediv (snd (render_size fpg)) (fst (render_size fpg)) = Some q ->
  fails_exactly pixmap_refused w \/ fails_exactly (insert_refused (fun _ => true)) w ->
  exists w', overlay_footer_and_add_text base footer out W Ht name rw rl w = (Ok false, w') /\
    fs w' = fs w /\
    docs w' !! next_doc w = None /\ docs w' !! S (next_doc w) = None.
Proof.
  destruct w as [fs0 cwd0 docs0 nd clk flt]. unfold fails_exactly.
  cbn [faults fs docs next_doc]. intros Hb Hf Hq [Hc|Hc];
    unfold overlay_footer_and_add_text, locate_footer, compose_footer, open_documents,
      footer_band;
    steps (rewrite ?Hc, ?Hb, ?Hf, ?Hq; pages;
           cbn [pix_width pix_height pixmap_refused insert_refused]);
    (eexists; split; [reflexivity|]); cbn [fs docs]; look; now repeat split.
Qed.
End EarlyFailures.

Lemma early_failures_close_documents_witness :
  let w := Sample.world Sample.with_footer (fun op _ => pixmap_refused op) in
  exists w', overlay_footer_and_add_text (H := Sample.posix) Sample.tiled
               (FOOTER_PATH (H := Sample.posix)) Sample.tiled 2171.53 5285.94
               "rose" "30'" "6'" w = (Ok false, w') /\
    fs w' = fs w /\ docs w' !! O = None /\ docs w' !! 1%nat = None.
Proof.
  intros w.
  apply (early_failures_close_documents (H := Sample.posix) Sample.tiled
           (FOOTER_PATH (H := Sample.posix)) Sample.tiled 2171.53 5285.94
           "rose" "30'" "6'" w Sample.blank [] Sample.footer_page [] Cases.footer_ratio);
    [ vm_compute; reflexivity | vm_compute; reflexivity | vm_compute; reflexivity
    | left; intros op t; reflexivity ].
Defined.

(** ** A verification that succeeds *)

Section VerifySucceeds.
Context `{Platform}.

Lemma verify_step_calm d rest w :
  calm w -> is_file (fs w !! d) = false -> is_dir (fs w !! probe d) = false ->
  probe d <> d ->
  exists w1, verify_each (d :: rest) w = verify_each rest w1 /\ calm w1 /\
    fs w1 !! d = Some Dir /\ fs w1 !! probe d = None /\
    (forall p, p <> d -> p <> probe d -> fs w1 !! p = fs w !! p).
Proof.
  destruct w as [fs0 cwd0 docs0 nd clk flt]. unfold calm. cbn [faults fs].
  intros Hc Hd Hp Hne. cbn [verify_each]. fold (probe d).
  destruct (fs0 !! d) as [[]|] eqn:Ed; try discriminate Hd.
  - steps (rewrite ?Hc, ?Ed, ?Hp).
    eexists. split; [reflexivity|]. cbn [fs faults]. look.
    repeat split; try assumption. intros p N1 N2. now look.
  - steps (rewrite ?Hc, ?Ed, ?Hp).
    change (bool_decide (is_Some (Some tt))) with true.
    steps (rewrite ?Hc, ?Ed, ?Hp).
    eexists. split; [reflexivity|]. cbn [fs faults]. look.
    repeat split; try assumption. intros p N1 N2. now look.
Qed.

Lemma verify_each_calm dirs : forall w,
  calm w ->
  (forall d, In d dirs ->
     is_file (fs w !! d) = false /\ is_dir (fs w !! probe d) = false) ->
  (forall d d', In d dirs -> In d' dirs -> probe d' <> d) ->
  exists w', verify_each dirs w = (Ok true, w').
Proof.
  induction dirs as [|d rest IH]; intros w Hc Hok Hsep.
  - exists w. reflexivity.
  - destruct (Hok d) as [Hd Hp]; [now left|].
    destruct (verify_step_calm d rest w Hc Hd Hp) as (w1 & E & Hc1 & Ed & Ep & Hframe);
      [apply Hsep; now left|].
    rewrite E. apply IH; [exact Hc1| |intros a b Ha Hb; apply Hsep; now right].
    intros a Ha. destruct (Hok a) as [Ha1 Ha2]; [now right|]. split.
    + destruct (decide (a = d)) as [->|N]; [now rewrite Ed|].
      rewrite Hframe; [exact Ha1 | exact N |].
      apply not_eq_sym, Hsep; [now right | now left].
    + destruct (decide (probe a = probe d)) as [Eq|N]; [now rewrite Eq, Ep|].
      rewrite Hframe; [exact Ha2 | | exact N].
      apply Hsep; [now left | now right].
Qed.

(** X18: where nothing fails, none of the three folders is a regular
    file and none of the test file names is taken by a directory,
    [verify_directories] returns [True]. *)
Theorem verification_succeeds (w : World) :
  let directories := [BASE_FOLDER; TEMPLATE_IMAGES_FOLDER; SCRIPTS_FOLDER] in
  calm w ->
  (forall d, In d directories ->
     is_file (fs w !! d) = false /\ is_dir (fs w !! probe d) = false) ->
  (forall d d', In d directories -> In d' directories -> probe d' <> d) ->
  exists w', verify_directories w = (Ok true, w').
Proof.
  intros directories Hc Hok Hsep. exact (verify_each_calm directories w Hc Hok Hsep).
Qed.
End VerifySucceeds.

Lemma verification_succeeds_witness :
  exists w', verify_directories (H := Sample.posix)
               (Sample.world Sample.bare Sample.no_faults) = (Ok true, w').
Proof.
  apply (verification_succeeds (H := Sample.posix)).
  - intros op t. reflexivity.
  - intros d Hd. cbn [In] in Hd.
    destruct Hd as [<-|[<-|[<-|[]]]]; split; vm_compute; reflexivity.
  - intros d d' Hd Hd'. cbn [In] in Hd, Hd'.
    destruct Hd as [<-|[<-|[<-|[]]]]; destruct Hd' as [<-|[<-|[<-|[]]]];
      apply String.eqb_neq; vm_compute; reflexivity.
Defined.

(** ** The further statements at sample worlds *)

Module MoreRuns.
Import Sample Cases.
Local Open Scope float_scope.

Lemma overlay_without_pdf_in_path_witness :
  let w := world ((plain_out, TextFile "kept") :: with_footer) no_faults in
  temp_path plain_out = plain_out /\
  exists w', overlay_footer_and_add_text tiled FOOTER_PATH plain_out 2171.53 5285.94
               "rose" "30'" "6'" w = (Ok false, w') /\
             fs w' !! plain_out = None.
Proof.
  intros w. assert (Et : temp_path plain_out = plain_out) by (vm_compute; reflexivity).
  split; [exact Et|].
  destruct (overlay_without_pdf_in_path tiled FOOTER_PATH plain_out 2171.53 5285.94
              "rose" "30'" "6'" w blank [] footer_page [] footer_ratio)
    as (w' & E & A & _);
    [ intros op t; reflexivity | vm_compute; reflexivity | vm_compute; reflexivity
    | vm_compute; reflexivity | vm_compute; reflexivity | vm_compute; discriminate
    | exact Et | ].
  exists w'. split; assumption.
Defined.

Lemma overlay_without_text_witness :
  let w := world with_footer (fun op _ => text_refused op) in
  exists w', overlay_footer_and_add_text tiled FOOTER_PATH tiled 2171.53 5285.94
               "rose" "30'" "6'" w = (Ok true, w') /\
             fs w' !! tiled =
               Some (PdfFile
                 [mkPage 2171.53 5285.94
                    [Picture (mkRect 0 (5285.94 - footer_ratio * 2171.53) 2171.53 5285.94)
                       (FromPixmap 612 100)]]).
Proof.
  intros w.
  destruct (overlay_without_text tiled FOOTER_PATH tiled 2171.53 5285.94
              "rose" "30'" "6'" w blank [] footer_page [] footer_ratio)
    as (w' & E & A);
    [ intros op t; reflexivity | vm_compute; reflexivity | vm_compute; reflexivity
    | vm_compute; reflexivity | vm_compute; reflexivity | vm_compute; reflexivity
    | vm_compute; discriminate | ].
  exists w'. split; [exact E | exact A].
Defined.

Lemma overlay_rejects_empty_documents_witness :
  let w := world with_empty_base no_faults in
  unusable (fs w !! tiled) = true /\
  exists w', overlay_footer_and_add_text tiled FOOTER_PATH tiled 2171.53 5285.94
               "rose" "30'" "6'" w = (Ok false, w') /\
             fs w' = fs w.
Proof.
  intros w. split; [vm_compute; reflexivity|].
  apply (overlay_rejects_empty_documents tiled FOOTER_PATH tiled 2171.53 5285.94
           "rose" "30'" "6'" w); vm_compute; reflexivity.
Defined.

Lemma documents_left_open_by_failed_save_witness :
  let w := world with_footer (fun op _ => save_refused op) in
  exists w', overlay_footer_and_add_text tiled FOOTER_PATH tiled 2171.53 5285.94
               "rose" "30'" "6'" w = (Ok false, w') /\
             fs w' = fs w /\
             docs w' !! 1%nat = Some [footer_page].
Proof.
  intros w.
  destruct (documents_left_open_by_failed_save tiled FOOTER_PATH tiled 2171.53 5285.94
              "rose" "30'" "6'" w blank [] footer_page [] footer_ratio)
    as (_ & R);
    [ vm_compute; reflexivity | vm_compute; reflexivity | vm_compute; reflexivity | ].
  destruct R as (w' & E & A & _ & B); [intros op t; reflexivity|].
  exists w'. split; [exact E|]. split; [exact A | exact B].
Defined.

End MoreRuns.
